(** * The COLIN filing ledger: [colin_api.models.filing.Filing]

    A shallow embedding of the [Filing] model of colin-api
    (src/colin-api/src/colin_api/models/filing.py) and the properties of its
    code registry, its ledger writer and its filing reconstructor. *)

From Stdlib Require Import String List ZArith Bool Lia.
Import ListNotations.

Local Open Scope string_scope.
Local Open Scope Z_scope.

(** ** Python values used by the model *)

Module Business.

(** [Business.TypeCodes] is declared in colin_api/models/business.py.  Only
    the members named in filing.py are listed; the string behind a member is
    not visible from filing.py and is kept symbolic (see [pykey]). *)
Inductive TypeCodes : Type :=
| COOP | BCOMP | BC_COMP | ULC_COMP | CCC_COMP
| BCOMP_CONTINUE_IN | CONTINUE_IN | ULC_CONTINUE_IN | CCC_CONTINUE_IN.

Definition TypeCodes_eqb (a b : TypeCodes) : bool :=
  match a, b with
  | COOP, COOP | BCOMP, BCOMP | BC_COMP, BC_COMP | ULC_COMP, ULC_COMP
  | CCC_COMP, CCC_COMP | BCOMP_CONTINUE_IN, BCOMP_CONTINUE_IN
  | CONTINUE_IN, CONTINUE_IN | ULC_CONTINUE_IN, ULC_CONTINUE_IN
  | CCC_CONTINUE_IN, CCC_CONTINUE_IN => true
  | _, _ => false
  end.

End Business.

(** A Python [str] as filing.py sees it: the [.value] of one of the
    [Business.TypeCodes] members above, or any other string, given by its
    text.  Two members have different values (they are different members of
    one Enum), and [Lit s] is a string that is the value of none of them: the
    literal keys of [FILING_TYPES], a sub-type, the type of an entity that is
    none of the nine. *)
Inductive pykey : Type :=
| Lit (s : string)
| TypeCode (t : Business.TypeCodes).

Definition pykey_eqb (a b : pykey) : bool :=
  match a, b with
  | Lit s, Lit s' => String.eqb s s'
  | TypeCode t, TypeCode t' => Business.TypeCodes_eqb t t'
  | _, _ => false
  end.

(** The values stored in the inner dictionaries of [FILING_TYPES]: a code or
    property name, a list of codes or sub-types, a per-entity-type code map. *)
Inductive pyval : Type :=
| VStr (s : string)
| VList (l : list string)
| VDict (d : list (pykey * string)).

(** Exceptions raised by the modelled code. *)
Inductive exn : Type :=
| InvalidFilingTypeException (filing_type : option pyval)
| FilingNotFoundException (identifier : string) (filing_type : string)
| OfficeNotFoundException (identifier : string)
| PartiesNotFoundException (identifier : string)
| GenericException (error : string) (status_code : Z)
| KeyError (key : pykey)
| AttributeError
| TypeError
| UnboundLocalError.

Inductive result (A : Type) : Type :=
| Ok (a : A)
| Raise (e : exn).
Arguments Ok {A} a.
Arguments Raise {A} e.

(** [dict.get(k)] on a dictionary kept in insertion order. *)
Fixpoint dict_get {K V : Type} (eqb : K -> K -> bool) (d : list (K * V)) (k : K)
  : option V :=
  match d with
  | [] => None
  | (k', v) :: d' => if eqb k' k then Some v else dict_get eqb d' k
  end.

Definition str_in (s : string) (l : list string) : bool :=
  existsb (String.eqb s) l.

(** Truthiness of an optional string: [None] and [''] are falsy. *)
Definition truthy_str (o : option string) : bool :=
  match o with
  | Some s => negb (String.eqb s "")
  | None => false
  end.

(** [a or b] on optional strings. *)
Definition py_or (a b : option string) : option string :=
  if truthy_str a then a else b.

(** [x in v]: list membership, key membership or substring. *)
Definition py_contains (x : string) (v : pyval) : bool :=
  match v with
  | VList l => str_in x l
  | VDict d => existsb (fun kv => pykey_eqb (fst kv) (Lit x)) d
  | VStr s => match String.index 0 x s with Some _ => true | None => false end
  end.

(** ** The in-memory filing aggregate *)

Record court_order : Type := {
  co_effectOfOrder : option string;
  co_fileNumber : option string
}.

(** An officer of an incoming director entry: a flat JSON object. *)
Definition officer_json : Type := list (string * string).

(** A director entry of [filing.body['directors']]; [d_prev_id] is the
    ['prev_id'] key that [_process_directors] adds. *)
Record director : Type := {
  d_officer : officer_json;
  d_actions : list string;
  d_prev_id : option Z
}.

Record translation : Type := { t_name : string }.

(** The keys of [filing.body] read by the modelled functions; [None] and
    [[]] stand for an absent key. *)
Record filing_body : Type := {
  annualReportDate : option string;
  annualGeneralMeetingDate : option string;
  effectOfOrder : option string;
  fileNumber : option string;
  courtOrder : option court_order;
  contactPoint_email : option (option string);
  directors : list director;
  nameTranslations : list translation
}.

Record filing_header : Type := {
  certifiedBy : string;
  h_email : option string;
  source : option string
}.

Record business : Type := {
  corp_num : string;
  corp_type : pykey
}.

Record Filing : Type := {
  f_business : business;
  filing_type : string;
  filing_sub_type : option string;
  event_id : option Z;
  effective_date : string;
  filing_date : string;
  user_id : option string;
  header : filing_header;
  body : filing_body
}.

(** ** The code registry *)

Module Registry.
Import Business.

Definition type_codes (l : list (TypeCodes * string)) : list (pykey * pyval) :=
  map (fun p => (TypeCode (fst p), VStr (snd p))) l.

Definition code_map (l : list (TypeCodes * string)) : pyval :=
  VDict (map (fun p => (TypeCode (fst p), snd p)) l).

Definition FILING_TYPES : list (string * list (pykey * pyval)) :=
  [ ("annualReport",
     (Lit "type_code_list", VList ["OTANN"; "ANNBC"]) ::
     type_codes [(COOP, "OTANN"); (BCOMP, "ANNBC"); (BC_COMP, "ANNBC");
                 (ULC_COMP, "ANNBC"); (CCC_COMP, "ANNBC")]);
    ("changeOfDirectors",
     (Lit "type_code_list", VList ["OTCDR"; "NOCDR"]) ::
     type_codes [(COOP, "OTCDR"); (BCOMP, "NOCDR"); (BC_COMP, "NOCDR");
                 (ULC_COMP, "NOCDR"); (CCC_COMP, "NOCDR")]);
    ("changeOfAddress",
     (Lit "type_code_list", VList ["OTADD"; "NOCAD"]) ::
     type_codes [(COOP, "OTADD"); (BCOMP, "NOCAD"); (BC_COMP, "NOCAD");
                 (ULC_COMP, "NOCAD"); (CCC_COMP, "NOCAD")]);
    ("incorporationApplication",
     (Lit "type_code_list", VList ["OTINC"; "BEINC"; "ICORP"; "ICORU"; "ICORC"]) ::
     type_codes [(COOP, "OTINC"); (BCOMP, "BEINC"); (BC_COMP, "ICORP");
                 (ULC_COMP, "ICORU"); (CCC_COMP, "ICORC")]);
    ("continuationIn",
     (Lit "type_code_list", VList ["CONTB"; "CONTI"; "CONTU"; "CONTC"]) ::
     type_codes [(BCOMP_CONTINUE_IN, "CONTB"); (CONTINUE_IN, "CONTI");
                 (ULC_CONTINUE_IN, "CONTU"); (CCC_CONTINUE_IN, "CONTC")]);
    ("conversion",
     (Lit "type_code_list", VList ["CONVL"]) ::
     type_codes [(BC_COMP, "CONVL"); (ULC_COMP, "CONVL"); (CCC_COMP, "CONVL")]);
    ("alteration",
     (Lit "type_code_list", VList ["NOALA"; "NOALR"]) ::
     type_codes [(BCOMP, "NOALR"); (BC_COMP, "NOALA"); (ULC_COMP, "NOALA");
                 (CCC_COMP, "NOALA")]);
    ("correction",
     (Lit "type_code_list", VList ["CRBIN"]) :: type_codes [(BCOMP, "CRBIN")]);
    ("specialResolution",
     (Lit "type_code_list", VList ["OTSPE"]) :: type_codes [(COOP, "OTSPE")]);
    ("amalgamationApplication",
     [ (Lit "sub_type_property", VStr "type");
       (Lit "sub_type_list", VList ["regular"; "horizontal"; "vertical"]);
       (Lit "type_code_list",
        VList ["OTAMA";
               "AMLRB"; "AMALR"; "AMLRU"; "AMLRC";
               "AMLHB"; "AMALH"; "AMLHU"; "AMLHC";
               "AMLVB"; "AMALV"; "AMLVU"; "AMLVC"]);
       (Lit "regular",
        code_map [(COOP, "OTAMA"); (BCOMP, "AMLRB"); (BC_COMP, "AMALR");
                  (ULC_COMP, "AMLRU"); (CCC_COMP, "AMLRC")]);
       (Lit "horizontal",
        code_map [(COOP, "OTAMA"); (BCOMP, "AMLHB"); (BC_COMP, "AMALH");
                  (ULC_COMP, "AMLHU"); (CCC_COMP, "AMLHC")]);
       (Lit "vertical",
        code_map [(COOP, "OTAMA"); (BCOMP, "AMLVB"); (BC_COMP, "AMALV");
                  (ULC_COMP, "AMLVU"); (CCC_COMP, "AMLVC")]) ]);
    ("dissolved",
     (Lit "type_code_list", VList ["OTDIS"]) :: type_codes [(COOP, "OTDIS")]);
    ("amendedAGM",
     (Lit "type_code_list", VList ["OTCGM"]) :: type_codes [(COOP, "OTCGM")]);
    ("voluntaryDissolution",
     (Lit "type_code_list", VList ["OTVDS"]) :: type_codes [(COOP, "OTVDS")]);
    ("dissolution",
     [ (Lit "sub_type_property", VStr "dissolutionType");
       (Lit "sub_type_list", VList ["voluntary"; "administrative"; "involuntary"]);
       (Lit "type_code_list", VList ["OTVDS"; "ADVD2"]);
       (Lit "voluntary",
        code_map [(COOP, "OTVDS"); (BCOMP, "ADVD2"); (BC_COMP, "ADVD2");
                  (ULC_COMP, "ADVD2"); (CCC_COMP, "ADVD2")]) ]);
    ("changeOfName",
     (Lit "type_code_list", VList ["OTNCN"]) :: type_codes [(COOP, "OTNCN")]);
    ("restorationApplication",
     (Lit "type_code_list", VList ["OTRES"]) :: type_codes [(COOP, "OTRES")]);
    ("amendedAnnualReport",
     (Lit "type_code_list", VList ["OTAMR"]) :: type_codes [(COOP, "OTAMR")]);
    ("amendedChangeOfDirectors",
     (Lit "type_code_list", VList ["OTADR"]) :: type_codes [(COOP, "OTADR")]);
    ("voluntaryLiquidation",
     (Lit "type_code_list", VList ["OTVLQ"]) :: type_codes [(COOP, "OTVLQ")]);
    ("appointReceiver",
     (Lit "type_code_list", VList ["OTNRC"]) :: type_codes [(COOP, "OTNRC")]);
    ("continuedOut",
     (Lit "type_code_list", VList ["OTCON"]) :: type_codes [(COOP, "OTCON")]);
    ("transition",
     (Lit "type_code_list", VList ["TRANS"]) :: type_codes [(BC_COMP, "TRANS")]);
    ("registrarsNotation",
     (Lit "type_code_list", VList ["REGSN"]) :: type_codes [(BC_COMP, "REGSN")]);
    ("registrarsOrder",
     (Lit "type_code_list", VList ["REGSO"]) :: type_codes [(BC_COMP, "REGSO")]);
    ("courtOrder",
     (Lit "type_code_list", VList ["COURT"]) :: type_codes [(BC_COMP, "COURT")]) ].

Definition USERS : list (pykey * string) :=
  [ (TypeCode COOP, "COOPER");
    (TypeCode BCOMP, "BCOMPS");
    (TypeCode BC_COMP, "BCOMPS");
    (TypeCode ULC_COMP, "BCOMPS");
    (TypeCode CCC_COMP, "BCOMPS");
    (TypeCode BCOMP_CONTINUE_IN, "BCOMPS");
    (TypeCode CONTINUE_IN, "BCOMPS");
    (TypeCode ULC_CONTINUE_IN, "BCOMPS");
    (TypeCode CCC_CONTINUE_IN, "BCOMPS") ].

(** [FILING_TYPES.get(filing_type, {})] *)
Definition filing_type_entry (ft : string) : list (pykey * pyval) :=
  match dict_get String.eqb FILING_TYPES ft with
  | Some d => d
  | None => []
  end.

(** [FILING_TYPES[filing_type]['type_code_list']]; the key is present in
    every entry of the table, the subscript raises [KeyError] otherwise. *)
Definition type_code_list (d : list (pykey * pyval)) : result pyval :=
  match dict_get pykey_eqb d (Lit "type_code_list") with
  | Some v => Ok v
  | None => Raise (KeyError (Lit "type_code_list"))
  end.

(** [Filing.get_filing_type_code(self, filing_sub_type=None)].  The branch
    is chosen on [filing_sub_type or self.filing_sub_type]; the lookup
    itself reads [self.filing_sub_type].  [.get] on a value that is not a
    dictionary raises [AttributeError]. *)
Definition get_filing_type_code (self : Filing) (arg_sub_type : option string)
  : result (option pyval) :=
  let sub_type := py_or arg_sub_type (filing_sub_type self) in
  if truthy_str sub_type then
    let by_sub_type :=
      match filing_sub_type self with
      | Some s =>
          match dict_get pykey_eqb (filing_type_entry (filing_type self)) (Lit s) with
          | Some v => v
          | None => VDict []
          end
      | None => VDict []
      end in
    match by_sub_type with
    | VDict d =>
        Ok (option_map VStr (dict_get pykey_eqb d (corp_type (f_business self))))
    | _ => Raise AttributeError
    end
  else
    Ok (dict_get pykey_eqb (filing_type_entry (filing_type self))
          (corp_type (f_business self))).

(** [Filing._get_filing_type(filing_type_code)]: the first filing type, in
    the order of the table, whose code list holds the code. *)
Fixpoint _get_filing_type_in (table : list (string * list (pykey * pyval)))
    (filing_type_code : string) : result (option string) :=
  match table with
  | [] => Ok None
  | (ft, d) :: rest =>
      match type_code_list d with
      | Raise e => Raise e
      | Ok v =>
          if py_contains filing_type_code v then Ok (Some ft)
          else _get_filing_type_in rest filing_type_code
      end
  end.

Definition _get_filing_type (filing_type_code : string) : result (option string) :=
  _get_filing_type_in FILING_TYPES filing_type_code.

(** [Filing.is_supported_filing_sub_type(filing_type, filing_sub_type)] *)
Definition is_supported_filing_sub_type (ft : string) (sub : string) : bool :=
  match dict_get pykey_eqb (filing_type_entry ft) (Lit "sub_type_list") with
  | Some v => py_contains sub v
  | None => false
  end.

(** [Filing.is_filing_type_match(filing, filing_type, filing_sub_type)] *)
Definition is_filing_type_match (f : Filing) (ft : string) (sub : string) : bool :=
  String.eqb (filing_type f) ft &&
  match filing_sub_type f with
  | Some s => String.eqb s sub
  | None => false
  end.

(** The codes listed for a filing-type name, [[]] for an unknown name. *)
Definition codes_of (ft : string) : list string :=
  match dict_get pykey_eqb (filing_type_entry ft) (Lit "type_code_list") with
  | Some (VList l) => l
  | _ => []
  end.

End Registry.

(** ** Stateful code: a state and exception monad

    A computation takes the state it runs on and gives its outcome together
    with the state it leaves behind; a raised exception keeps the state
    reached so far (the caller rolls the transaction back). *)

Definition M (S A : Type) : Type := S -> result A * S.

Definition ret {S A : Type} (a : A) : M S A := fun s => (Ok a, s).

Definition raise {S A : Type} (e : exn) : M S A := fun s => (Raise e, s).

Definition bind {S A B : Type} (m : M S A) (k : A -> M S B) : M S B :=
  fun s =>
    match m s with
    | (Ok a, s') => k a s'
    | (Raise e, s') => (Raise e, s')
    end.

Declare Scope monad_scope.
Delimit Scope monad_scope with monad.
Notation "x <- m ;; k" := (bind m (fun x => k))
  (at level 61, m at next level, right associativity) : monad_scope.
Notation "m ;;; k" := (bind m (fun _ => k))
  (at level 61, right associativity) : monad_scope.

(** [for x in xs: body(x)], collecting what each iteration hands back. *)
Fixpoint for_each {S A B : Type} (body : A -> M S (list B)) (xs : list A)
  : M S (list B) :=
  match xs with
  | [] => ret []
  | x :: xs' =>
      (ys <- body x ;; zs <- for_each body xs' ;; ret (ys ++ zs)%list)%monad
  end.

(** ** The ledger tables *)

Module Ledger.
Import Registry.

(** A timestamp counts seconds from [datetime.datetime.fromtimestamp(0)]. *)
Definition timestamp : Type := Z.

Record date : Type := { year : Z; month : Z; day : Z }.

Record event_row : Type := {
  ev_event_id : Z;
  ev_corp_num : string;
  ev_event_typ_cd : string;
  ev_event_timestmp : timestamp
}.

Record filing_row : Type := {
  fl_event_id : Z;
  fl_filing_typ_cd : string;
  fl_effective_dt : timestamp;
  fl_period_end_dt : option date;
  fl_agm_date : option date;
  fl_arrangement_ind : option string;
  fl_court_order_num : option string
}.

Record filing_user_row : Type := {
  fu_event_id : Z;
  fu_user_id : option string;
  fu_first_nme : option string;
  fu_middle_nme : option string;
  fu_last_nme : option string;
  fu_email_addr : option string
}.

(** A value bound to a statement. *)
Inductive pyarg : Type :=
| ANone
| AInt (z : Z)
| AStr (s : string).

Definition arg_of_str (o : option string) : pyarg :=
  match o with Some s => AStr s | None => ANone end.

Definition arg_of_int (o : option Z) : pyarg :=
  match o with Some z => AInt z | None => ANone end.

(** An item of the VALUES list of an INSERT. *)
Inductive sql_value : Type :=
| Bind (name : string)
| Literal (text : string)
| ToDate (name : string)
| ToTimestampTz (name : string).

(** An INSERT handed to [cursor.execute]: its column list, its VALUES list
    and the bound arguments.  What Oracle makes of the bound strings is not
    part of the model. *)
Record statement : Type := {
  into : string;
  columns : list string;
  values : list sql_value;
  binds : list (string * pyarg)
}.

(** The part of the database the modelled code reads and writes:
    the sequence [noncorp_event_seq], as the values its NEXTVAL hands out
    from now on, in order (which values these are is the matter of the
    database), the [id_num] of the [system_id] row of type ['EV'] (absent
    when there is no such row), the
    clock behind [sysdate], the tables [event], [filing] and [filing_user]
    as the SELECTs see them, and the INSERTs executed on [filing],
    [filing_user] and [ledger_text]. *)
Record db : Type := {
  noncorp_event_seq : nat -> Z;
  system_id_EV : option Z;
  sysdate : timestamp;
  event : list event_row;
  filing : list filing_row;
  filing_user : list filing_user_row;
  executed : list statement
}.

(** [select noncorp_event_seq.NEXTVAL from dual]: the value handed out,
    and the database with the sequence moved past it. *)
Definition NEXTVAL (d : db) : Z * db :=
  (noncorp_event_seq d O,
   {| noncorp_event_seq := fun k => noncorp_event_seq d (S k);
      system_id_EV := system_id_EV d;
      sysdate := sysdate d; event := event d; filing := filing d;
      filing_user := filing_user d; executed := executed d |}).

Definition with_system_id (d : db) (n : Z) : db :=
  {| noncorp_event_seq := noncorp_event_seq d; system_id_EV := Some n;
     sysdate := sysdate d; event := event d; filing := filing d;
     filing_user := filing_user d; executed := executed d |}.

Definition insert_event (d : db) (r : event_row) : db :=
  {| noncorp_event_seq := noncorp_event_seq d; system_id_EV := system_id_EV d;
     sysdate := sysdate d; event := (event d ++ [r])%list; filing := filing d;
     filing_user := filing_user d; executed := executed d |}.

Definition execute (st : statement) : M db unit :=
  fun d =>
    (Ok tt,
     {| noncorp_event_seq := noncorp_event_seq d; system_id_EV := system_id_EV d;
        sysdate := sysdate d; event := event d; filing := filing d;
        filing_user := filing_user d; executed := (executed d ++ [st])%list |}).

(** [Filing._get_event_id(cursor, corp_num, event_type='FILE')] *)
Definition _get_event_id (corp_num : string) (event_type : string) : M db Z :=
  fun d =>
    let allocated : result Z * db :=
      if String.eqb (substring 0 2 corp_num) "CP" then
        let row := NEXTVAL d in
        (Ok (fst row), snd row)
      else
        match system_id_EV d with
        | None => (Raise TypeError, d)
        | Some id_num =>
            (Ok id_num,
             if id_num =? 0 then d else with_system_id d (id_num + 1))
        end in
    match allocated with
    | (Ok event_id, d') =>
        (Ok event_id,
         insert_event d'
           {| ev_event_id := event_id; ev_corp_num := corp_num;
              ev_event_typ_cd := event_type; ev_event_timestmp := sysdate d' |})
    | (Raise e, d') => (Raise e, d')
    end.

(** [Filing.get_certified_by] and [Filing.get_email] *)
Definition get_certified_by (f : Filing) : string := certifiedBy (header f).

Definition get_email (f : Filing) : result (option string) :=
  match contactPoint_email (body f) with
  | Some (Some e) => Ok (Some e)
  | Some None => Raise (KeyError (Lit "email"))
  | None =>
      Ok (match h_email (header f) with Some e => Some e | None => Some "" end)
  end.

(** [Filing._insert_filing_user(cursor, filing)] *)
Definition _insert_filing_user (f : Filing) : M db unit :=
  match get_email f with
  | Raise e => raise e
  | Ok email =>
      execute
        {| into := "filing_user";
           columns := ["event_id"; "user_id"; "last_nme"; "first_nme";
                       "middle_nme"; "email_addr"; "party_typ_cd"; "role_typ_cd"];
           values := [Bind "event_id"; Bind "user_id"; Bind "last_name";
                      Literal "NULL"; Literal "NULL"; Bind "email_address";
                      Literal "NULL"; Literal "NULL"];
           binds := [("event_id", arg_of_int (event_id f));
                     ("user_id", arg_of_str (user_id f));
                     ("last_name", AStr (get_certified_by f));
                     ("email_address", arg_of_str email)] |}
  end.

(** [filing_type_code in [...]] for the value [get_filing_type_code] gave. *)
Definition code_in (c : option pyval) (l : list string) : bool :=
  match c with
  | Some (VStr s) => str_in s l
  | _ => false
  end.

Definition arg_of_code (c : option pyval) : pyarg :=
  match c with
  | Some (VStr s) => AStr s
  | _ => ANone
  end.

Definition filing_insert (f : Filing) (code : option pyval)
    (cols : list string) (vals : list sql_value)
    (extra : list (string * pyarg)) : statement :=
  {| into := "filing";
     columns := (["event_id"; "filing_typ_cd"; "effective_dt"] ++ cols)%list;
     values := ([Bind "event_id"; Bind "filing_type_code";
                ToTimestampTz "effective_dt"] ++ vals)%list;
     binds := ([("event_id", arg_of_int (event_id f));
                ("filing_type_code", arg_of_code code);
                ("effective_dt", AStr (effective_date f))] ++ extra)%list |}.

Definition court_order_group : list string :=
  ["NOCAD"; "CRBIN"; "TRANS";
   "BEINC"; "ICORP"; "ICORU"; "ICORC";
   "AMLRB"; "AMALR"; "AMLRU"; "AMLRC";
   "AMLHB"; "AMALH"; "AMLHU"; "AMLHC";
   "AMLVB"; "AMALV"; "AMLVU"; "AMLVC";
   "CONTB"; "CONTI"; "CONTU"; "CONTC";
   "NOALA"; "NOALB"; "NOALC"; "NOALE"; "NOALR"; "NOALU";
   "REGSN"; "REGSO"; "COURT"].

(** The statement [_insert_filing] builds for a resolved code, [None] when
    no branch of the dispatch takes the code. *)
Definition filing_statement (f : Filing) (code : option pyval)
    (ar_date agm_date : option string) : option statement :=
  if code_in code ["OTANN"] then
    Some (filing_insert f code
            ["period_end_dt"; "agm_date"; "arrangement_ind"; "ods_typ_cd"]
            [ToDate "period_end_date"; ToDate "agm_date"; Literal "N"; Literal "P"]
            [("period_end_date",
              arg_of_str (if truthy_str agm_date then agm_date else ar_date));
             ("agm_date", arg_of_str agm_date)])
  else if code_in code ["OTADD"; "OTCDR"; "OTINC"] then
    Some (filing_insert f code
            ["arrangement_ind"; "ods_typ_cd"] [Literal "N"; Literal "P"] [])
  else if code_in code ["ANNBC"] then
    Some (filing_insert f code
            ["period_end_dt"; "arrangement_ind"; "ods_typ_cd"]
            [ToDate "period_end_date"; Literal "N"; Literal "F"]
            [("period_end_date", arg_of_str ar_date)])
  else if code_in code ["NOCDR"] then
    Some (filing_insert f code
            ["change_dt"; "arrangement_ind"; "ods_typ_cd"]
            [ToDate "filing_date"; Literal "N"; Literal "F"]
            [("filing_date", AStr (filing_date f))])
  else if code_in code court_order_group then
    let '(arrangement_ind, court_order_num) :=
      if code_in code ["REGSN"; "REGSO"; "COURT"] then
        ((match effectOfOrder (body f) with
          | Some "planOfArrangement" => "Y"
          | _ => "N"
          end)%string,
         fileNumber (body f))
      else
        match courtOrder (body f) with
        | Some co =>
            ((match co_effectOfOrder co with
              | Some e => if String.eqb e "" then "N" else "Y"
              | None => "N"
              end)%string,
             co_fileNumber co)
        | None => ("N"%string, None)
        end in
    Some (filing_insert f code
            ["arrangement_ind"; "court_order_num"; "ods_typ_cd"]
            [Bind "arrangement_ind"; Bind "court_order_num"; Literal "F"]
            [("arrangement_ind", AStr arrangement_ind);
             ("court_order_num", arg_of_str court_order_num)])
  else if code_in code ["OTVDS"; "ADVD2"; "OTSPE"] then
    Some (filing_insert f code
            ["arrangement_ind"; "ods_typ_cd"] [Literal "N"; Literal "S"] [])
  else None.

(** [Filing._insert_filing(cursor, filing, ar_date, agm_date)].  When
    [get_filing_type_code] itself raises, the handler's log line reads the
    unbound local [filing_type_code]. *)
Definition _insert_filing (f : Filing) (ar_date agm_date : option string)
  : M db unit :=
  match get_filing_type_code f None with
  | Raise _ => raise UnboundLocalError
  | Ok code =>
      match filing_statement f code ar_date agm_date with
      | Some st => execute st
      | None => raise (InvalidFilingTypeException code)
      end
  end.

End Ledger.

(** ** Reading the ledger back *)

Module Reconstruct.
Import Registry Ledger.

(** A row of the header query of [_get_filing_event_info], turned into the
    dictionary [event_info] with its three derived keys. *)
Record event_info : Type := {
  i_event_id : Z;
  i_event_timestmp : timestamp;
  i_first_nme : option string;
  i_middle_nme : option string;
  i_last_nme : option string;
  i_email_addr : option string;
  i_period_end_dt : option date;
  i_agm_date : option date;
  i_effective_dt : timestamp;
  i_corp_num : string;
  i_user_id : option string;
  i_filing_typ_cd : string;
  i_arrangement_ind : option string;
  i_court_order_num : option string;
  i_certifiedBy : string;
  i_email : string;
  i_filing_type_code : string
}.

Definition header_row (e : event_row) (f : filing_row) (u : option filing_user_row)
  : event_info :=
  let col {A} (g : filing_user_row -> option A) : option A :=
    match u with Some r => g r | None => None end in
  {| i_event_id := ev_event_id e;
     i_event_timestmp := ev_event_timestmp e;
     i_first_nme := col fu_first_nme;
     i_middle_nme := col fu_middle_nme;
     i_last_nme := col fu_last_nme;
     i_email_addr := col fu_email_addr;
     i_period_end_dt := fl_period_end_dt f;
     i_agm_date := fl_agm_date f;
     i_effective_dt := fl_effective_dt f;
     i_corp_num := ev_corp_num e;
     i_user_id := col fu_user_id;
     i_filing_typ_cd := fl_filing_typ_cd f;
     i_arrangement_ind := fl_arrangement_ind f;
     i_court_order_num := fl_court_order_num f;
     i_certifiedBy := "";
     i_email := "";
     i_filing_type_code := "" |}.

(** [event join filing on filing.event_id = event.event_id
     left join filing_user on event.event_id = filing_user.event_id] *)
Definition header_rows (d : db) : list event_info :=
  flat_map (fun e =>
    flat_map (fun f =>
      if fl_event_id f =? ev_event_id e then
        match filter (fun u => fu_event_id u =? ev_event_id e) (filing_user d) with
        | [] => [header_row e f None]
        | us => map (fun u => header_row e f (Some u)) us
        end
      else [])
      (filing d))
    (event d).

(** Truthiness of an optional integer: [None] and [0] are falsy. *)
Definition truthy_int (o : option Z) : bool :=
  match o with
  | Some z => negb (z =? 0)
  | None => false
  end.

(** The selector a call of [_get_filing_event_info] binds to the query. *)
Inductive selector : Type :=
| ByEvent (event_id : Z)
| ByTypeCode (code : option pyval).

(** The WHERE clause the function assembles.  A code that is [None] is
    bound as NULL and equals no row; only a string can equal a code. *)
Definition matches (sel : selector) (corp : string) (yr : option Z)
    (r : event_info) : bool :=
  (match sel with
   | ByEvent id => i_event_id r =? id
   | ByTypeCode (Some (VStr c)) => String.eqb (i_filing_typ_cd r) c
   | ByTypeCode _ => false
   end)
  && (if String.eqb corp "" then true else String.eqb (i_corp_num r) corp)
  && (if truthy_int yr then
        match i_period_end_dt r, yr with
        | Some dt, Some y => year dt =? y
        | _, _ => false
        end
      else true).

(** [order by EVENT_TIMESTMP desc] followed by [fetchone()]: a row with the
    greatest timestamp, the earliest such row of the result when several
    share it. *)
Fixpoint newest (rows : list event_info) : option event_info :=
  match rows with
  | [] => None
  | r :: rest =>
      match newest rest with
      | Some r' =>
          if i_event_timestmp r <? i_event_timestmp r' then Some r' else Some r
      | None => Some r
      end
  end.

(** [' '.join(filter(None, parts))] *)
Fixpoint join_names (parts : list (option string)) : string :=
  match parts with
  | [] => ""
  | p :: rest =>
      if truthy_str p then
        match p with
        | Some s =>
            let tail := join_names rest in
            if String.eqb tail "" then s else s ++ " " ++ tail
        | None => join_names rest
        end
      else join_names rest
  end.

Definition derive (r : event_info) : event_info :=
  let filing_user_name := join_names [i_first_nme r; i_middle_nme r; i_last_nme r] in
  let filing_email := i_email_addr r in
  {| i_event_id := i_event_id r;
     i_event_timestmp := i_event_timestmp r;
     i_first_nme := i_first_nme r;
     i_middle_nme := i_middle_nme r;
     i_last_nme := i_last_nme r;
     i_email_addr := i_email_addr r;
     i_period_end_dt := i_period_end_dt r;
     i_agm_date := i_agm_date r;
     i_effective_dt := i_effective_dt r;
     i_corp_num := i_corp_num r;
     i_user_id := i_user_id r;
     i_filing_typ_cd := i_filing_typ_cd r;
     i_arrangement_ind := i_arrangement_ind r;
     i_court_order_num := i_court_order_num r;
     i_certifiedBy :=
       if String.eqb filing_user_name "" then "N/A" else filing_user_name;
     i_email :=
       if truthy_str filing_email
       then match filing_email with Some e => e | None => "" end
       else "";
     i_filing_type_code := i_filing_typ_cd r |}.

(** The selector [_get_filing_event_info] queries by: the event id of the
    filing when it has one, the code of its type otherwise. *)
Definition header_selector (f : Filing) : result selector :=
  if truthy_int (event_id f) then
    match event_id f with
    | Some id => Ok (ByEvent id)
    | None => Ok (ByTypeCode None)
    end
  else
    match get_filing_type_code f None with
    | Ok code => Ok (ByTypeCode code)
    | Raise e => Raise e
    end.

(** [Filing._get_filing_event_info(cursor, filing, year=None)] *)
Definition _get_filing_event_info (d : db) (f : Filing) (yr : option Z)
  : result event_info :=
  let corp := corp_num (f_business f) in
  match header_selector f with
  | Raise e => Raise e
  | Ok sel =>
      match newest (filter (matches sel corp yr) (header_rows d)) with
      | None => Raise (FilingNotFoundException corp (filing_type f))
      | Some r => Ok (derive r)
      end
  end.

(** An item of the list [_get_events] returns. *)
Record event_item : Type := {
  id : Z;
  date : timestamp;
  item_annualReportDate : option (option Ledger.date)
}.

(** [Filing._get_events(cursor, corp_num, filing_type_code)] *)
Definition _get_events (d : db) (corp : string) (filing_type_code : string)
  : list event_item :=
  flat_map (fun e =>
    if String.eqb (ev_corp_num e) corp then
      map (fun f =>
             {| id := ev_event_id e;
                date := ev_event_timestmp e;
                item_annualReportDate :=
                  if str_in filing_type_code (codes_of "annualReport")
                  then Some (fl_period_end_dt f) else None |})
          (filter (fun f => (fl_event_id f =? ev_event_id e)
                            && String.eqb (fl_filing_typ_cd f) filing_type_code)
                  (filing d))
    else [])
    (event d).

(** The loop of [_get_ar_component_event]: the running pair
    [(event_id, tmp_timestamp)]. *)
Fixpoint ar_component_scan (ar_timestmp : timestamp) (events : list event_item)
    (event_id : option Z) (tmp_timestamp : timestamp) : option Z * timestamp :=
  match events with
  | [] => (event_id, tmp_timestamp)
  | ev :: rest =>
      if (date ev <=? ar_timestmp) && (tmp_timestamp <? date ev)
      then ar_component_scan ar_timestmp rest (Some (id ev)) (date ev)
      else ar_component_scan ar_timestmp rest event_id tmp_timestamp
  end.

(** [Filing._get_ar_component_event(cursor, corp_num, type_code,
    ar_filing_event_info)] *)
Definition _get_ar_component_event (d : db) (corp : string) (type_code : string)
    (ar_filing_event_info : event_info) : Z :=
  let events := _get_events d corp type_code in
  let event_id :=
    fst (ar_component_scan (i_event_timestmp ar_filing_event_info) events None 0) in
  if truthy_int event_id
  then match event_id with Some e => e | None => i_event_id ar_filing_event_info end
  else i_event_id ar_filing_event_info.

(** The component blocks of [get_filing] for ['offices'] and ['directors'].
    The stores they read, [Office] and [Party], are declared outside
    filing.py and enter as the functions below. *)
Section Components.

Variables office party : Type.
Variable Office_get_by_event : Z -> result (list office).
Variable Office_get_current : string -> result (list office).
Variable Party_get_by_event : string -> Z -> result (list party).
Variable Party_get_current : string -> result (list party).

Definition is_nil {A : Type} (l : list A) : bool :=
  match l with [] => true | _ => false end.

(** [if 'offices' in components: ...]: the new value of
    [filing.paper_only] and the objects stored under ['offices']. *)
Definition get_filing_offices (d : db) (f : Filing)
    (filing_event_info : event_info) (paper_only : bool)
  : result (bool * list office) :=
  let corp := corp_num (f_business f) in
  let event_id :=
    if String.eqb (filing_type f) "annualReport"
    then _get_ar_component_event d corp "OTADD" filing_event_info
    else i_event_id filing_event_info in
  match Office_get_by_event event_id with
  | Raise e => Raise e
  | Ok office_obj_list =>
      if is_nil office_obj_list then
        if negb (String.eqb (filing_type f) "annualReport")
        then Raise (OfficeNotFoundException corp)
        else
          match Office_get_current corp with
          | Raise e => Raise e
          | Ok current => Ok (true, current)
          end
      else Ok (paper_only, office_obj_list)
  end.

(** [if 'directors' in components: ...] *)
Definition get_filing_directors (d : db) (f : Filing)
    (filing_event_info : event_info) (paper_only : bool)
  : result (bool * list party) :=
  let corp := corp_num (f_business f) in
  let event_id :=
    if String.eqb (filing_type f) "annualReport"
    then _get_ar_component_event d corp "OTCDR" filing_event_info
    else i_event_id filing_event_info in
  match Party_get_by_event corp event_id with
  | Raise e => Raise e
  | Ok directors =>
      if is_nil directors then
        if negb (String.eqb (filing_type f) "annualReport")
        then Raise (PartiesNotFoundException corp)
        else
          match Party_get_current corp with
          | Raise e => Raise e
          | Ok current => Ok (true, current)
          end
      else Ok (paper_only, directors)
  end.

End Components.

End Reconstruct.

(** ** The ledger writer *)

Module Writer.
Import Registry Ledger.

Definition submittable_types : list string :=
  ["alteration"; "amalgamationApplication"; "annualReport"; "changeOfAddress";
   "changeOfDirectors"; "continuationIn"; "correction"; "courtOrder";
   "dissolution"; "incorporationApplication"; "registrarsNotation";
   "registrarsOrder"; "specialResolution"; "transition"].

Definition with_user_id (f : Filing) (u : string) : Filing :=
  {| f_business := f_business f; filing_type := filing_type f;
     filing_sub_type := filing_sub_type f; event_id := event_id f;
     effective_date := effective_date f; filing_date := filing_date f;
     user_id := Some u; header := header f; body := body f |}.

Definition with_event_id (f : Filing) (e : Z) : Filing :=
  {| f_business := f_business f; filing_type := filing_type f;
     filing_sub_type := filing_sub_type f; event_id := Some e;
     effective_date := effective_date f; filing_date := filing_date f;
     user_id := user_id f; header := header f; body := body f |}.

Section AddFiling.

(** The steps of [add_filing] that follow the header insert (amalgamating
    businesses, continuation in, correction, and the default path with its
    ledger text and corporation update).  They run on [Business],
    [Office], [Party], [CorpName], [ShareObject], [CorpInvolved] and
    [Jurisdiction], all declared outside filing.py. *)
Variable type_specific_steps : Filing -> M db unit.

(** [Filing.add_filing(con, filing)] *)
Definition add_filing (filing : Filing) : M db Z :=
  if negb (str_in (filing_type filing) submittable_types) then
    raise (InvalidFilingTypeException (Some (VStr (filing_type filing))))
  else if truthy_str (filing_sub_type filing)
          && negb (match filing_sub_type filing with
                   | Some s => is_supported_filing_sub_type (filing_type filing) s
                   | None => false
                   end) then
    raise (InvalidFilingTypeException (Some (VStr (filing_type filing))))
  else
    let legal_type := corp_type (f_business filing) in
    let corp := corp_num (f_business filing) in
    match dict_get pykey_eqb USERS legal_type with
    | None => raise (KeyError legal_type)
    | Some user =>
        let filing := with_user_id filing user in
        (new_event_id <- _get_event_id corp "FILE" ;;
         let filing := with_event_id filing new_event_id in
         _insert_filing_user filing ;;;
         let ar_date := annualReportDate (body filing) in
         let agm_date := annualGeneralMeetingDate (body filing) in
         _insert_filing filing ar_date agm_date ;;;
         type_specific_steps filing ;;;
         ret new_event_id)%monad
    end.

End AddFiling.

End Writer.

(** ** The director diff *)

Module Directors.

Definition NOT_FOUND : Z := 404.

Definition with_prev_id (d : director) (prev : Z) : director :=
  {| d_officer := d_officer d; d_actions := d_actions d; d_prev_id := Some prev |}.

Definition has_action (a : string) (d : director) : bool :=
  str_in a (d_actions d).

(** A call into the party store, with the director as it was handed over. *)
Inductive party_call : Type :=
| create_new_corp_party (event_id : option Z) (party : director)
| end_director_by_name (d : director) (event_id : option Z) (corp_num : string).

Section PartyStore.

(** [Party] is declared in colin_api/models/party.py: its operations act
    on a store that is left abstract, and may raise. *)
Variables store party business_dict : Type.
Variable corp_party_id : party -> Z.
Variable Party_get_current : string -> M store (list party).
Variable Party_compare_parties : party -> officer_json -> bool.
Variable Party_create_new_corp_party :
  option Z -> director -> business_dict -> M store unit.
Variable Party_end_director_by_name :
  director -> option Z -> string -> M store unit.
(** The text an f-string gives for the officer dictionary. *)
Variable officer_repr : officer_json -> string.

(** The store together with the calls made on it so far. *)
Definition state : Type := (store * list party_call)%type.

Definition call (c : party_call) (op : M store unit) : M state unit :=
  fun st =>
    let '(r, s') := op (fst st) in (r, (s', (snd st ++ [c])%list)).

Definition read {A : Type} (op : M store A) : M state A :=
  fun st => let '(r, s') := op (fst st) in (r, (s', snd st)).

Definition create (event_id : option Z) (d : director) (b : business_dict)
  : M state unit :=
  call (create_new_corp_party event_id d)
       (Party_create_new_corp_party event_id d b).

Definition end_by_name (d : director) (event_id : option Z) (corp : string)
  : M state unit :=
  call (end_director_by_name d event_id corp)
       (Party_end_director_by_name d event_id corp).

(** [for current_party in current_parties: ...]: the director dictionary
    after the loop and the number of times it was appended to
    [changed_dirs] ([found_match] holds when that number is positive). *)
Fixpoint match_current_parties (event_id : option Z) (corp : string)
    (d : director) (current_parties : list party) : M state (director * nat) :=
  match current_parties with
  | [] => ret (d, O)
  | current_party :: rest =>
      if Party_compare_parties current_party (d_officer d) then
        let d1 := with_prev_id d (corp_party_id current_party) in
        (end_by_name d1 event_id corp ;;;
         end_by_name d1 event_id corp ;;;
         r <- match_current_parties event_id corp d1 rest ;;
         ret (fst r, S (snd r)))%monad
      else match_current_parties event_id corp d rest
  end.

(** The body of [for director in filing.body.get('directors', [])]: what
    the iteration appends to [changed_dirs].  The list holds references
    to the one dictionary of the entry, so each reads as the entry does
    when the inner loop ends. *)
Definition process_director (event_id : option Z) (b : business_dict)
    (corp : string) (d : director) : M state (list director) :=
  ((if has_action "appointed" d then create event_id d b else ret tt) ;;;
   if has_action "ceased" d
      && negb (existsb (fun elem => str_in elem ["nameChanged"; "addressChanged"])
                 (d_actions d))
   then end_by_name d event_id corp ;;; ret []
   else if has_action "nameChanged" d || has_action "addressChanged" d then
     current_parties <- read (Party_get_current corp) ;;
     r <- match_current_parties event_id corp d current_parties ;;
     match snd r with
     | O => raise (GenericException
                     ("Director does not exist in COLIN: " ++ officer_repr (d_officer d))
                     NOT_FOUND)
     | S _ => ret (repeat (fst r) (snd r))
     end
   else ret [])%monad.

Fixpoint create_all (event_id : option Z) (b : business_dict)
    (changed_dirs : list director) : M state unit :=
  match changed_dirs with
  | [] => ret tt
  | d :: rest => (create event_id d b ;;; create_all event_id b rest)%monad
  end.

(** [Filing._process_directors(cursor, filing, business, corp_num)] *)
Definition _process_directors (f : Filing) (b : business_dict) (corp : string)
  : M state string :=
  if negb (String.eqb (filing_type f) "annualReport")
     && negb (match directors (body f) with [] => true | _ => false end)
  then
    (changed_dirs <- for_each (process_director (event_id f) b corp)
                              (directors (body f)) ;;
     create_all (event_id f) b changed_dirs ;;;
     ret "Director change.")%monad
  else ret "".

End PartyStore.

End Directors.

(** ** The name-translation diff *)

Module Names.

(** A row of the corporation-name table. *)
Record corp_name_row : Type := {
  cn_corp_num : string;
  cn_corp_name : string;
  cn_type_code : string;
  cn_start_event_id : option Z;
  cn_end_event_id : option Z
}.

Definition names : Type := list corp_name_row.

(** [CorpName.TypeCodes.TRANSLATION.value]; [get_filing] reads the
    translations under the same code, written ['TR']. *)
Definition TRANSLATION : string := "TR".

Definition is_current (corp type_code : string) (r : corp_name_row) : bool :=
  String.eqb (cn_corp_num r) corp && String.eqb (cn_type_code r) type_code
  && match cn_end_event_id r with None => true | Some _ => false end.

(** Modelled from the spec: [CorpName.get_current_by_type], of
    colin_api/models/corp_name.py, is not under src/.  The store contract
    of the spec: the current rows are the rows with no end event. *)
Definition get_current_by_type (corp type_code : string) : M names (list corp_name_row) :=
  fun s => (Ok (filter (is_current corp type_code) s), s).

Definition name_in_rows (n : string) (rows : list corp_name_row) : bool :=
  existsb (fun r => String.eqb (cn_corp_name r) n) rows.

Definition name_in_translations (n : string) (ts : list translation) : bool :=
  existsb (fun x => String.eqb (t_name x) n) ts.

(** The current translation row a creation at the event inserts. *)
Definition new_translation (corp : string) (event_id : option Z) (x : translation)
  : corp_name_row :=
  {| cn_corp_num := corp; cn_corp_name := t_name x; cn_type_code := TRANSLATION;
     cn_start_event_id := event_id; cn_end_event_id := None |}.

(** Modelled from the spec: [CorpName.create_translations] is not under
    src/.  The spec's diff policy: a translation of the incoming set that
    is absent from the prior current set is created, as a new current row
    starting at the event; one that is present is left as it is. *)
Fixpoint create_translations (corp : string) (event_id : option Z)
    (translations : list translation) (old_translations : list corp_name_row)
  : M names unit :=
  match translations with
  | [] => ret tt
  | x :: rest =>
      ((if name_in_rows (t_name x) old_translations then ret tt
        else fun s => (Ok tt, (s ++ [new_translation corp event_id x])%list)) ;;;
       create_translations corp event_id rest old_translations)%monad
  end.

Definition with_end (r : corp_name_row) (event_id : option Z) : corp_name_row :=
  {| cn_corp_num := cn_corp_num r; cn_corp_name := cn_corp_name r;
     cn_type_code := cn_type_code r;
     cn_start_event_id := cn_start_event_id r;
     cn_end_event_id := event_id |}.

Definition end_row (event_id : option Z) (corp corp_name type_code : string)
    (r : corp_name_row) : corp_name_row :=
  if is_current corp type_code r && String.eqb (cn_corp_name r) corp_name
  then with_end r event_id
  else r.

(** Modelled from the spec: [CorpName.end_name] is not under src/.  The
    store contract of the spec: the end event is set on the current row
    that matches the key, and nothing happens when there is none. *)
Definition end_name (event_id : option Z) (corp corp_name type_code : string)
  : M names unit :=
  fun s => (Ok tt, map (end_row event_id corp corp_name type_code) s).

Fixpoint end_absent (event_id : option Z) (corp : string)
    (name_translations : list translation) (old_translations : list corp_name_row)
  : M names unit :=
  match old_translations with
  | [] => ret tt
  | old_translation :: rest =>
      ((if negb (name_in_translations (cn_corp_name old_translation) name_translations)
        then end_name event_id corp (cn_corp_name old_translation) TRANSLATION
        else ret tt) ;;;
       end_absent event_id corp name_translations rest)%monad
  end.

(** [Filing._process_name_translations(cursor, filing, corp_num)] *)
Definition _process_name_translations (f : Filing) (corp : string) : M names unit :=
  (old_translations <- get_current_by_type corp TRANSLATION ;;
   match nameTranslations (body f) with
   | [] => ret tt
   | name_translations =>
       create_translations corp (event_id f) name_translations old_translations ;;;
       end_absent (event_id f) corp name_translations old_translations
   end)%monad.

End Names.

(** ** Tables read off the code, and sample data *)

Module RegistryTables.
Import Business Registry.

(** Every (filing type, code) pair of the table. *)
Definition code_pairs : list (string * string) :=
  flat_map (fun entry =>
              match dict_get pykey_eqb (snd entry) (Lit "type_code_list") with
              | Some (VList l) => map (pair (fst entry)) l
              | _ => []
              end)
           FILING_TYPES.

Definition str_pair_ok (check : string -> string -> bool) : bool :=
  forallb (fun p => check (fst p) (snd p)) code_pairs.

(** The filing type [_get_filing_type] gives for a listed code owns the
    code; it is the listing type itself, but for ['OTVDS']. *)
Definition owner_check (t c : string) : bool :=
  match _get_filing_type c with
  | Ok (Some t') =>
      str_in c (codes_of t')
      && (if String.eqb c "OTVDS" then String.eqb t' "voluntaryDissolution"
          else String.eqb t' t)
  | _ => false
  end.

(** Two different filing types list the same code for ['OTVDS'] only. *)
Definition collision_check (t c : string) : bool :=
  forallb (fun q =>
             negb (String.eqb (snd q) c) || String.eqb (fst q) t
             || (String.eqb c "OTVDS"
                 && ((String.eqb t "voluntaryDissolution"
                      && String.eqb (fst q) "dissolution")
                     || (String.eqb t "dissolution"
                         && String.eqb (fst q) "voluntaryDissolution"))))
          code_pairs.

(** The code the table registers under a filing type, a sub-type and an
    entity type, in the spec's words ([codeFor] with a sub-type). *)
Definition registered_code (ft sub : string) (ct : pykey) : option string :=
  match dict_get pykey_eqb (filing_type_entry ft) (Lit sub) with
  | Some (VDict m) => dict_get pykey_eqb m ct
  | _ => None
  end.

End RegistryTables.

Module HeaderColumns.
Import Registry Ledger.

(** The dispatch table of [_insert_filing] read by code alone: the header
    columns that follow [event_id], [filing_typ_cd] and [effective_dt]. *)
Definition header_columns (code : option pyval) : option (list string) :=
  if code_in code ["OTANN"] then
    Some ["period_end_dt"; "agm_date"; "arrangement_ind"; "ods_typ_cd"]
  else if code_in code ["OTADD"; "OTCDR"; "OTINC"] then
    Some ["arrangement_ind"; "ods_typ_cd"]
  else if code_in code ["ANNBC"] then
    Some ["period_end_dt"; "arrangement_ind"; "ods_typ_cd"]
  else if code_in code ["NOCDR"] then
    Some ["change_dt"; "arrangement_ind"; "ods_typ_cd"]
  else if code_in code court_order_group then
    Some ["arrangement_ind"; "court_order_num"; "ods_typ_cd"]
  else if code_in code ["OTVDS"; "ADVD2"; "OTSPE"] then
    Some ["arrangement_ind"; "ods_typ_cd"]
  else None.

(** Every code some branch of the dispatch takes. *)
Definition dispatch_codes : list string :=
  (["OTANN"] ++ ["OTADD"; "OTCDR"; "OTINC"] ++ ["ANNBC"] ++ ["NOCDR"]
   ++ court_order_group ++ ["OTVDS"; "ADVD2"; "OTSPE"])%list.

End HeaderColumns.

Module Preconditions.
Import Registry.

(** The sub-type precondition of [add_filing]. *)
Definition sub_type_ok (f : Filing) : bool :=
  negb (truthy_str (filing_sub_type f))
  || match filing_sub_type f with
     | Some s => is_supported_filing_sub_type (filing_type f) s
     | None => false
     end.

End Preconditions.

Module DirectorCalls.
Import Directors.

Section Calls.

Variable party : Type.
Variable corp_party_id : party -> Z.
Variable Party_compare_parties : party -> officer_json -> bool.

(** The current parties an officer matches, and the two calls the inner
    loop makes for each of them. *)
Definition matching (d : director) (ps : list party) : list party :=
  filter (fun p => Party_compare_parties p (d_officer d)) ps.

Definition ends_of (event_id : option Z) (corp : string) (d : director)
    (matched : list party) : list party_call :=
  flat_map (fun p =>
              [end_director_by_name (with_prev_id d (corp_party_id p)) event_id corp;
               end_director_by_name (with_prev_id d (corp_party_id p)) event_id corp])
           matched.

Definition appointed_create (event_id : option Z) (d : director) : list party_call :=
  if has_action "appointed" d then [create_new_corp_party event_id d] else [].

(** The director dictionary once every matching party has stamped its id. *)
Definition stamped (d : director) (matched : list party) : director :=
  fold_left (fun acc p => with_prev_id acc (corp_party_id p)) matched d.

End Calls.

End DirectorCalls.

Module TranslationDiff.
Import Names.

(** What the loop over the old translations does to one row. *)
Definition end_step (event_id : option Z) (corp : string)
    (name_translations : list translation) (acc o : corp_name_row) : corp_name_row :=
  if negb (name_in_translations (cn_corp_name o) name_translations)
  then end_row event_id corp (cn_corp_name o) TRANSLATION acc
  else acc.

(** The diff on a row of the table: a current translation whose name is not
    in the incoming set is ended, any other row is left as it is. *)
Definition diffed (event_id : option Z) (corp : string)
    (name_translations : list translation) (r : corp_name_row) : corp_name_row :=
  if is_current corp TRANSLATION r
     && negb (name_in_translations (cn_corp_name r) name_translations)
  then with_end r event_id
  else r.

(** The incoming translations that no prior current translation carries. *)
Definition fresh (corp : string) (name_translations : list translation)
    (s : names) : list translation :=
  filter (fun x => negb (name_in_rows (t_name x)
                           (filter (is_current corp TRANSLATION) s)))
         name_translations.

End TranslationDiff.

Module SampleLedger.
Import Business Registry Ledger Reconstruct.

Definition empty_body : filing_body :=
  {| annualReportDate := None; annualGeneralMeetingDate := None;
     effectOfOrder := None; fileNumber := None; courtOrder := None;
     contactPoint_email := None; directors := []; nameTranslations := [] |}.

(** A filing as a caller builds it before [add_filing] or [get_filing]. *)
Definition new_filing (ft : string) (sub : option string) (corp : string)
    (ct : pykey) (b : filing_body) : Filing :=
  {| f_business := {| corp_num := corp; corp_type := ct |};
     filing_type := ft; filing_sub_type := sub; event_id := None;
     effective_date := "2024-04-19T00:00:00.000000+00:00";
     filing_date := "2024-04-19"; user_id := None;
     header := {| certifiedBy := "Full Name"; h_email := None; source := None |};
     body := b |}.

(** A company of a type that has no entry in USERS. *)
Definition sole_proprietorship_report : Filing :=
  new_filing "annualReport" None "1234567" (Lit "SP")
    empty_body.

(** A sequence that counts up by one. *)
Definition counting (from : Z) : nat -> Z := fun k => from + Z.of_nat k.

Definition sample_db : db :=
  {| noncorp_event_seq := counting 1; system_id_EV := Some 100; sysdate := 1;
     event := []; filing := []; filing_user := []; executed := [] |}.

(** A cooperative with two annual reports on file. *)
Definition coop_db : db :=
  {| noncorp_event_seq := counting 3; system_id_EV := Some 100; sysdate := 30;
     event :=
       [ {| ev_event_id := 1; ev_corp_num := "CP0001"; ev_event_typ_cd := "FILE";
            ev_event_timestmp := 10 |};
         {| ev_event_id := 2; ev_corp_num := "CP0001"; ev_event_typ_cd := "FILE";
            ev_event_timestmp := 20 |} ];
     filing :=
       [ {| fl_event_id := 1; fl_filing_typ_cd := "OTANN"; fl_effective_dt := 10;
            fl_period_end_dt := Some {| year := 2017; month := 1; day := 1 |};
            fl_agm_date := None; fl_arrangement_ind := Some "N";
            fl_court_order_num := None |};
         {| fl_event_id := 2; fl_filing_typ_cd := "OTANN"; fl_effective_dt := 20;
            fl_period_end_dt := Some {| year := 2018; month := 1; day := 1 |};
            fl_agm_date := None; fl_arrangement_ind := Some "N";
            fl_court_order_num := None |} ];
     filing_user := [];
     executed := [] |}.

Definition coop_report : Filing :=
  new_filing "annualReport" None "CP0001" (TypeCode COOP)
    empty_body.

Definition file_event (eid : Z) (ts : timestamp) : event_row :=
  {| ev_event_id := eid; ev_corp_num := "CP0001"; ev_event_typ_cd := "FILE";
     ev_event_timestmp := ts |}.

Definition header_of (eid : Z) (code : string) (ts : timestamp) : filing_row :=
  {| fl_event_id := eid; fl_filing_typ_cd := code; fl_effective_dt := ts;
     fl_period_end_dt := None; fl_agm_date := None;
     fl_arrangement_ind := Some "N"; fl_court_order_num := None |}.

(** Two annual reports on file, the older one under the event id 0. *)
Definition zero_db : db :=
  {| noncorp_event_seq := counting 3; system_id_EV := Some 100; sysdate := 40;
     event := [file_event 0 10; file_event 2 20];
     filing := [header_of 0 "OTANN" 10; header_of 2 "OTANN" 20];
     filing_user := []; executed := [] |}.

(** The annual report asked for by the event id 0. *)
Definition zero_report : Filing :=
  {| f_business := f_business coop_report;
     filing_type := filing_type coop_report;
     filing_sub_type := filing_sub_type coop_report;
     event_id := Some 0;
     effective_date := effective_date coop_report;
     filing_date := filing_date coop_report;
     user_id := user_id coop_report;
     header := header coop_report;
     body := body coop_report |}.

(** An address change, then an annual report, then a second address change. *)
Definition between_db : db :=
  {| noncorp_event_seq := counting 4; system_id_EV := Some 100; sysdate := 40;
     event := [file_event 1 10; file_event 2 20; file_event 3 30];
     filing := [header_of 1 "OTADD" 10; header_of 2 "OTANN" 20;
                header_of 3 "OTADD" 30];
     filing_user := []; executed := [] |}.

(** An annual report with no address change on file. *)
Definition alone_db : db :=
  {| noncorp_event_seq := counting 3; system_id_EV := Some 100; sysdate := 40;
     event := [file_event 2 20];
     filing := [header_of 2 "OTANN" 20];
     filing_user := []; executed := [] |}.

Definition report_info : event_info :=
  derive (header_row (file_event 2 20) (header_of 2 "OTANN" 20) None).

(** Offices as a store would hand them back: the office rows that start at
    the event, named after it. *)
Definition offices_by_event (eid : Z) : result (list string) :=
  Ok (if eid =? 1 then ["registered office of event 1"]
      else if eid =? 2 then ["registered office of event 2"]
      else if eid =? 3 then ["registered office of event 3"]
      else []).

Definition offices_current (corp : string) : result (list string) :=
  Ok ["current registered office"].

Definition no_parties_by_event (corp : string) (eid : Z) : result (list string) :=
  Ok [].

Definition parties_current (corp : string) : result (list string) :=
  Ok ["current director"].

End SampleLedger.

Module SampleParties.
Import Directors.

(** A small party store: id, last name and end event of each director. *)
Definition store : Type := list (Z * string * option Z).

Definition party : Type := (Z * string)%type.

Definition is_open (r : Z * string * option Z) : bool :=
  match snd r with None => true | Some _ => false end.

Definition get_current (corp : string) : M store (list party) :=
  fun s => (Ok (map fst (filter is_open s)), s).

Definition officer_field (o : officer_json) (k : string) : string :=
  match dict_get String.eqb o k with Some v => v | None => "" end.

Definition compare_parties (p : party) (o : officer_json) : bool :=
  String.eqb (snd p) (officer_field o "prevLastName").

Definition create_party (event_id : option Z) (d : director) (b : unit)
  : M store unit :=
  fun s =>
    (Ok tt,
     (s ++ [(Z.of_nat (length s) + 1, officer_field (d_officer d) "lastName", None)])%list).

Definition end_party (d : director) (event_id : option Z) (corp : string)
  : M store unit :=
  fun s =>
    (Ok tt,
     map (fun r =>
            if is_open r
               && String.eqb (snd (fst r)) (officer_field (d_officer d) "prevLastName")
            then (fst r, event_id) else r)
         s).

(** [str] of a dictionary of strings, for keys and values that need no
    escaping: [{'k1': 'v1', 'k2': 'v2'}]. *)
Fixpoint repr_items (o : officer_json) : string :=
  match o with
  | [] => ""
  | [(k, v)] => "'" ++ k ++ "': '" ++ v ++ "'"
  | (k, v) :: rest => "'" ++ k ++ "': '" ++ v ++ "', " ++ repr_items rest
  end.

Definition officer_repr (o : officer_json) : string :=
  "{" ++ repr_items o ++ "}".

Definition board : store := [(1, "Smith", None); (2, "Jones", None)].

Definition renamed (actions : list string) (old_name : string) : director :=
  {| d_officer := [("prevLastName", old_name); ("lastName", "Smythe")];
     d_actions := actions; d_prev_id := None |}.

Definition change_of_directors (ds : list director) : Filing :=
  {| f_business := {| corp_num := "1234567"; corp_type := TypeCode Business.BC_COMP |};
     filing_type := "changeOfDirectors"; filing_sub_type := None;
     event_id := Some 7;
     effective_date := "2024-04-19T00:00:00.000000+00:00";
     filing_date := "2024-04-19"; user_id := Some "BCOMPS";
     header := {| certifiedBy := "Full Name"; h_email := None; source := None |};
     body := {| annualReportDate := None; annualGeneralMeetingDate := None;
                effectOfOrder := None; fileNumber := None; courtOrder := None;
                contactPoint_email := None; directors := ds;
                nameTranslations := [] |} |}.

Definition run (ds : list director) : result string * (store * list party_call) :=
  _process_directors store party unit fst get_current compare_parties
    create_party end_party officer_repr
    (change_of_directors ds) tt "1234567" (board, []).

End SampleParties.

Module SampleNames.
Import Names.

Definition translation_row (n : string) (start_event : Z) : corp_name_row :=
  {| cn_corp_num := "1234567"; cn_corp_name := n; cn_type_code := TRANSLATION;
     cn_start_event_id := Some start_event; cn_end_event_id := None |}.

(** The current translations Alpha and Beta, both from event 3. *)
Definition alpha_beta : names := [translation_row "Alpha" 3; translation_row "Beta" 3].

Definition alteration_with (ts : list string) : Filing :=
  {| f_business := {| corp_num := "1234567"; corp_type := TypeCode Business.BC_COMP |};
     filing_type := "alteration"; filing_sub_type := None;
     event_id := Some 7;
     effective_date := "2024-04-19T00:00:00.000000+00:00";
     filing_date := "2024-04-19"; user_id := Some "BCOMPS";
     header := {| certifiedBy := "Full Name"; h_email := None; source := None |};
     body := {| annualReportDate := None; annualGeneralMeetingDate := None;
                effectOfOrder := None; fileNumber := None; courtOrder := None;
                contactPoint_email := None; directors := [];
                nameTranslations := map (fun n => {| t_name := n |}) ts |} |}.

End SampleNames.

(** ** Further tables and measures used by the properties *)

Module RegistryCoverage.
Import Business Registry Ledger Writer HeaderColumns.

(** Every (filing type, entity type, code) the table registers, under the
    filing type itself or under one of its sub-types. *)
Definition registered_triples : list (string * TypeCodes * string) :=
  flat_map (fun entry =>
    flat_map (fun kv =>
      match fst kv, snd kv with
      | TypeCode t, VStr c => [(fst entry, t, c)]
      | Lit _, VDict m =>
          flat_map (fun kc =>
                      match fst kc with
                      | TypeCode t => [(fst entry, t, snd kc)]
                      | Lit _ => []
                      end) m
      | _, _ => []
      end)
      (snd entry))
    FILING_TYPES.

(** The code of a triple is listed under its filing type, and the reverse
    lookup gives the filing type back, but for OTVDS under dissolution. *)
Definition round_trip_check (x : string * TypeCodes * string) : bool :=
  let '(ft, _, c) := x in
  str_in c (codes_of ft)
  && match _get_filing_type c with
     | Ok (Some ft') =>
         String.eqb ft' ft
         || (String.eqb c "OTVDS" && String.eqb ft "dissolution"
             && String.eqb ft' "voluntaryDissolution")
     | _ => false
     end.

(** The code of a triple of a submittable filing type is one the dispatch of
    [_insert_filing] takes, but for OTAMA, the amalgamation of a cooperative. *)
Definition dispatch_check (x : string * TypeCodes * string) : bool :=
  let '(ft, t, c) := x in
  negb (str_in ft submittable_types)
  || (if String.eqb c "OTAMA"
      then String.eqb ft "amalgamationApplication" && TypeCodes_eqb t COOP
      else match header_columns (Some (VStr c)) with
           | Some _ => true
           | None => false
           end).

End RegistryCoverage.

Module Statements.
Import Ledger.

(** The names an INSERT expects to be bound, in the order of its VALUES. *)
Fixpoint placeholders (vals : list sql_value) : list string :=
  match vals with
  | [] => []
  | Bind n :: rest | ToDate n :: rest | ToTimestampTz n :: rest =>
      n :: placeholders rest
  | Literal _ :: rest => placeholders rest
  end.

(** An INSERT [cursor.execute] accepts: a value for every column, and the
    bound arguments are the names of the statement, no more and no fewer. *)
Definition well_formed (st : statement) : Prop :=
  length (columns st) = length (values st)
  /\ map fst (binds st) = placeholders (values st).

Definition is_cp (corp : string) : bool :=
  String.eqb (substring 0 2 corp) "CP".

Definition new_event (event_id : Z) (corp event_type : string) (d : db) : event_row :=
  {| ev_event_id := event_id; ev_corp_num := corp;
     ev_event_typ_cd := event_type; ev_event_timestmp := sysdate d |}.

End Statements.

Module PlainEntries.
Import Directors.

(** The calls of a director entry that carries neither nameChanged nor
    addressChanged: a creation when appointed, an end by name when ceased. *)
Definition plain_calls (event_id : option Z) (corp : string) (d : director)
  : list party_call :=
  ((if has_action "appointed" d then [create_new_corp_party event_id d] else [])
   ++ (if has_action "ceased" d then [end_director_by_name d event_id corp] else []))%list.

Definition is_plain (d : director) : bool :=
  negb (has_action "nameChanged" d || has_action "addressChanged" d).

End PlainEntries.

(** ** The type-specific steps of a submission *)

Module Steps.
Import Business Registry Ledger.

(** The members of [Business.CorpStateTypes] named in filing.py; the class
    is declared in colin_api/models/business.py and the values behind the
    members are not used here.  [CONTINUE_IN_STATE] is its member
    [CONTINUE_IN], which shares its name with a member of [TypeCodes]. *)
Inductive CorpStateTypes : Type :=
| ADMINISTRATIVE_DISSOLUTION
| AMALGAMATED
| CONTINUE_IN_STATE
| INVOLUNTARY_DISSOLUTION_NO_AR
| INVOLUNTARY_DISSOLUTION_NO_TR
| VOLUNTARY_DISSOLUTION.

(** A ['foreignJurisdiction'] dictionary; [None] is a key that is absent. *)
Record foreign_jurisdiction : Type := {
  country : option string;
  region : option string;
  incorporationDate : option string;
  fj_identifier : option string;
  fj_legalName : option string
}.

(** An entry of [filing.body['amalgamatingBusinesses']]; an absent or empty
    ['foreignJurisdiction'] is [None]. *)
Record amalgamating_business : Type := {
  ab_identifier : option string;
  ab_foreignJurisdiction : option foreign_jurisdiction;
  ab_legalName : option string;
  ab_role : option string
}.

(** The attributes [_process_amalgamating_businesses] sets on a
    [CorpInvolved] object; one it does not assign reads [None]. *)
Record corp_involved : Type := {
  ci_event_id : option Z;
  ci_corp_involve_id : Z;
  ci_home_juri_num : option string;
  ci_foreign_nme : option string;
  ci_can_jur_typ_cd : option string;
  ci_othr_juri_desc : option string;
  ci_corp_num : option string;
  ci_adopted_corp_ind : option string
}.

(** The attributes [_process_continuation_in] sets on a [Jurisdiction]. *)
Record jurisdiction : Type := {
  j_corp_num : string;
  j_start_event_id : option Z;
  j_can_jur_typ_cd : string;
  j_othr_juris_desc : option string;
  j_home_recogn_dt : option string;
  j_home_juris_num : option string;
  j_home_company_nme : option string;
  j_bc_xpro_num : option (option string)
}.

(** The metadata of an involuntary dissolution: whether ['overdueARs'] and
    ['overdueTransition'] hold a truthy value. *)
Record meta_data : Type := {
  overdueARs : bool;
  overdueTransition : bool
}.

Record share_structure (share_class : Type) : Type := {
  resolutionDates : list string;
  shareClasses : list share_class
}.
Arguments resolutionDates {share_class} s.
Arguments shareClasses {share_class} s.

(** The keys of [filing.body] read by the steps below, beside those of
    [filing_body].  An absent key is [None] or [[]]; so is an empty
    dictionary or list under ['foreignJurisdiction'], ['business'],
    ['shareStructure'], ['metaData'] or ['shareClasses'], which the code
    tests for truth.  ['business'] is kept by its ['identifier']; the keys
    of ['offices'] are the office types, in the order of the dictionary. *)
Record payload (addresses share_class : Type) : Type := {
  amalgamatingBusinesses : list amalgamating_business;
  foreignJurisdiction : option foreign_jurisdiction;
  expro_business : option (option string);
  offices : list (string * addresses);
  custodialOffice : option addresses;
  shareStructure : option (share_structure share_class);
  metaData : option meta_data
}.
Arguments amalgamatingBusinesses {addresses share_class} p.
Arguments foreignJurisdiction {addresses share_class} p.
Arguments expro_business {addresses share_class} p.
Arguments offices {addresses share_class} p.
Arguments custodialOffice {addresses share_class} p.
Arguments shareStructure {addresses share_class} p.
Arguments metaData {addresses share_class} p.

(** A call into a collaborator of the writer, with its arguments. *)
Inductive step_call (addresses share_class : Type) : Type :=
| update_corp_state (event_id : option Z) (corp : option string)
    (state : CorpStateTypes)
| create_corp_involved (row : corp_involved)
| create_jurisdiction (row : jurisdiction)
| create_new_office (a : option addresses) (event_id : option Z) (corp : string)
    (office_type : string)
| create_resolution (corp : string) (event_id : option Z) (resolution_date : string)
| end_share_structure (event_id : option Z) (corp : string)
| create_share_structure (corp : string) (event_id : option Z)
    (shares_list : list share_class).
Arguments update_corp_state {addresses share_class}.
Arguments create_corp_involved {addresses share_class}.
Arguments create_jurisdiction {addresses share_class}.
Arguments create_new_office {addresses share_class}.
Arguments create_resolution {addresses share_class}.
Arguments end_share_structure {addresses share_class}.
Arguments create_share_structure {addresses share_class}.

(** [s[-7:]] *)
Definition last7 (s : string) : string :=
  substring (String.length s - 7) 7 s.

(** [s.replace('O', ' O')] *)
Fixpoint replace_O (s : string) : string :=
  match s with
  | EmptyString => EmptyString
  | String c rest =>
      if String.eqb (String c EmptyString) "O"
      then " O" ++ replace_O rest
      else String c (replace_O rest)
  end.

Definition opt_is (o : option string) (s : string) : bool :=
  match o with Some x => String.eqb x s | None => false end.

Section Collaborators.

(** [Business], [CorpInvolved], [Jurisdiction], [Office] and [ShareObject]
    are declared outside filing.py: their operations act on a store that is
    left abstract, and may raise.  [upper] and [title] are the methods of
    Python's [str]. *)
Variables store addresses share_class : Type.
Variable Business_update_corp_state :
  option Z -> option string -> CorpStateTypes -> M store unit.
Variable CorpInvolved_create_corp_involved : corp_involved -> M store unit.
Variable Jurisdiction_create_jurisdiction : jurisdiction -> M store unit.
Variable Office_create_new_office :
  option addresses -> option Z -> string -> string -> M store unit.
Variable Business_create_resolution : string -> option Z -> string -> M store unit.
Variable ShareObject_end_share_structure : option Z -> string -> M store unit.
Variable ShareObject_create_share_structure :
  string -> option Z -> list share_class -> M store unit.
Variable upper : string -> string.
Variable title : string -> string.

Definition call_t : Type := step_call addresses share_class.

(** The store together with the calls made on it so far. *)
Definition state : Type := (store * list call_t)%type.

Definition logged (c : call_t) (op : M store unit) : M state unit :=
  fun st => let '(r, s') := op (fst st) in (r, (s', (snd st ++ [c])%list)).

Definition set_corp_state (event_id : option Z) (corp : option string)
    (s : CorpStateTypes) : M state unit :=
  logged (update_corp_state event_id corp s)
         (Business_update_corp_state event_id corp s).

(** The body of the loop of [_process_amalgamating_businesses]. *)
Definition process_amalgamating_business (event_id : option Z) (index : Z)
    (ab : amalgamating_business) : M state unit :=
  let domestic : M state unit :=
    match ab_identifier ab with
    | None => raise AttributeError
    | Some identifier =>
        let identifier :=
          if String.prefix "BC" identifier then last7 identifier else identifier in
        match ab_role ab with
        | None => raise (KeyError (Lit "role"))
        | Some role =>
            let row :=
              {| ci_event_id := event_id; ci_corp_involve_id := index;
                 ci_home_juri_num := None; ci_foreign_nme := None;
                 ci_can_jur_typ_cd := None; ci_othr_juri_desc := None;
                 ci_corp_num := Some identifier;
                 ci_adopted_corp_ind :=
                   if str_in role ["holding"; "primary"] then Some "Y" else None |} in
            (set_corp_state event_id (Some identifier) AMALGAMATED ;;;
             logged (create_corp_involved row)
                    (CorpInvolved_create_corp_involved row))%monad
        end
    end in
  match ab_foreignJurisdiction ab with
  | None => domestic
  | Some foreign_jurisdiction =>
      match ab_identifier ab with
      | None => raise AttributeError
      | Some identifier =>
          if negb (String.prefix "A" identifier
                   && opt_is (country foreign_jurisdiction) "CA"
                   && opt_is (region foreign_jurisdiction) "BC")
          then
            match country foreign_jurisdiction with
            | None => raise AttributeError
            | Some c =>
                let country_code := upper c in
                let region_code :=
                  upper (if truthy_str (region foreign_jurisdiction)
                         then match region foreign_jurisdiction with
                              | Some r => r
                              | None => ""
                              end
                         else "") in
                let row :=
                  if String.eqb country_code "CA" then
                    {| ci_event_id := event_id; ci_corp_involve_id := index;
                       ci_home_juri_num := Some identifier;
                       ci_foreign_nme := ab_legalName ab;
                       ci_can_jur_typ_cd :=
                         Some (if String.eqb region_code "FEDERAL"
                               then "FD" else region_code);
                       ci_othr_juri_desc := None;
                       ci_corp_num := None; ci_adopted_corp_ind := None |}
                  else
                    {| ci_event_id := event_id; ci_corp_involve_id := index;
                       ci_home_juri_num := Some identifier;
                       ci_foreign_nme := ab_legalName ab;
                       ci_can_jur_typ_cd := Some "OT";
                       ci_othr_juri_desc :=
                         Some (if String.eqb region_code "" then country_code
                               else country_code ++ ", " ++ region_code);
                       ci_corp_num := None; ci_adopted_corp_ind := None |} in
                logged (create_corp_involved row)
                       (CorpInvolved_create_corp_involved row)
            end
          else domestic
      end
  end.

(** [for index, amalgamating_business in enumerate(...)] *)
Fixpoint enumerate_from (event_id : option Z) (index : Z)
    (abs : list amalgamating_business) : M state unit :=
  match abs with
  | [] => ret tt
  | ab :: rest =>
      (process_amalgamating_business event_id index ab ;;;
       enumerate_from event_id (index + 1) rest)%monad
  end.

(** [Filing._process_amalgamating_businesses(cursor, filing)] *)
Definition _process_amalgamating_businesses (f : Filing)
    (p : payload addresses share_class) : M state unit :=
  enumerate_from (event_id f) 0 (amalgamatingBusinesses p).

(** [Filing._process_continuation_in(cursor, filing)] *)
Definition _process_continuation_in (f : Filing)
    (p : payload addresses share_class) : M state unit :=
  match foreignJurisdiction p with
  | None => raise AttributeError
  | Some foreign_jurisdiction =>
      match country foreign_jurisdiction with
      | None => raise AttributeError
      | Some c =>
          let country_code := upper c in
          let region_code :=
            upper (if truthy_str (region foreign_jurisdiction)
                   then match region foreign_jurisdiction with
                        | Some r => r
                        | None => ""
                        end
                   else "") in
          let can_jur_typ_cd :=
            if String.eqb country_code "CA"
            then if String.eqb region_code "FEDERAL" then "FD" else region_code
            else "OT" in
          let othr_juris_desc :=
            if String.eqb country_code "CA" then None
            else Some (if String.eqb region_code "" then country_code
                       else country_code ++ ", " ++ region_code) in
          let row (xpro : option (option string)) :=
            {| j_corp_num := corp_num (f_business f);
               j_start_event_id := event_id f;
               j_can_jur_typ_cd := can_jur_typ_cd;
               j_othr_juris_desc := othr_juris_desc;
               j_home_recogn_dt := incorporationDate foreign_jurisdiction;
               j_home_juris_num := fj_identifier foreign_jurisdiction;
               j_home_company_nme := fj_legalName foreign_jurisdiction;
               j_bc_xpro_num := xpro |} in
          match expro_business p with
          | Some identifier =>
              (set_corp_state (event_id f) identifier CONTINUE_IN_STATE ;;;
               logged (create_jurisdiction (row (Some identifier)))
                      (Jurisdiction_create_jurisdiction (row (Some identifier))))%monad
          | None =>
              logged (create_jurisdiction (row None))
                     (Jurisdiction_create_jurisdiction (row None))
          end
      end
  end.

Definition new_office (a : option addresses) (event_id : option Z)
    (corp office_type : string) : M state unit :=
  logged (create_new_office a event_id corp office_type)
         (Office_create_new_office a event_id corp office_type).

(** [f'Change to the {office_desc}.'] with
    [office_desc = (office_type.replace('O', ' O')).title()] *)
Definition office_sentence (office_type : string) : string :=
  "Change to the " ++ title (replace_O office_type) ++ ".".

(** The loop of [_process_office] over [filing.body.get('offices', [])],
    threading [text]. *)
Fixpoint offices_loop (f : Filing) (corp : string)
    (entries : list (string * addresses)) (text : string) : M state string :=
  match entries with
  | [] => ret text
  | (office_type, a) :: rest =>
      (new_office (Some a) (event_id f) corp office_type ;;;
       let text :=
         if negb (str_in (filing_type f)
                    ["amalgamationApplication"; "continuationIn";
                     "incorporationApplication"])
         then if String.eqb text "" then office_sentence office_type
              else text ++ " " ++ office_sentence office_type
         else text in
       offices_loop f corp rest text)%monad
  end.

(** [Filing._process_office(cursor, filing)] *)
Definition _process_office (f : Filing) (p : payload addresses share_class)
  : M state string :=
  if String.eqb (filing_type f) "annualReport" then ret ""
  else
    let corp := corp_num (f_business f) in
    if is_filing_type_match f "dissolution" "voluntary" then
      (new_office (custodialOffice p) (event_id f) corp "custodialOffice" ;;;
       ret (office_sentence "custodialOffice"))%monad
    else offices_loop f corp (offices p) "".

Fixpoint resolutions_loop (corp : string) (event_id : option Z)
    (dates : list string) : M state unit :=
  match dates with
  | [] => ret tt
  | date_str :: rest =>
      (logged (create_resolution corp event_id date_str)
              (Business_create_resolution corp event_id date_str) ;;;
       resolutions_loop corp event_id rest)%monad
  end.

(** [Filing._process_share_structure(cursor, filing, corp_num)] *)
Definition _process_share_structure (f : Filing)
    (p : payload addresses share_class) (corp : string) : M state unit :=
  match shareStructure p with
  | None => ret tt
  | Some share_structure =>
      (resolutions_loop corp (event_id f) (resolutionDates share_structure) ;;;
       if negb (pykey_eqb (corp_type (f_business f)) (TypeCode COOP))
          && negb (match shareClasses share_structure with
                   | [] => true
                   | _ => false
                   end)
       then
         (if String.eqb (filing_type f) "alteration"
          then logged (end_share_structure (event_id f) corp)
                      (ShareObject_end_share_structure (event_id f) corp)
          else ret tt) ;;;
         logged (create_share_structure corp (event_id f)
                   (shareClasses share_structure))
                (ShareObject_create_share_structure corp (event_id f)
                   (shareClasses share_structure))
       else ret tt)%monad
  end.

End Collaborators.

(** The dissolution events run on the ledger tables; the corporate state
    they set is kept by [Business]. *)
Section DissolutionEvents.

Variable Business_update_corp_state : Z -> string -> CorpStateTypes -> M db unit.

(** [Filing.add_administrative_dissolution_event(con, corp_num)] *)
Definition add_administrative_dissolution_event (corp : string) : M db Z :=
  (event_id <- _get_event_id corp "SYSDA" ;;
   Business_update_corp_state event_id corp ADMINISTRATIVE_DISSOLUTION ;;;
   ret event_id)%monad.

(** [Filing.add_involuntary_dissolution_event(con, corp_num, filing_body)],
    on the ['metaData'] of the body. *)
Definition add_involuntary_dissolution_event (corp : string)
    (filing_meta_data : option meta_data) : M db (option Z) :=
  match filing_meta_data with
  | None => ret None
  | Some md =>
      let chosen : option (string * CorpStateTypes) :=
        if overdueARs md then Some ("SYSDF", INVOLUNTARY_DISSOLUTION_NO_AR)
        else if overdueTransition md
             then Some ("SYSDT", INVOLUNTARY_DISSOLUTION_NO_TR)
             else None in
      match chosen with
      | Some (event_type, corp_state) =>
          (event_id <- _get_event_id corp event_type ;;
           Business_update_corp_state event_id corp corp_state ;;;
           ret (Some event_id))%monad
      | None => ret None
      end
  end.

End DissolutionEvents.

End Steps.

Module StepTables.
Import Business Registry Ledger Steps.

(** An amalgamating business the loop treats as one of the registry's own:
    it names no foreign jurisdiction, or it is an extra-provincial company
    (identifier starting with A) registered in CA, BC, in these letters. *)
Definition is_domestic (ab : amalgamating_business) : bool :=
  match ab_foreignJurisdiction ab with
  | None => true
  | Some fj =>
      match ab_identifier ab with
      | Some identifier =>
          String.prefix "A" identifier && opt_is (country fj) "CA"
          && opt_is (region fj) "BC"
      | None => false
      end
  end.

(** The calls that go with a [corp_involved] row: the state change of the
    amalgamating company when the row names one, then the row. *)
Definition row_calls {addresses share_class : Type} (row : corp_involved)
  : list (step_call addresses share_class) :=
  (match ci_corp_num row with
   | Some c => [update_corp_state (ci_event_id row) (Some c) AMALGAMATED]
   | None => []
   end ++ [create_corp_involved row])%list.

(** What a row records of the business it was made for. *)
Definition involved_as (ab : amalgamating_business) (row : corp_involved) : Prop :=
  if is_domestic ab then
    ci_home_juri_num row = None /\ ci_foreign_nme row = None
    /\ ci_can_jur_typ_cd row = None /\ ci_othr_juri_desc row = None
    /\ (exists identifier,
          ab_identifier ab = Some identifier
          /\ ci_corp_num row
             = Some (if String.prefix "BC" identifier
                     then last7 identifier else identifier))
    /\ (exists role,
          ab_role ab = Some role
          /\ ci_adopted_corp_ind row
             = if str_in role ["holding"; "primary"] then Some "Y" else None)
  else
    ci_corp_num row = None /\ ci_adopted_corp_ind row = None
    /\ ci_home_juri_num row = ab_identifier ab
    /\ ci_home_juri_num row <> None
    /\ ci_foreign_nme row = ab_legalName ab
    /\ ci_can_jur_typ_cd row <> None
    /\ (ci_othr_juri_desc row <> None -> ci_can_jur_typ_cd row = Some "OT").

(** The office calls of a filing, one for each office type of the body. *)
Definition office_calls {addresses share_class : Type} (f : Filing)
    (entries : list (string * addresses)) : list (step_call addresses share_class) :=
  map (fun e => create_new_office (Some (snd e)) (event_id f)
                  (corp_num (f_business f)) (fst e))
      entries.

Definition keeps_office_text (f : Filing) : bool :=
  negb (str_in (filing_type f)
          ["amalgamationApplication"; "continuationIn"; "incorporationApplication"]).

End StepTables.

Module SampleSteps.
Import Business Registry Ledger Steps.

(** [str.upper] and [str.title] on ASCII text. *)
Definition is_lower (c : Ascii.ascii) : bool :=
  (97 <=? Ascii.nat_of_ascii c)%nat && (Ascii.nat_of_ascii c <=? 122)%nat.

Definition is_upper (c : Ascii.ascii) : bool :=
  (65 <=? Ascii.nat_of_ascii c)%nat && (Ascii.nat_of_ascii c <=? 90)%nat.

Definition to_upper (c : Ascii.ascii) : Ascii.ascii :=
  if is_lower c then Ascii.ascii_of_nat (Ascii.nat_of_ascii c - 32) else c.

Definition to_lower (c : Ascii.ascii) : Ascii.ascii :=
  if is_upper c then Ascii.ascii_of_nat (Ascii.nat_of_ascii c + 32) else c.

Fixpoint ascii_upper (s : string) : string :=
  match s with
  | EmptyString => EmptyString
  | String c rest => String (to_upper c) (ascii_upper rest)
  end.

Fixpoint title_from (in_word : bool) (s : string) : string :=
  match s with
  | EmptyString => EmptyString
  | String c rest =>
      if is_lower c || is_upper c
      then String (if in_word then to_lower c else to_upper c) (title_from true rest)
      else String c (title_from false rest)
  end.

Definition ascii_title (s : string) : string := title_from false s.

(** Collaborators that accept every call. *)
Definition accept {A : Type} (a : A) : M unit unit := ret tt.

Definition no_payload : payload string string :=
  {| amalgamatingBusinesses := []; foreignJurisdiction := None;
     expro_business := None; offices := []; custodialOffice := None;
     shareStructure := None; metaData := None |}.

Definition washington : foreign_jurisdiction :=
  {| country := Some "us"; region := Some "wa";
     incorporationDate := Some "2001-02-03"; fj_identifier := Some "X99";
     fj_legalName := Some "Foreign Co" |}.

Definition british_columbia : foreign_jurisdiction :=
  {| country := Some "CA"; region := Some "BC"; incorporationDate := None;
     fj_identifier := None; fj_legalName := None |}.

(** A holding company of the registry, an extra-provincial company
    registered in BC and a company from Washington. *)
Definition three_businesses : list amalgamating_business :=
  [ {| ab_identifier := Some "BC1234567"; ab_foreignJurisdiction := None;
       ab_legalName := Some "Holding Ltd."; ab_role := Some "holding" |};
    {| ab_identifier := Some "A0001234";
       ab_foreignJurisdiction := Some british_columbia;
       ab_legalName := Some "Expro Ltd."; ab_role := Some "amalgamating" |};
    {| ab_identifier := Some "X99"; ab_foreignJurisdiction := Some washington;
       ab_legalName := Some "Foreign Co"; ab_role := Some "amalgamating" |} ].

Definition amalgamation_payload : payload string string :=
  {| amalgamatingBusinesses := three_businesses; foreignJurisdiction := None;
     expro_business := None; offices := []; custodialOffice := None;
     shareStructure := None; metaData := None |}.

Definition continuation_payload : payload string string :=
  {| amalgamatingBusinesses := []; foreignJurisdiction := Some washington;
     expro_business := Some (Some "A0001234"); offices := [];
     custodialOffice := None; shareStructure := None; metaData := None |}.

Definition offices_payload : payload string string :=
  {| amalgamatingBusinesses := []; foreignJurisdiction := None;
     expro_business := None;
     offices := [("registeredOffice", "1 Main St"); ("recordsOffice", "2 Side St")];
     custodialOffice := None; shareStructure := None; metaData := None |}.

Definition shares_payload : payload string string :=
  {| amalgamatingBusinesses := []; foreignJurisdiction := None;
     expro_business := None; offices := []; custodialOffice := None;
     shareStructure :=
       Some {| resolutionDates := ["2024-01-02"]; shareClasses := ["Class A"] |};
     metaData := None |}.

Definition filed (ft : string) (ct : pykey) : Filing :=
  {| f_business := {| corp_num := "1234567"; corp_type := ct |};
     filing_type := ft; filing_sub_type := None; event_id := Some 7;
     effective_date := "2024-04-19T00:00:00.000000+00:00";
     filing_date := "2024-04-19"; user_id := Some "BCOMPS";
     header := {| certifiedBy := "Full Name"; h_email := None; source := None |};
     body := SampleLedger.empty_body |}.

Definition run_amalgamation : result unit * (unit * list (step_call string string)) :=
  _process_amalgamating_businesses unit string string
    (fun e c s => accept s) accept ascii_upper
    (filed "amalgamationApplication" (TypeCode BC_COMP)) amalgamation_payload (tt, []).

Definition run_continuation : result unit * (unit * list (step_call string string)) :=
  _process_continuation_in unit string string
    (fun e c s => accept s) accept ascii_upper
    (filed "continuationIn" (TypeCode CONTINUE_IN)) continuation_payload (tt, []).

Definition run_offices : result string * (unit * list (step_call string string)) :=
  _process_office unit string string (fun a e c t => accept t) ascii_title
    (filed "changeOfAddress" (TypeCode BC_COMP)) offices_payload (tt, []).

Definition run_shares (ft : string) (ct : pykey)
  : result unit * (unit * list (step_call string string)) :=
  _process_share_structure unit string string
    (fun c e r => accept r) (fun e c => accept c) (fun c e l => accept l)
    (filed ft ct) shares_payload "1234567" (tt, []).

End SampleSteps.

(** ** The name translations of a reconstructed filing *)

Module NameComponent.
Import Names Reconstruct.

(** An entry of [filing.body['nameTranslations']] as [get_filing] builds it:
    [{'name': n, 'new': True}] or [{'name': n, 'ceased': True}]. *)
Inductive translation_entry : Type :=
| new_name (name : string)
| ceased_name (name : string).

Definition at_event (o : option Z) (event_id : Z) : bool :=
  match o with Some e => e =? event_id | None => false end.

(** [for translation in translations: ...]; the [event_id] of a [CorpName]
    object is the event its row starts at. *)
Fixpoint classify (event_id : Z) (translations : list corp_name_row)
  : list translation_entry :=
  match translations with
  | [] => []
  | translation :: rest =>
      if at_event (cn_start_event_id translation) event_id
      then new_name (cn_corp_name translation) :: classify event_id rest
      else if at_event (cn_end_event_id translation) event_id
           then ceased_name (cn_corp_name translation) :: classify event_id rest
           else classify event_id rest
  end.

Section Store.

(** [CorpName.get_by_event(cursor, corp_num, event_id, type_code)], of
    colin_api/models/corp_name.py. *)
Variable CorpName_get_by_event : string -> Z -> string -> result (list corp_name_row).

(** [if 'nameTranslations' in components: ...]: the value left under
    ['nameTranslations'], [None] when the key is deleted again. *)
Definition get_filing_nameTranslations (corp : string)
    (filing_event_info : event_info) : result (option (list translation_entry)) :=
  match CorpName_get_by_event corp (i_event_id filing_event_info) "TR" with
  | Raise e => Raise e
  | Ok translations =>
      match classify (i_event_id filing_event_info) translations with
      | [] => Ok None
      | entries => Ok (Some entries)
      end
  end.

End Store.

(** A row that starts or ends at the event. *)
Definition touches (event_id : Z) (r : corp_name_row) : bool :=
  at_event (cn_start_event_id r) event_id || at_event (cn_end_event_id r) event_id.

(** The names of the current translations of the entity that the incoming
    list does not hold. *)
Definition dropped (corp : string) (name_translations : list translation)
    (s : names) : list string :=
  map cn_corp_name
    (filter (fun r => is_current corp TRANSLATION r
                      && negb (name_in_translations (cn_corp_name r) name_translations))
            s).

End NameComponent.

Module ReverseLookup.
Import Business Registry.

(** The (filing type, code) pairs of a table, entry by entry. *)
Definition pairs_of (table : list (string * list (pykey * pyval)))
  : list (string * string) :=
  flat_map (fun entry =>
              match dict_get pykey_eqb (snd entry) (Lit "type_code_list") with
              | Some (VList l) => map (pair (fst entry)) l
              | _ => []
              end)
           table.

Definition lists_codes (entry : string * list (pykey * pyval)) : Prop :=
  exists l, dict_get pykey_eqb (snd entry) (Lit "type_code_list") = Some (VList l).

End ReverseLookup.

(** * Properties *)

(** ** Dictionaries and the monad *)

Lemma pykey_eqb_eq (a b : pykey) : pykey_eqb a b = true <-> a = b.
Proof.
  destruct a as [s|t], b as [s'|t']; simpl.
  - rewrite String.eqb_eq. split; [intros ->; reflexivity | intros [= ->]; reflexivity].
  - split; discriminate.
  - split; discriminate.
  - split.
    + destruct t, t'; simpl; intros H; try discriminate H; reflexivity.
    + intros [= ->]. destruct t'; reflexivity.
Qed.

Lemma dict_get_In {K V : Type} (eqb : K -> K -> bool)
    (eqb_eq : forall a b, eqb a b = true -> a = b)
    (d : list (K * V)) (k : K) (v : V) :
  dict_get eqb d k = Some v -> In (k, v) d.
Proof.
  induction d as [|[k' v'] d IH]; simpl; [discriminate|].
  destruct (eqb k' k) eqn:E.
  - intros [= ->]. left. f_equal. apply eqb_eq, E.
  - intros H. right. apply IH, H.
Qed.

Lemma str_in_In (s : string) (l : list string) : str_in s l = true <-> In s l.
Proof.
  unfold str_in. rewrite existsb_exists. split.
  - intros [x [Hx E]]. apply String.eqb_eq in E. subst. exact Hx.
  - intros H. exists s. split; [exact H | apply String.eqb_refl].
Qed.

Lemma bind_ok {S A B : Type} (m : M S A) (k : A -> M S B) (s s' : S) (a : A) :
  m s = (Ok a, s') -> bind m k s = k a s'.
Proof. unfold bind. intros ->. reflexivity. Qed.

Lemma bind_raise {S A B : Type} (m : M S A) (k : A -> M S B) (s s' : S) (e : exn) :
  m s = (Raise e, s') -> bind m k s = (Raise e, s').
Proof. unfold bind. intros ->. reflexivity. Qed.

Lemma bind_inv_ok {S A B : Type} (m : M S A) (k : A -> M S B) (s s'' : S) (b : B) :
  bind m k s = (Ok b, s'') ->
  exists a s', m s = (Ok a, s') /\ k a s' = (Ok b, s'').
Proof.
  unfold bind. destruct (m s) as [[a|e] s'].
  - intros H. exists a, s'. split; [reflexivity | exact H].
  - discriminate.
Qed.

(** ** The code registry *)

Module RegistryFacts.
Import Business Registry RegistryTables.

Lemma codes_of_pairs (t c : string) :
  In c (codes_of t) -> In (t, c) code_pairs.
Proof.
  unfold codes_of, filing_type_entry, code_pairs.
  destruct (dict_get String.eqb FILING_TYPES t) as [d|] eqn:E; [|intros []].
  apply dict_get_In in E; [|intros a b; apply String.eqb_eq].
  intros H. apply in_flat_map. exists (t, d). split; [exact E|].
  simpl. destruct (dict_get pykey_eqb d (Lit "type_code_list")) as [[s|l|m]|];
    try contradiction.
  apply in_map, H.
Qed.

Lemma str_pair_ok_spec (check : string -> string -> bool) (t c : string) :
  str_pair_ok check = true -> In c (codes_of t) -> check t c = true.
Proof.
  unfold str_pair_ok. rewrite forallb_forall. intros H Hin.
  apply (H (t, c)), codes_of_pairs, Hin.
Qed.

(** C1, as the code has it: a legacy code listed in FILING_TYPES is
    resolved by [_get_filing_type] to one filing type that lists it, the
    first in table order; for every code but OTVDS that is the only filing
    type listing it, while OTVDS is listed under both voluntaryDissolution
    and dissolution and resolves to voluntaryDissolution. *)
Theorem legacy_code_owner (t c : string) :
  In c (codes_of t) ->
  (exists t',
      _get_filing_type c = Ok (Some t') /\ In c (codes_of t')
      /\ (c <> "OTVDS" -> t' = t)
      /\ (c = "OTVDS" -> t' = "voluntaryDissolution"))
  /\ (forall t2, In c (codes_of t2) -> t2 <> t ->
        c = "OTVDS"
        /\ ((t = "voluntaryDissolution" /\ t2 = "dissolution")
            \/ (t = "dissolution" /\ t2 = "voluntaryDissolution"))).
Proof.
  intros Hin. split.
  - pose proof (str_pair_ok_spec owner_check t c eq_refl Hin) as H.
    unfold owner_check in H.
    destruct (_get_filing_type c) as [[t'|]|e]; try discriminate H.
    apply andb_true_iff in H as [H1 H2]. apply str_in_In in H1.
    exists t'. repeat split; try assumption.
    + intros Hne. destruct (String.eqb c "OTVDS") eqn:E.
      * apply String.eqb_eq in E. contradiction.
      * apply String.eqb_eq, H2.
    + intros ->. simpl in H2. apply String.eqb_eq, H2.
  - intros t2 Hin2 Hne.
    pose proof (str_pair_ok_spec collision_check t c eq_refl Hin) as H.
    unfold collision_check in H. rewrite forallb_forall in H.
    specialize (H (t2, c) (codes_of_pairs _ _ Hin2)). simpl in H.
    rewrite String.eqb_refl in H. simpl in H.
    apply orb_true_iff in H as [H|H].
    + apply String.eqb_eq in H. contradiction.
    + apply andb_true_iff in H as [Hc H]. apply String.eqb_eq in Hc.
      split; [exact Hc|].
      apply orb_true_iff in H as [H|H]; apply andb_true_iff in H as [Ha Hb];
        apply String.eqb_eq in Ha, Hb; [left | right]; split; assumption.
Qed.

Lemma legacy_code_owner_witness :
  In "OTANN" (codes_of "annualReport")
  /\ _get_filing_type "OTANN" = Ok (Some "annualReport").
Proof.
  assert (H : In "OTANN" (codes_of "annualReport")) by (simpl; auto).
  split; [exact H|].
  destruct (legacy_code_owner "annualReport" "OTANN" H) as [[t' [E [_ [Hne _]]]] _].
  rewrite E. rewrite (Hne ltac:(discriminate)). reflexivity.
Defined.

(** C1 as stated fails: voluntaryDissolution and dissolution are two
    filing-type names of the table, built without complaint, and both list
    the code OTVDS. *)
Lemma code_collision_OTVDS :
  In "OTVDS" (codes_of "voluntaryDissolution")
  /\ In "OTVDS" (codes_of "dissolution")
  /\ String.eqb "voluntaryDissolution" "dissolution" = false
  /\ _get_filing_type "OTVDS" = Ok (Some "voluntaryDissolution").
Proof. repeat split; simpl; auto. Qed.

End RegistryFacts.

Module CodeLookup.
Import Business Registry Ledger RegistryTables SampleLedger.

(** When the sub-type is the filing's own, the lookup is the registered
    code of the triple. *)
Lemma get_filing_type_code_own_sub_type (f : Filing) (arg : option string)
    (s : string) (m : list (pykey * string)) :
  filing_sub_type f = Some s -> s <> "" ->
  dict_get pykey_eqb (filing_type_entry (filing_type f)) (Lit s) = Some (VDict m) ->
  get_filing_type_code f arg
  = Ok (option_map VStr (registered_code (filing_type f) s (corp_type (f_business f)))).
Proof.
  intros Hs Hne Hm. unfold get_filing_type_code, registered_code, py_or.
  rewrite Hs, Hm.
  assert (T : truthy_str (Some s) = true).
  { simpl. destruct (String.eqb s "") eqn:E; [|reflexivity].
    apply String.eqb_eq in E. contradiction. }
  destruct (truthy_str arg) eqn:Ea.
  - rewrite Ea. reflexivity.
  - rewrite T. reflexivity.
Qed.

(** C8 at the failing input: a regular amalgamation of a BC company whose
    sub-type is passed as the argument only.  The table registers AMALR
    for it, and the lookup, which reads the filing's own (unset) sub-type,
    gives None; with the sub-type set on the filing it gives AMALR. *)
Theorem explicit_sub_type_is_not_looked_up :
  registered_code "amalgamationApplication" "regular" (TypeCode BC_COMP)
  = Some "AMALR"
  /\ get_filing_type_code
       (new_filing "amalgamationApplication" None "1234567" (TypeCode BC_COMP)
          empty_body)
       (Some "regular")
     = Ok None
  /\ get_filing_type_code
       (new_filing "amalgamationApplication" (Some "regular") "1234567"
          (TypeCode BC_COMP) empty_body)
       None
     = Ok (Some (VStr "AMALR")).
Proof. repeat split. Qed.

(** C9: the three dissolution sub-types are supported, the dissolution
    entry holds a code map under voluntary only, and for an administrative
    or involuntary dissolution of any entity type the code lookup gives
    None, so that [_insert_filing] raises InvalidFilingTypeException. *)
Theorem dissolution_sub_types_without_code
    (f : Filing) (arg : option string) (s : string) :
  filing_type f = "dissolution" ->
  filing_sub_type f = Some s ->
  s = "administrative" \/ s = "involuntary" ->
  is_supported_filing_sub_type "dissolution" "voluntary" = true
  /\ is_supported_filing_sub_type (filing_type f) s = true
  /\ (forall k m,
        dict_get pykey_eqb (filing_type_entry "dissolution") k = Some (VDict m) ->
        k = Lit "voluntary")
  /\ get_filing_type_code f arg = Ok None
  /\ (forall ar_date agm_date d,
        _insert_filing f ar_date agm_date d
        = (Raise (InvalidFilingTypeException None), d)).
Proof.
  intros Hft Hsub Hs.
  assert (Hcode : forall a, get_filing_type_code f a = Ok None).
  { intros a. unfold get_filing_type_code, py_or. rewrite Hft, Hsub.
    destruct (truthy_str a) eqn:Ea.
    - rewrite Ea. destruct Hs as [-> | ->]; reflexivity.
    - destruct Hs as [-> | ->]; reflexivity. }
  repeat split.
  - rewrite Hft. destruct Hs as [-> | ->]; reflexivity.
  - intros k m H. apply dict_get_In in H; [|apply pykey_eqb_eq].
    simpl in H.
    repeat (destruct H as [H|H]; [try discriminate H; injection H as <- _; reflexivity|]).
    contradiction.
  - apply Hcode.
  - intros ar_date agm_date d. unfold _insert_filing. rewrite Hcode. reflexivity.
Qed.

Lemma dissolution_sub_types_without_code_witness :
  is_supported_filing_sub_type "dissolution" "administrative" = true
  /\ get_filing_type_code
       (new_filing "dissolution" (Some "administrative") "1234567"
          (TypeCode BC_COMP) empty_body) None
     = Ok None.
Proof.
  pose proof (dissolution_sub_types_without_code
                (new_filing "dissolution" (Some "administrative") "1234567"
                   (TypeCode BC_COMP) empty_body)
                None "administrative" eq_refl eq_refl (or_introl eq_refl)) as H.
  split; [apply H | apply H].
Defined.

End CodeLookup.

(** ** The ledger writer *)

Module HeaderInsert.
Import Business Registry Ledger HeaderColumns.

Lemma code_in_app (code : option pyval) (l1 l2 : list string) :
  code_in code (l1 ++ l2) = code_in code l1 || code_in code l2.
Proof.
  destruct code as [[s|l|m]|]; simpl; try reflexivity.
  unfold str_in. apply existsb_app.
Qed.

Lemma header_columns_none (code : option pyval) :
  header_columns code = None <-> code_in code dispatch_codes = false.
Proof.
  unfold header_columns, dispatch_codes. rewrite !code_in_app.
  destruct (code_in code ["OTANN"]); simpl; [split; discriminate|].
  destruct (code_in code ["OTADD"; "OTCDR"; "OTINC"]); simpl; [split; discriminate|].
  destruct (code_in code ["ANNBC"]); simpl; [split; discriminate|].
  destruct (code_in code ["NOCDR"]); simpl; [split; discriminate|].
  destruct (code_in code court_order_group); simpl; [split; discriminate|].
  destruct (code_in code ["OTVDS"; "ADVD2"; "OTSPE"]); simpl; split;
    (discriminate || reflexivity).
Qed.

Lemma filing_statement_columns (f : Filing) (code : option pyval)
    (ar_date agm_date : option string) :
  match header_columns code with
  | Some cols =>
      exists st,
        filing_statement f code ar_date agm_date = Some st
        /\ into st = "filing"
        /\ columns st = (["event_id"; "filing_typ_cd"; "effective_dt"] ++ cols)%list
  | None => filing_statement f code ar_date agm_date = None
  end.
Proof.
  unfold header_columns, filing_statement.
  destruct (code_in code ["OTANN"]); [eexists; repeat split|].
  destruct (code_in code ["OTADD"; "OTCDR"; "OTINC"]); [eexists; repeat split|].
  destruct (code_in code ["ANNBC"]); [eexists; repeat split|].
  destruct (code_in code ["NOCDR"]); [eexists; repeat split|].
  destruct (code_in code court_order_group).
  - destruct (code_in code ["REGSN"; "REGSO"; "COURT"]).
    + eexists; repeat split.
    + destruct (courtOrder (body f)); eexists; repeat split.
  - destruct (code_in code ["OTVDS"; "ADVD2"; "OTSPE"]); [eexists; repeat split|].
    reflexivity.
Qed.

(** C6: the header columns [_insert_filing] populates are a function of the
    resolved code: the statement it executes on [filing] has the columns
    [header_columns] lists for the code, whatever the filing, and a code
    that no branch of the dispatch takes raises InvalidFilingTypeException
    and executes nothing. *)
Theorem insert_filing_columns_by_code (f : Filing) (ar_date agm_date : option string)
    (d : db) (code : option pyval) :
  get_filing_type_code f None = Ok code ->
  (match header_columns code with
   | Some cols =>
       exists st,
         _insert_filing f ar_date agm_date d = execute st d
         /\ into st = "filing"
         /\ columns st = (["event_id"; "filing_typ_cd"; "effective_dt"] ++ cols)%list
   | None =>
       _insert_filing f ar_date agm_date d
       = (Raise (InvalidFilingTypeException code), d)
   end)
  /\ (header_columns code = None <-> code_in code dispatch_codes = false)
  /\ header_columns (Some (VStr "OTANN"))
     = Some ["period_end_dt"; "agm_date"; "arrangement_ind"; "ods_typ_cd"]
  /\ header_columns (Some (VStr "ANNBC"))
     = Some ["period_end_dt"; "arrangement_ind"; "ods_typ_cd"]
  /\ header_columns (Some (VStr "NOCDR"))
     = Some ["change_dt"; "arrangement_ind"; "ods_typ_cd"]
  /\ (forall c, In c court_order_group ->
        header_columns (Some (VStr c))
        = Some ["arrangement_ind"; "court_order_num"; "ods_typ_cd"]).
Proof.
  intros Hcode. split; [|split; [apply header_columns_none|]].
  - unfold _insert_filing. rewrite Hcode.
    pose proof (filing_statement_columns f code ar_date agm_date) as H.
    destruct (header_columns code) as [cols|].
    + destruct H as [st [E [Hi Hc]]]. exists st. rewrite E. repeat split; assumption.
    + rewrite H. reflexivity.
  - repeat split.
    intros c Hc. simpl in Hc.
    repeat (destruct Hc as [<- | Hc]; [reflexivity|]). contradiction.
Qed.

Lemma insert_filing_columns_by_code_witness :
  get_filing_type_code
    (SampleLedger.new_filing "changeOfDirectors" None "1234567" (TypeCode BC_COMP)
       SampleLedger.empty_body) None
  = Ok (Some (VStr "NOCDR"))
  /\ header_columns (Some (VStr "NOCDR"))
     = Some ["change_dt"; "arrangement_ind"; "ods_typ_cd"].
Proof.
  split; [reflexivity|].
  apply (insert_filing_columns_by_code
           (SampleLedger.new_filing "changeOfDirectors" None "1234567"
              (TypeCode BC_COMP) SampleLedger.empty_body)
           None None
           {| noncorp_event_seq := SampleLedger.counting 1;
              system_id_EV := Some 100; sysdate := 1;
              event := []; filing := []; filing_user := []; executed := [] |}
           (Some (VStr "NOCDR")) eq_refl).
Defined.

End HeaderInsert.

Module Submission.
Import Business Registry Ledger Writer Preconditions SampleLedger.

Section Checks.

Variable type_specific_steps : Filing -> M db unit.

(** C5, as the code has it: a filing type outside the allow-list, or a
    set sub-type that is not supported, raises InvalidFilingTypeException
    and leaves the database as it was; a filing that passes both checks
    and whose entity type has a user in USERS goes on to allocate the
    event, and what follows runs on the allocated event id; one that passes
    both checks and whose entity type has no user in USERS raises KeyError
    and leaves the database as it was. *)
Theorem add_filing_preconditions (f : Filing) (d : db) :
  (str_in (filing_type f) submittable_types = false ->
   add_filing type_specific_steps f d
   = (Raise (InvalidFilingTypeException (Some (VStr (filing_type f)))), d))
  /\ (str_in (filing_type f) submittable_types = true ->
      sub_type_ok f = false ->
      add_filing type_specific_steps f d
      = (Raise (InvalidFilingTypeException (Some (VStr (filing_type f)))), d))
  /\ (forall user,
        str_in (filing_type f) submittable_types = true ->
        sub_type_ok f = true ->
        dict_get pykey_eqb USERS (corp_type (f_business f)) = Some user ->
        add_filing type_specific_steps f d
        = bind (_get_event_id (corp_num (f_business f)) "FILE")
            (fun new_event_id =>
               let filing := with_event_id (with_user_id f user) new_event_id in
               (_insert_filing_user filing ;;;
                _insert_filing filing (annualReportDate (body f))
                  (annualGeneralMeetingDate (body f)) ;;;
                type_specific_steps filing ;;;
                ret new_event_id)%monad)
            d)
  /\ (str_in (filing_type f) submittable_types = true ->
      sub_type_ok f = true ->
      dict_get pykey_eqb USERS (corp_type (f_business f)) = None ->
      add_filing type_specific_steps f d
      = (Raise (KeyError (corp_type (f_business f))), d)).
Proof.
  assert (E : sub_type_ok f = true ->
              truthy_str (filing_sub_type f)
              && negb (match filing_sub_type f with
                       | Some s => is_supported_filing_sub_type (filing_type f) s
                       | None => false
                       end) = false).
  { unfold sub_type_ok. intros H. apply orb_true_iff in H. destruct H as [H|H].
    - apply negb_true_iff in H. rewrite H. reflexivity.
    - rewrite H. apply andb_false_r. }
  unfold add_filing. split; [|split; [|split]].
  - intros ->. reflexivity.
  - unfold sub_type_ok. intros -> H. cbn [negb].
    apply orb_false_iff in H as [H1 H2].
    apply negb_false_iff in H1. rewrite H1, H2. reflexivity.
  - intros user -> H Hu. cbn [negb]. rewrite (E H), Hu. reflexivity.
  - intros -> H Hu. cbn [negb]. rewrite (E H), Hu. reflexivity.
Qed.

End Checks.

Lemma add_filing_preconditions_witness :
  str_in "annualReport" submittable_types = true
  /\ fst (add_filing (fun _ => ret tt)
            (SampleLedger.new_filing "annualReport" None "1234567" (TypeCode BC_COMP)
               SampleLedger.empty_body)
            sample_db)
     = Ok 100.
Proof.
  split; [reflexivity|].
  destruct (add_filing_preconditions (fun _ => ret tt)
              (SampleLedger.new_filing "annualReport" None "1234567" (TypeCode BC_COMP)
                 SampleLedger.empty_body) sample_db) as [_ [_ [H _]]].
  rewrite (H "BCOMPS" eq_refl eq_refl eq_refl). reflexivity.
Defined.

(** C5 as stated fails: an annual report (an allowed type, no sub-type) of
    an entity whose type has no user in USERS passes both checks and stops
    on the KeyError of [USERS[legal_type]]: no event is allocated. *)
Lemma add_filing_stops_before_event :
  str_in (filing_type sole_proprietorship_report) submittable_types = true
  /\ sub_type_ok sole_proprietorship_report = true
  /\ add_filing (fun _ => ret tt) sole_proprietorship_report sample_db
     = (Raise (KeyError (Lit "SP")), sample_db)
  /\ event sample_db = [].
Proof. repeat split. Qed.

End Submission.

(** ** The reconstructor *)

Module HeaderLookup.
Import Business Registry Ledger Reconstruct.

Lemma newest_nil (rows : list event_info) : newest rows = None <-> rows = [].
Proof.
  destruct rows as [|r rest]; simpl; [split; reflexivity|].
  destruct (newest rest) as [r'|].
  - destruct (i_event_timestmp r <? i_event_timestmp r'); split; discriminate.
  - split; discriminate.
Qed.

Lemma newest_greatest (rows : list event_info) (r : event_info) :
  newest rows = Some r ->
  In r rows /\ forall r', In r' rows -> i_event_timestmp r' <= i_event_timestmp r.
Proof.
  revert r. induction rows as [|x rest IH]; simpl; [discriminate|].
  intros r. destruct (newest rest) as [r'|] eqn:E.
  - destruct (IH r' eq_refl) as [Hin Hmax].
    destruct (i_event_timestmp x <? i_event_timestmp r') eqn:C; intros [= <-].
    + apply Z.ltb_lt in C. split; [right; exact Hin|].
      intros y [<- | Hy]; [lia | apply Hmax, Hy].
    + apply Z.ltb_ge in C. split; [left; reflexivity|].
      intros y [<- | Hy]; [lia | specialize (Hmax y Hy); lia].
  - intros [= <-]. apply newest_nil in E. subst rest.
    split; [left; reflexivity|]. intros y [<- | []]. lia.
Qed.

Lemma derive_keeps (r : event_info) :
  i_event_id (derive r) = i_event_id r
  /\ i_event_timestmp (derive r) = i_event_timestmp r
  /\ i_filing_type_code (derive r) = i_filing_typ_cd r.
Proof. repeat split. Qed.

(** C7: the header [_get_filing_event_info] loads.  With an event id other
    than 0 on the filing the query is by that id and every candidate is a
    header of that event; with no event id, or with the event id 0, it is by
    the code of the filing type.  No candidate raises
    FilingNotFoundException; otherwise the candidate loaded has the greatest
    event timestamp of all.  An unnamed certifier is derived as N/A and a
    blank email as the empty string. *)
Theorem get_filing_event_info_newest (d : db) (f : Filing) (yr : option Z)
    (sel : selector) :
  header_selector f = Ok sel ->
  let corp := corp_num (f_business f) in
  let candidates := filter (matches sel corp yr) (header_rows d) in
  (forall eid, event_id f = Some eid -> eid <> 0 ->
     sel = ByEvent eid /\ forall r, In r candidates -> i_event_id r = eid)
  /\ (truthy_int (event_id f) = false ->
      exists code, get_filing_type_code f None = Ok code /\ sel = ByTypeCode code)
  /\ (candidates = [] ->
      _get_filing_event_info d f yr
      = Raise (FilingNotFoundException corp (filing_type f)))
  /\ (candidates <> [] ->
      exists r,
        In r candidates
        /\ (forall r', In r' candidates -> i_event_timestmp r' <= i_event_timestmp r)
        /\ _get_filing_event_info d f yr = Ok (derive r))
  /\ (forall r,
        truthy_str (i_first_nme r) = false ->
        truthy_str (i_middle_nme r) = false ->
        truthy_str (i_last_nme r) = false ->
        i_certifiedBy (derive r) = "N/A")
  /\ (forall r, truthy_str (i_email_addr r) = false -> i_email (derive r) = "").
Proof.
  intros Hsel corp candidates.
  split; [|split; [|split; [|split; [|split]]]].
  - intros eid He Hne.
    assert (Es : sel = ByEvent eid).
    { unfold header_selector in Hsel. rewrite He in Hsel. simpl in Hsel.
      destruct (eid =? 0) eqn:E; [apply Z.eqb_eq in E; contradiction|].
      simpl in Hsel. injection Hsel as <-. reflexivity. }
    split; [exact Es|].
    intros r Hr. subst candidates. rewrite Es in Hr.
    apply filter_In in Hr as [_ Hm]. unfold matches in Hm.
    apply andb_true_iff in Hm as [Hm _]. apply andb_true_iff in Hm as [Hm _].
    apply Z.eqb_eq, Hm.
  - intros Hf. unfold header_selector in Hsel. rewrite Hf in Hsel.
    destruct (get_filing_type_code f None) as [code|e]; [|discriminate].
    exists code. split; [reflexivity|]. injection Hsel as <-. reflexivity.
  - intros Hnil. unfold _get_filing_event_info. rewrite Hsel.
    fold corp. fold candidates. rewrite Hnil. reflexivity.
  - intros Hne. unfold _get_filing_event_info. rewrite Hsel.
    fold corp. fold candidates.
    destruct (newest candidates) as [r|] eqn:E.
    + destruct (newest_greatest _ _ E) as [Hin Hmax].
      exists r. repeat split; assumption.
    + apply newest_nil in E. contradiction.
  - intros r H1 H2 H3. unfold derive, join_names. simpl.
    rewrite H1, H2, H3. reflexivity.
  - intros r H. unfold derive. simpl. rewrite H. reflexivity.
Qed.

End HeaderLookup.

Module HeaderLookupExample.
Import Business Registry Ledger Reconstruct SampleLedger.

Example coop_report_header :
  match _get_filing_event_info coop_db coop_report None with
  | Ok info => i_event_id info = 2 /\ i_certifiedBy info = "N/A" /\ i_email info = ""
  | Raise _ => False
  end.
Proof. repeat split. Qed.

Lemma get_filing_event_info_newest_witness :
  header_selector coop_report = Ok (ByTypeCode (Some (VStr "OTANN")))
  /\ exists r,
       In r (filter (matches (ByTypeCode (Some (VStr "OTANN"))) "CP0001" None)
               (header_rows coop_db))
       /\ (forall r',
             In r' (filter (matches (ByTypeCode (Some (VStr "OTANN"))) "CP0001" None)
                      (header_rows coop_db)) ->
             i_event_timestmp r' <= i_event_timestmp r)
       /\ _get_filing_event_info coop_db coop_report None = Ok (derive r).
Proof.
  split; [reflexivity|].
  destruct (HeaderLookup.get_filing_event_info_newest coop_db coop_report None
              (ByTypeCode (Some (VStr "OTANN"))) eq_refl)
    as (_ & _ & _ & H & _).
  apply H. discriminate.
Defined.

(** Asked for by the event id 0, the header of that event is on file and
    the one loaded is the newest annual report, of event 2. *)
Lemma event_id_zero_loads_newest_of_type :
  event_id zero_report = Some 0
  /\ In (header_row (file_event 0 10) (header_of 0 "OTANN" 10) None)
        (header_rows zero_db)
  /\ _get_filing_event_info zero_db zero_report None
     = Ok (derive (header_row (file_event 2 20) (header_of 2 "OTANN" 20) None))
  /\ i_event_id (derive (header_row (file_event 2 20) (header_of 2 "OTANN" 20) None))
     = 2.
Proof.
  split; [reflexivity|]. split; [left; reflexivity|].
  split; reflexivity.
Qed.

End HeaderLookupExample.

Module ComponentEvent.
Import Business Registry Ledger Reconstruct.

Lemma ar_component_scan_spec (ts : timestamp) (events : list event_item)
    (eid : option Z) (tmp : timestamp) :
  tmp <= snd (ar_component_scan ts events eid tmp)
  /\ ((ar_component_scan ts events eid tmp = (eid, tmp)
       /\ forall ev, In ev events -> ~ (tmp < date ev <= ts))
      \/ exists ev,
           In ev events
           /\ ar_component_scan ts events eid tmp = (Some (id ev), date ev)
           /\ tmp < date ev <= ts)
  /\ (forall ev, In ev events -> date ev <= ts ->
        date ev <= snd (ar_component_scan ts events eid tmp)).
Proof.
  revert eid tmp. induction events as [|x rest IH]; intros eid tmp; simpl.
  - split; [lia|]. split; [left; split; [reflexivity | intros ev []]|].
    intros ev [].
  - destruct ((date x <=? ts) && (tmp <? date x)) eqn:C.
    + apply andb_true_iff in C as [C1 C2].
      apply Z.leb_le in C1. apply Z.ltb_lt in C2.
      destruct (IH (Some (id x)) (date x)) as [Hle [Hsel Hmax]].
      split; [lia|]. split.
      * right. destruct Hsel as [[E Hnone] | [ev [Hin [E Hr]]]].
        -- exists x. split; [left; reflexivity|]. split; [exact E | lia].
        -- exists ev. split; [right; exact Hin|]. split; [exact E | lia].
      * intros ev [<- | Hin] Hts; [exact Hle | apply Hmax; assumption].
    + destruct (IH eid tmp) as [Hle [Hsel Hmax]].
      split; [exact Hle|]. split.
      * destruct Hsel as [[E Hnone] | [ev [Hin [E Hr]]]].
        -- left. split; [exact E|].
           intros ev [<- | Hin]; [|apply Hnone, Hin].
           intros [H1 H2].
           apply andb_false_iff in C as [C | C];
             [apply Z.leb_gt in C | apply Z.ltb_ge in C]; lia.
        -- right. exists ev. split; [right; exact Hin|]. split; assumption.
      * intros ev [<- | Hin] Hts; [|apply Hmax; assumption].
        apply andb_false_iff in C as [C | C];
          [apply Z.leb_gt in C | apply Z.ltb_ge in C]; lia.
Qed.

Lemma _get_events_rows (d : db) (corp code : string) (ev : event_item) :
  In ev (_get_events d corp code) ->
  exists e fr,
    In e (event d) /\ In fr (filing d)
    /\ ev_corp_num e = corp /\ fl_event_id fr = ev_event_id e
    /\ fl_filing_typ_cd fr = code
    /\ id ev = ev_event_id e /\ date ev = ev_event_timestmp e.
Proof.
  unfold _get_events. intros H. apply in_flat_map in H as [e [He H]].
  destruct (String.eqb (ev_corp_num e) corp) eqn:Ec; [|destruct H].
  apply String.eqb_eq in Ec. apply in_map_iff in H as [fr [<- Hfr]].
  apply filter_In in Hfr as [Hfr Hc]. apply andb_true_iff in Hc as [H1 H2].
  apply Z.eqb_eq in H1. apply String.eqb_eq in H2.
  exists e, fr. repeat split; assumption.
Qed.

Section AnnualReportComponents.

Variables office party : Type.
Variable Office_get_by_event : Z -> result (list office).
Variable Office_get_current : string -> result (list office).
Variable Party_get_by_event : string -> Z -> result (list party).
Variable Party_get_current : string -> result (list party).

(** C3, as the code has it: for an annual report the offices (code OTADD)
    and directors (code OTCDR) are read as of the event [chosen] below: the
    event of that code, of this entity, with the greatest timestamp among
    those later than the epoch and at or before the report's timestamp (so
    the one just before the report, not the newest of all), and the report's
    own event when there is none or its id is 0.  When the event read yields
    no rows, the component comes from current state and the filing is marked
    paper only; when it yields rows, they are the component and the mark is
    left as it was. *)
Theorem ar_component_event (d : db) (f : Filing) (info : event_info)
    (paper_only : bool) :
  filing_type f = "annualReport" ->
  let corp := corp_num (f_business f) in
  let ts := i_event_timestmp info in
  (forall type_code,
     let events := _get_events d corp type_code in
     let chosen := _get_ar_component_event d corp type_code info in
     (forall ev, In ev events ->
        exists e fr,
          In e (event d) /\ In fr (filing d)
          /\ ev_corp_num e = corp /\ fl_event_id fr = ev_event_id e
          /\ fl_filing_typ_cd fr = type_code
          /\ id ev = ev_event_id e /\ date ev = ev_event_timestmp e)
     /\ ((forall ev, In ev events -> ~ (0 < date ev <= ts)) ->
         chosen = i_event_id info)
     /\ (forall ev, In ev events -> 0 < date ev <= ts ->
           exists ev0,
             In ev0 events /\ 0 < date ev0 <= ts
             /\ (forall ev', In ev' events -> date ev' <= ts -> date ev' <= date ev0)
             /\ chosen = if id ev0 =? 0 then i_event_id info else id ev0))
  /\ (forall rows,
        Office_get_by_event (_get_ar_component_event d corp "OTADD" info) = Ok rows ->
        (rows <> [] ->
         get_filing_offices office Office_get_by_event Office_get_current
           d f info paper_only = Ok (paper_only, rows))
        /\ (rows = [] -> forall current,
              Office_get_current corp = Ok current ->
              get_filing_offices office Office_get_by_event Office_get_current
                d f info paper_only = Ok (true, current)))
  /\ (forall rows,
        Party_get_by_event corp (_get_ar_component_event d corp "OTCDR" info) = Ok rows ->
        (rows <> [] ->
         get_filing_directors party Party_get_by_event Party_get_current
           d f info paper_only = Ok (paper_only, rows))
        /\ (rows = [] -> forall current,
              Party_get_current corp = Ok current ->
              get_filing_directors party Party_get_by_event Party_get_current
                d f info paper_only = Ok (true, current))).
Proof.
  intros Hft corp ts. split; [|split].
  - intros type_code events chosen. split; [|split].
    + intros ev Hev. apply _get_events_rows, Hev.
    + intros Hnone. subst chosen. unfold _get_ar_component_event.
      fold corp. fold events. fold ts.
      destruct (ar_component_scan_spec ts events None 0) as [_ [Hsel _]].
      destruct Hsel as [[E _] | [ev [Hin [_ Hr]]]].
      * rewrite E. reflexivity.
      * exfalso. apply (Hnone ev Hin). exact Hr.
    + intros ev Hev Hr. subst chosen. unfold _get_ar_component_event.
      fold corp. fold events. fold ts.
      destruct (ar_component_scan_spec ts events None 0) as [_ [Hsel Hmax]].
      destruct Hsel as [[E Hnone] | [ev0 [Hin [E Hr0]]]].
      * exfalso. apply (Hnone ev Hev). exact Hr.
      * exists ev0. rewrite E in Hmax. simpl in Hmax. rewrite E. simpl.
        repeat split; try assumption; try lia.
        destruct (id ev0 =? 0); reflexivity.
  - intros rows Hrows. unfold get_filing_offices. rewrite Hft. simpl.
    fold corp. rewrite Hrows. split.
    + intros Hne. destruct rows; [contradiction | reflexivity].
    + intros -> current Hcur. simpl. rewrite Hcur. reflexivity.
  - intros rows Hrows. unfold get_filing_directors. rewrite Hft. simpl.
    fold corp. rewrite Hrows. split.
    + intros Hne. destruct rows; [contradiction | reflexivity].
    + intros -> current Hcur. simpl. rewrite Hcur. reflexivity.
Qed.

End AnnualReportComponents.

End ComponentEvent.

Module ComponentEventExample.
Import Business Registry Ledger Reconstruct SampleLedger.

Lemma ar_component_event_witness :
  filing_type SampleLedger.coop_report = "annualReport"
  /\ _get_ar_component_event between_db "CP0001" "OTADD" report_info = 1
  /\ get_filing_offices string offices_by_event offices_current
       between_db SampleLedger.coop_report report_info false
     = Ok (false, ["registered office of event 1"])
  /\ get_filing_directors string no_parties_by_event parties_current
       between_db SampleLedger.coop_report report_info false
     = Ok (true, ["current director"]).
Proof.
  split; [reflexivity|]. split; [reflexivity|].
  destruct (ComponentEvent.ar_component_event string string
              offices_by_event offices_current no_parties_by_event parties_current
              between_db SampleLedger.coop_report report_info false eq_refl)
    as (_ & Hoff & Hdir).
  split.
  - apply (Hoff ["registered office of event 1"] eq_refl). discriminate.
  - apply (Hdir [] eq_refl); reflexivity.
Defined.

(** C3 as stated fails: no office-change event is on file for the entity,
    so none yields rows, and still the offices are the rows of the report's
    own event, not the current ones, and the filing is not marked paper
    only. *)
Lemma ar_offices_from_own_event :
  _get_events alone_db "CP0001" "OTADD" = []
  /\ _get_ar_component_event alone_db "CP0001" "OTADD" report_info
     = i_event_id report_info
  /\ offices_current "CP0001" = Ok ["current registered office"]
  /\ get_filing_offices string offices_by_event offices_current
       alone_db SampleLedger.coop_report report_info false
     = Ok (false, ["registered office of event 2"]).
Proof. repeat split. Qed.

End ComponentEventExample.

(** ** The director diff *)

Module DirectorFacts.
Import Directors DirectorCalls.

Lemma for_each_app_ok {S A B : Type} (body : A -> M S (list B)) (xs ys : list A)
    (st st' : S) (r : list B) :
  for_each body (xs ++ ys) st = (Ok r, st') ->
  exists a st1 b,
    for_each body xs st = (Ok a, st1)
    /\ for_each body ys st1 = (Ok b, st')
    /\ r = (a ++ b)%list.
Proof.
  revert st r. induction xs as [|x xs IH]; intros st r; simpl.
  - intros H. exists [], st, r. repeat split. exact H.
  - intros H. apply bind_inv_ok in H as [hx [s1 [Hx H]]].
    apply bind_inv_ok in H as [tl [s2 [Htl H]]].
    injection H as <- <-.
    destruct (IH _ _ Htl) as [a [st1 [b [Ha [Hb ->]]]]].
    exists (hx ++ a)%list, st1, b. repeat split.
    + rewrite (bind_ok _ _ _ _ _ Hx). rewrite (bind_ok _ _ _ _ _ Ha). reflexivity.
    + exact Hb.
    + apply app_assoc.
Qed.

Lemma for_each_cons_ok {S A B : Type} (body : A -> M S (list B)) (x : A)
    (xs : list A) (st st' : S) (r : list B) :
  for_each body (x :: xs) st = (Ok r, st') ->
  exists a st1 b,
    body x st = (Ok a, st1)
    /\ for_each body xs st1 = (Ok b, st')
    /\ r = (a ++ b)%list.
Proof.
  simpl. intros H. apply bind_inv_ok in H as [hx [s1 [Hx H]]].
  apply bind_inv_ok in H as [tl [s2 [Htl H]]]. injection H as <- <-.
  exists hx, s1, tl. repeat split; assumption.
Qed.

Lemma for_each_app_raise {S A B : Type} (body : A -> M S (list B))
    (xs : list A) (x : A) (ys : list A) (st st1 st2 : S) (a : list B) (e : exn) :
  for_each body xs st = (Ok a, st1) ->
  body x st1 = (Raise e, st2) ->
  for_each body (xs ++ x :: ys) st = (Raise e, st2).
Proof.
  revert st a. induction xs as [|y xs IH]; intros st a; simpl.
  - intros [= <- <-] Hx. apply bind_raise, Hx.
  - intros H Hx. apply bind_inv_ok in H as [hy [s1 [Hy H]]].
    apply bind_inv_ok in H as [tl [s2 [Htl H]]]. injection H as <- <-.
    rewrite (bind_ok _ _ _ _ _ Hy). apply bind_raise. apply (IH _ _ Htl Hx).
Qed.

Lemma existsb_either (x y : string) (l : list string) :
  existsb (fun elem => str_in elem [x; y]) l = str_in x l || str_in y l.
Proof.
  apply eq_true_iff_eq. unfold str_in.
  rewrite orb_true_iff, !existsb_exists. split.
  - intros [e [He H]]. apply existsb_exists in H as [z [Hz E]].
    apply String.eqb_eq in E. subst z.
    destruct Hz as [Hx | [Hy | []]]; [left | right];
      exists e; (split; [exact He | subst; apply String.eqb_refl]).
  - intros [[e [He E]] | [e [He E]]]; apply String.eqb_eq in E; subst e.
    + exists x. split; [exact He|]. apply existsb_exists.
      exists x. split; [left; reflexivity | apply String.eqb_refl].
    + exists y. split; [exact He|]. apply existsb_exists.
      exists y. split; [right; left; reflexivity | apply String.eqb_refl].
Qed.

Lemma change_action_any (d : director) :
  existsb (fun elem => str_in elem ["nameChanged"; "addressChanged"]) (d_actions d)
  = has_action "nameChanged" d || has_action "addressChanged" d.
Proof. apply existsb_either. Qed.

Section Diff.

Variables store party business_dict : Type.
Variable corp_party_id : party -> Z.
Variable Party_get_current : string -> M store (list party).
Variable Party_compare_parties : party -> officer_json -> bool.
Variable Party_create_new_corp_party :
  option Z -> director -> business_dict -> M store unit.
Variable Party_end_director_by_name :
  director -> option Z -> string -> M store unit.
Variable officer_repr : officer_json -> string.

Local Abbreviation state := (Directors.state store).
Local Abbreviation create :=
  (Directors.create store business_dict Party_create_new_corp_party).
Local Abbreviation end_by_name :=
  (Directors.end_by_name store Party_end_director_by_name).
Local Abbreviation match_current_parties :=
  (Directors.match_current_parties store party corp_party_id
     Party_compare_parties Party_end_director_by_name).
Local Abbreviation process_director :=
  (Directors.process_director store party business_dict corp_party_id
     Party_get_current Party_compare_parties Party_create_new_corp_party
     Party_end_director_by_name officer_repr).
Local Abbreviation create_all :=
  (Directors.create_all store business_dict Party_create_new_corp_party).
Local Abbreviation _process_directors :=
  (Directors._process_directors store party business_dict corp_party_id
     Party_get_current Party_compare_parties Party_create_new_corp_party
     Party_end_director_by_name officer_repr).
Local Abbreviation matching := (DirectorCalls.matching party Party_compare_parties).
Local Abbreviation ends_of := (DirectorCalls.ends_of party corp_party_id).
Local Abbreviation stamped := (DirectorCalls.stamped party corp_party_id).

Lemma call_log (c : party_call) (op : M store unit) (st st' : state)
    (r : result unit) :
  Directors.call store c op st = (r, st') -> snd st' = (snd st ++ [c])%list.
Proof.
  unfold Directors.call. destruct (op (fst st)) as [r0 s0].
  intros [= <- <-]. reflexivity.
Qed.

Lemma read_log {A : Type} (op : M store A) (st st' : state) (r : result A) :
  Directors.read store op st = (r, st') -> snd st' = snd st.
Proof.
  unfold Directors.read. destruct (op (fst st)) as [r0 s0].
  intros [= <- <-]. reflexivity.
Qed.

Lemma stamped_officer (matched : list party) (d : director) :
  d_officer (stamped d matched) = d_officer d
  /\ d_actions (stamped d matched) = d_actions d.
Proof.
  revert d. induction matched as [|p rest IH]; intros d; [split; reflexivity|].
  change (stamped d (p :: rest))
    with (stamped (with_prev_id d (corp_party_id p)) rest).
  destruct (IH (with_prev_id d (corp_party_id p))) as [H1 H2].
  rewrite H1, H2. split; reflexivity.
Qed.

Lemma stamped_last (matched : list party) (d : director) (p : party) :
  stamped d (matched ++ [p]) = with_prev_id d (corp_party_id p).
Proof.
  unfold stamped. rewrite fold_left_app. cbn [fold_left].
  fold (stamped d matched). unfold with_prev_id.
  destruct (stamped_officer matched d) as [H1 H2]. rewrite H1, H2. reflexivity.
Qed.

Lemma match_current_parties_ok (event_id : option Z) (corp : string)
    (ps : list party) (d d' : director) (n : nat) (st st' : state) :
  match_current_parties event_id corp d ps st = (Ok (d', n), st') ->
  snd st' = (snd st ++ ends_of event_id corp d (matching d ps))%list
  /\ n = length (matching d ps)
  /\ d' = stamped d (matching d ps).
Proof.
  revert d d' n st. induction ps as [|p ps IH]; intros d d' n st; simpl.
  - intros [= <- <- <-]. rewrite app_nil_r. repeat split.
  - unfold matching. simpl.
    destruct (Party_compare_parties p (d_officer d)) eqn:C.
    + intros H.
      apply bind_inv_ok in H as [[] [s1 [H1 H]]].
      apply bind_inv_ok in H as [[] [s2 [H2 H]]].
      apply bind_inv_ok in H as [[d2 n2] [s3 [H3 H]]].
      injection H as <- <- <-.
      apply call_log in H1. apply call_log in H2.
      destruct (IH _ _ _ _ H3) as [Hlog [Hn Hd]].
      change (matching (with_prev_id d (corp_party_id p)) ps) with (matching d ps)
        in Hlog, Hn, Hd.
      repeat split.
      * rewrite Hlog, H2, H1. simpl. unfold ends_of at 2. simpl.
        rewrite <- !app_assoc. reflexivity.
      * simpl. rewrite Hn. reflexivity.
      * exact Hd.
    + intros H. apply (IH _ _ _ _ H).
Qed.

Lemma create_all_log (event_id : option Z) (b : business_dict)
    (ds : list director) (st st' : state) :
  create_all event_id b ds st = (Ok tt, st') ->
  snd st' = (snd st ++ map (create_new_corp_party event_id) ds)%list.
Proof.
  revert st. induction ds as [|d ds IH]; intros st; simpl.
  - intros [= <-]. rewrite app_nil_r. reflexivity.
  - intros H. apply bind_inv_ok in H as [[] [s1 [H1 H]]].
    apply call_log in H1. rewrite (IH _ H), H1. rewrite <- app_assoc. reflexivity.
Qed.

Lemma match_current_parties_none (event_id : option Z) (corp : string)
    (ps : list party) (d : director) (st : state) :
  matching d ps = [] ->
  match_current_parties event_id corp d ps st = (Ok (d, O), st).
Proof.
  induction ps as [|p ps IH]; simpl; [reflexivity|].
  unfold matching. simpl.
  destruct (Party_compare_parties p (d_officer d)); [discriminate|].
  exact IH.
Qed.

Lemma appointed_step_log (event_id : option Z) (b : business_dict) (d : director)
    (st st1 : state) (r : result unit) :
  (if has_action "appointed" d then create event_id d b else ret tt) st = (r, st1) ->
  snd st1 = (snd st ++ appointed_create event_id d)%list.
Proof.
  unfold appointed_create. destruct (has_action "appointed" d).
  - apply call_log.
  - intros [= <- <-]. rewrite app_nil_r. reflexivity.
Qed.

Lemma process_director_change_ok (event_id : option Z) (b : business_dict)
    (corp : string) (d : director) (st st' : state) (changed : list director) :
  has_action "nameChanged" d || has_action "addressChanged" d = true ->
  process_director event_id b corp d st = (Ok changed, st') ->
  exists st1 ps st2,
    (if has_action "appointed" d then create event_id d b else ret tt) st = (Ok tt, st1)
    /\ Directors.read store (Party_get_current corp) st1 = (Ok ps, st2)
    /\ matching d ps <> []
    /\ changed = repeat (stamped d (matching d ps)) (length (matching d ps))
    /\ snd st' = (snd st ++ appointed_create event_id d
                    ++ ends_of event_id corp d (matching d ps))%list.
Proof.
  intros Hch H. unfold Directors.process_director in H.
  apply bind_inv_ok in H as [[] [st1 [H1 H]]].
  rewrite change_action_any, Hch, andb_false_r in H. cbn [negb] in H.
  apply bind_inv_ok in H as [ps [st2 [H2 H]]].
  apply bind_inv_ok in H as [[d' n] [st3 [H3 H]]].
  apply match_current_parties_ok in H3 as [Hlog [Hn Hd]].
  cbn [fst snd] in H. destruct n as [|n]; [discriminate H|].
  injection H as <- <-.
  exists st1, ps, st2. repeat split.
  - exact H1.
  - exact H2.
  - intros E. rewrite E in Hn. discriminate Hn.
  - rewrite <- Hn, <- Hd. reflexivity.
  - rewrite Hlog. rewrite (read_log _ _ _ _ H2).
    rewrite (appointed_step_log _ _ _ _ _ _ H1). rewrite <- app_assoc. reflexivity.
Qed.

Lemma process_director_not_found (event_id : option Z) (b : business_dict)
    (corp : string) (d : director) (st st1 st2 : state) (ps : list party) :
  has_action "nameChanged" d || has_action "addressChanged" d = true ->
  (if has_action "appointed" d then create event_id d b else ret tt) st = (Ok tt, st1) ->
  Directors.read store (Party_get_current corp) st1 = (Ok ps, st2) ->
  matching d ps = [] ->
  process_director event_id b corp d st
  = (Raise (GenericException
              ("Director does not exist in COLIN: " ++ officer_repr (d_officer d))
              NOT_FOUND), st2).
Proof.
  intros Hch H1 H2 Hm. unfold Directors.process_director.
  rewrite (bind_ok _ _ _ _ _ H1).
  rewrite change_action_any, Hch, andb_false_r. cbn [negb].
  rewrite (bind_ok _ _ _ _ _ H2).
  rewrite (bind_ok _ _ _ _ _ (match_current_parties_none event_id corp ps d st2 Hm)).
  reflexivity.
Qed.

Lemma process_director_grows (event_id : option Z) (b : business_dict)
    (corp : string) (d : director) (st st' : state) (changed : list director) :
  process_director event_id b corp d st = (Ok changed, st') ->
  exists calls, snd st' = (snd st ++ calls)%list.
Proof.
  intros H.
  destruct (has_action "nameChanged" d || has_action "addressChanged" d) eqn:Hch.
  - destruct (process_director_change_ok _ _ _ _ _ _ _ Hch H)
      as (st1 & ps & st2 & _ & _ & _ & _ & Hlog).
    eexists. exact Hlog.
  - unfold Directors.process_director in H.
    apply bind_inv_ok in H as [[] [st1 [H1 H]]].
    apply appointed_step_log in H1.
    rewrite change_action_any, Hch in H. cbn [negb] in H. rewrite andb_true_r in H.
    destruct (has_action "ceased" d).
    + apply bind_inv_ok in H as [[] [st2 [H2 H]]]. injection H as _ <-.
      apply call_log in H2. eexists. rewrite H2, H1, <- app_assoc. reflexivity.
    + injection H as _ <-. eexists. exact H1.
Qed.

Lemma for_each_grows (event_id : option Z) (b : business_dict) (corp : string)
    (ds : list director) (st st' : state) (changed : list director) :
  for_each (process_director event_id b corp) ds st = (Ok changed, st') ->
  exists calls, snd st' = (snd st ++ calls)%list.
Proof.
  revert st changed. induction ds as [|d ds IH]; intros st changed H.
  - injection H as _ <-. exists []. rewrite app_nil_r. reflexivity.
  - apply for_each_cons_ok in H as (a & st1 & c & Hd & Hrest & _).
    apply process_director_grows in Hd as [c1 E1].
    apply IH in Hrest as [c2 E2].
    exists (c1 ++ c2)%list. rewrite E2, E1, <- app_assoc. reflexivity.
Qed.

(** A successful run of [_process_directors] around one changed entry. *)
Lemma process_directors_run (f : Filing) (b : business_dict) (corp : string)
    (pre post : list director) (d : director) (st st' : state) (text : string) :
  filing_type f <> "annualReport" ->
  directors (body f) = (pre ++ d :: post)%list ->
  has_action "nameChanged" d || has_action "addressChanged" d = true ->
  _process_directors f b corp st = (Ok text, st') ->
  exists changed_pre st1 st2 ps st3 st4 changed_post st_loop before after,
    for_each (process_director (event_id f) b corp) pre st = (Ok changed_pre, st1)
    /\ (if has_action "appointed" d then create (event_id f) d b else ret tt) st1
       = (Ok tt, st2)
    /\ Directors.read store (Party_get_current corp) st2 = (Ok ps, st3)
    /\ matching d ps <> []
    /\ for_each (process_director (event_id f) b corp) post st4
       = (Ok changed_post, st_loop)
    /\ for_each (process_director (event_id f) b corp) (directors (body f)) st
       = (Ok (changed_pre
              ++ repeat (stamped d (matching d ps)) (length (matching d ps))
              ++ changed_post)%list, st_loop)
    /\ snd st_loop
       = (snd st ++ before ++ appointed_create (event_id f) d
            ++ ends_of (event_id f) corp d (matching d ps) ++ after)%list
    /\ snd st'
       = (snd st_loop
            ++ map (create_new_corp_party (event_id f))
                 (changed_pre
                  ++ repeat (stamped d (matching d ps)) (length (matching d ps))
                  ++ changed_post))%list
    /\ text = "Director change.".
Proof.
  intros Hft Hds Hch H. unfold Directors._process_directors in H.
  apply String.eqb_neq in Hft. rewrite Hft in H. rewrite Hds in H.
  assert (E : match (pre ++ d :: post)%list with [] => true | _ :: _ => false end = false)
    by (destruct pre; reflexivity).
  rewrite E in H. cbn [negb andb] in H.
  apply bind_inv_ok in H as [changed_dirs [st_loop [Hloop H]]].
  apply bind_inv_ok in H as [[] [st_end [Hcreate H]]].
  injection H as <- <-.
  pose proof Hloop as Hall.
  apply for_each_app_ok in Hloop as (changed_pre & st1 & rest & Hpre & Hrest & ->).
  apply for_each_cons_ok in Hrest as (cd & st4 & changed_post & Hd & Hpost & ->).
  destruct (process_director_change_ok (event_id f) b corp _ _ _ _ Hch Hd)
    as (st2 & ps & st3 & Happ & Hread & Hne & -> & Hlog).
  destruct (for_each_grows (event_id f) b corp _ _ _ _ Hpre) as [before Eb].
  destruct (for_each_grows (event_id f) b corp _ _ _ _ Hpost) as [after Ea].
  exists changed_pre, st1, st2, ps, st3, st4, changed_post, st_loop, before, after.
  repeat split; try assumption.
  - rewrite Hds. exact Hall.
  - rewrite Ea, Hlog, Eb. rewrite <- !app_assoc. reflexivity.
  - apply (create_all_log _ b _ _ _ Hcreate).
Qed.

Lemma ends_of_length (event_id : option Z) (corp : string) (d : director)
    (matched : list party) :
  length (ends_of event_id corp d matched) = (2 * length matched)%nat.
Proof.
  induction matched as [|p rest IH]; [reflexivity|].
  unfold ends_of in *. simpl. rewrite IH. lia.
Qed.

Lemma stamped_by_last (d : director) (matched : list party) :
  matched <> [] ->
  exists p, In p matched /\ stamped d matched = with_prev_id d (corp_party_id p).
Proof.
  intros Hne. destruct (exists_last Hne) as [init [p ->]].
  exists p. split; [apply in_or_app; right; left; reflexivity|].
  apply stamped_last.
Qed.

Lemma end_by_name_returns (event_id : option Z) (corp : string) (d1 : director)
    (st : state) :
  (forall d0 s, fst (Party_end_director_by_name d0 event_id corp s) = Ok tt) ->
  exists st',
    end_by_name d1 event_id corp st = (Ok tt, st')
    /\ snd st' = (snd st ++ [end_director_by_name d1 event_id corp])%list.
Proof.
  intros Hend. unfold Directors.end_by_name, Directors.call.
  specialize (Hend d1 (fst st)).
  destruct (Party_end_director_by_name d1 event_id corp (fst st)) as [r s'].
  cbn [fst] in Hend. subst r. eexists. split; reflexivity.
Qed.

Lemma match_current_parties_returns (event_id : option Z) (corp : string)
    (ps : list party) (d : director) (st : state) :
  (forall d0 s, fst (Party_end_director_by_name d0 event_id corp s) = Ok tt) ->
  exists st',
    match_current_parties event_id corp d ps st
    = (Ok (stamped d (matching d ps), length (matching d ps)), st')
    /\ snd st' = (snd st ++ ends_of event_id corp d (matching d ps))%list.
Proof.
  intros Hend. revert d st. induction ps as [|p ps IH]; intros d st.
  - exists st. split; [reflexivity | rewrite app_nil_r; reflexivity].
  - cbn [Directors.match_current_parties]. unfold matching. cbn [filter].
    destruct (Party_compare_parties p (d_officer d)) eqn:C.
    + destruct (end_by_name_returns event_id corp
                  (with_prev_id d (corp_party_id p)) st Hend) as (s1 & E1 & L1).
      destruct (end_by_name_returns event_id corp
                  (with_prev_id d (corp_party_id p)) s1 Hend) as (s2 & E2 & L2).
      destruct (IH (with_prev_id d (corp_party_id p)) s2) as (s3 & E3 & L3).
      change (matching (with_prev_id d (corp_party_id p)) ps) with (matching d ps)
        in E3, L3.
      exists s3. split.
      * rewrite (bind_ok _ _ _ _ _ E1), (bind_ok _ _ _ _ _ E2),
          (bind_ok _ _ _ _ _ E3).
        reflexivity.
      * rewrite L3, L2, L1. unfold ends_of. cbn [flat_map].
        rewrite <- !app_assoc. reflexivity.
    + apply IH.
Qed.

Lemma for_each_app_run {S A B : Type} (body : A -> M S (list B)) (xs ys : list A)
    (st st1 st' : S) (a b : list B) :
  for_each body xs st = (Ok a, st1) ->
  for_each body ys st1 = (Ok b, st') ->
  for_each body (xs ++ ys) st = (Ok (a ++ b)%list, st').
Proof.
  revert st a. induction xs as [|x xs IH]; intros st a.
  - intros [= <- <-] Hy. exact Hy.
  - intros H Hy. cbn [for_each] in H.
    apply bind_inv_ok in H as [hx [s1 [Hx H]]].
    apply bind_inv_ok in H as [tl [s2 [Htl H]]]. injection H as <- <-.
    cbn [app for_each]. rewrite (bind_ok _ _ _ _ _ Hx).
    rewrite (bind_ok _ _ _ _ _ (IH _ _ Htl Hy)). cbn [ret].
    rewrite app_assoc. reflexivity.
Qed.

(** A changed entry whose officer matches: the iteration returns. *)
Lemma process_director_change_returns (event_id : option Z) (b : business_dict)
    (corp : string) (d : director) (st1 st2 st3 : state) (ps : list party) :
  has_action "nameChanged" d || has_action "addressChanged" d = true ->
  (if has_action "appointed" d then create event_id d b else ret tt) st1 = (Ok tt, st2) ->
  Directors.read store (Party_get_current corp) st2 = (Ok ps, st3) ->
  matching d ps <> [] ->
  (forall d0 s, fst (Party_end_director_by_name d0 event_id corp s) = Ok tt) ->
  exists st4,
    process_director event_id b corp d st1
    = (Ok (repeat (stamped d (matching d ps)) (length (matching d ps))), st4)
    /\ snd st4
       = (snd st1 ++ appointed_create event_id d
            ++ ends_of event_id corp d (matching d ps))%list.
Proof.
  intros Hch Happ Hread Hne Hend.
  destruct (match_current_parties_returns event_id corp ps d st3 Hend)
    as (st4 & Hm & Hlog).
  exists st4. split.
  - unfold Directors.process_director.
    rewrite (bind_ok _ _ _ _ _ Happ).
    rewrite change_action_any, Hch, andb_false_r. cbn [negb].
    rewrite (bind_ok _ _ _ _ _ Hread).
    rewrite (bind_ok _ _ _ _ _ Hm). cbn [fst snd].
    destruct (matching d ps) as [|p rest]; [contradiction | reflexivity].
  - rewrite Hlog, (read_log _ _ _ _ Hread), (appointed_step_log _ _ _ _ _ _ Happ).
    rewrite <- app_assoc. reflexivity.
Qed.

(** C2: a director entry that [_process_directors] handles for a filing
    other than an annual report, whose actions hold nameChanged or
    addressChanged, reached with the entries before it processed.  When no
    current party matches the entry's officer under the compare predicate,
    [_process_directors] raises GenericException with status 404.  When some
    do and the store ends directors without an error, the entry raises
    nothing: its calls are the creation of the appointed branch, if it
    carries appointed, and then the end by name of every matching party,
    twice, at the event of the filing; its replacement, the entry stamped
    with the id of a matching party, is staged once for each match.  When the
    entries after it and the staged creations return as well,
    [_process_directors] returns Director change. and the staged creations
    are the last calls, made after the calls of all the entries. *)
Theorem director_change_matching (f : Filing) (b : business_dict) (corp : string)
    (pre post : list director) (d : director) (st st1 st2 st3 : state)
    (changed_pre : list director) (ps : list party) :
  filing_type f <> "annualReport" ->
  directors (body f) = (pre ++ d :: post)%list ->
  has_action "nameChanged" d || has_action "addressChanged" d = true ->
  for_each (process_director (event_id f) b corp) pre st = (Ok changed_pre, st1) ->
  (if has_action "appointed" d then create (event_id f) d b else ret tt) st1
  = (Ok tt, st2) ->
  Directors.read store (Party_get_current corp) st2 = (Ok ps, st3) ->
  (matching d ps = [] ->
   _process_directors f b corp st
   = (Raise (GenericException
               ("Director does not exist in COLIN: " ++ officer_repr (d_officer d))
               404), st3))
  /\ (matching d ps <> [] ->
      (forall d0 s,
         fst (Party_end_director_by_name d0 (event_id f) corp s) = Ok tt) ->
      exists st4,
        process_director (event_id f) b corp d st1
        = (Ok (repeat (stamped d (matching d ps)) (length (matching d ps))), st4)
        /\ snd st4
           = (snd st1 ++ appointed_create (event_id f) d
                ++ ends_of (event_id f) corp d (matching d ps))%list
        /\ (forall p, In p (matching d ps) ->
              In (end_director_by_name (with_prev_id d (corp_party_id p))
                    (event_id f) corp)
                 (ends_of (event_id f) corp d (matching d ps)))
        /\ (exists p,
              In p (matching d ps)
              /\ stamped d (matching d ps) = with_prev_id d (corp_party_id p))
        /\ forall changed_post st_loop st',
             for_each (process_director (event_id f) b corp) post st4
             = (Ok changed_post, st_loop) ->
             create_all (event_id f) b
               (changed_pre
                ++ repeat (stamped d (matching d ps)) (length (matching d ps))
                ++ changed_post)%list st_loop
             = (Ok tt, st') ->
             exists after,
               snd st_loop = (snd st4 ++ after)%list
               /\ _process_directors f b corp st = (Ok "Director change.", st')
               /\ snd st'
                  = (snd st_loop
                     ++ map (create_new_corp_party (event_id f))
                          (changed_pre
                           ++ repeat (stamped d (matching d ps))
                                (length (matching d ps))
                           ++ changed_post))%list).
Proof.
  intros Hft Hds Hch Hpre Happ Hread.
  assert (E : match (pre ++ d :: post)%list with [] => true | _ :: _ => false end = false)
    by (destruct pre; reflexivity).
  pose proof Hft as Hft'. apply String.eqb_neq in Hft'.
  split.
  - intros Hm. unfold Directors._process_directors.
    rewrite Hft', Hds, E. cbn [negb andb]. apply bind_raise.
    apply (for_each_app_raise _ _ _ _ _ _ _ _ _ Hpre).
    apply (process_director_not_found _ _ _ _ _ _ _ _ Hch Happ Hread Hm).
  - intros Hne Hend.
    destruct (process_director_change_returns (event_id f) b corp d st1 st2 st3 ps
                Hch Happ Hread Hne Hend) as (st4 & Hd & Hlog).
    exists st4. split; [exact Hd|]. split; [exact Hlog|]. split; [|split].
    + intros p Hp. unfold ends_of. apply in_flat_map. exists p.
      split; [exact Hp | left; reflexivity].
    + apply stamped_by_last, Hne.
    + intros changed_post st_loop st' Hpost Hcreate.
      destruct (for_each_grows (event_id f) b corp _ _ _ _ Hpost) as [after Ea].
      exists after. split; [exact Ea|].
      assert (Hloop : for_each (process_director (event_id f) b corp)
                        (pre ++ d :: post) st
                      = (Ok (changed_pre
                             ++ repeat (stamped d (matching d ps))
                                  (length (matching d ps))
                             ++ changed_post)%list, st_loop)).
      { apply (for_each_app_run _ _ _ _ _ _ _ _ Hpre).
        cbn [for_each]. rewrite (bind_ok _ _ _ _ _ Hd).
        rewrite (bind_ok _ _ _ _ _ Hpost). reflexivity. }
      split.
      * unfold Directors._process_directors.
        rewrite Hft', Hds, E. cbn [negb andb].
        rewrite (bind_ok _ _ _ _ _ Hloop). rewrite (bind_ok _ _ _ _ _ Hcreate).
        reflexivity.
      * apply (create_all_log _ b _ _ _ Hcreate).
Qed.

(** C10: in a run of [_process_directors] that returns, an entry carrying
    nameChanged or addressChanged leaves, for every current party it
    matches, two successive calls of end_director_by_name with the same
    director and event (so twice as many calls as matches); an entry that
    also carries appointed has a create_new_corp_party before them, from the
    appointed branch, and the staged creation after the loop adds one more
    for each match. *)
Theorem duplicate_end_and_double_create (f : Filing) (b : business_dict)
    (corp : string) (pre post : list director) (d : director) (st st' : state)
    (text : string) :
  filing_type f <> "annualReport" ->
  directors (body f) = (pre ++ d :: post)%list ->
  has_action "nameChanged" d || has_action "addressChanged" d = true ->
  _process_directors f b corp st = (Ok text, st') ->
  exists ps st2 st3 before after changed_pre changed_post,
    Directors.read store (Party_get_current corp) st2 = (Ok ps, st3)
    /\ matching d ps <> []
    /\ snd st'
       = (snd st ++ before
            ++ (if has_action "appointed" d
                then [create_new_corp_party (event_id f) d] else [])
            ++ flat_map
                 (fun p =>
                    [end_director_by_name (with_prev_id d (corp_party_id p))
                       (event_id f) corp;
                     end_director_by_name (with_prev_id d (corp_party_id p))
                       (event_id f) corp])
                 (matching d ps)
            ++ after
            ++ map (create_new_corp_party (event_id f))
                 (changed_pre
                  ++ repeat (stamped d (matching d ps)) (length (matching d ps))
                  ++ changed_post))%list
    /\ length (ends_of (event_id f) corp d (matching d ps))
       = (2 * length (matching d ps))%nat
    /\ exists p,
         In p (matching d ps)
         /\ stamped d (matching d ps) = with_prev_id d (corp_party_id p).
Proof.
  intros Hft Hds Hch Hrun.
  destruct (process_directors_run f b corp pre post d st st' text Hft Hds Hch Hrun)
    as (cp & s1 & s2 & ps & s3 & s4 & cpost & st_loop & before & after
        & Hpre & Happ & Hread & Hne & Hpost & Hall & Hlog & Hend & Htext).
  exists ps, s2, s3, before, after, cp, cpost. repeat split.
  - exact Hread.
  - exact Hne.
  - rewrite Hend, Hlog, <- !app_assoc. reflexivity.
  - apply ends_of_length.
  - apply stamped_by_last, Hne.
Qed.

End Diff.

End DirectorFacts.

Module DirectorExample.
Import Directors SampleParties.

(** A renamed director who was also marked as appointed: one creation from
    the appointed branch, the end call twice, one more creation at the end. *)
Example appointed_and_renamed_calls :
  run [renamed ["appointed"; "nameChanged"] "Smith"]
  = (Ok "Director change.",
     ([(1, "Smith", Some 7); (2, "Jones", None); (3, "Smythe", None);
       (4, "Smythe", None)],
      [create_new_corp_party (Some 7) (renamed ["appointed"; "nameChanged"] "Smith");
       end_director_by_name
         (with_prev_id (renamed ["appointed"; "nameChanged"] "Smith") 1)
         (Some 7) "1234567";
       end_director_by_name
         (with_prev_id (renamed ["appointed"; "nameChanged"] "Smith") 1)
         (Some 7) "1234567";
       create_new_corp_party (Some 7)
         (with_prev_id (renamed ["appointed"; "nameChanged"] "Smith") 1)])).
Proof. reflexivity. Qed.

Lemma director_change_matching_witness :
  filing_type (change_of_directors [renamed ["nameChanged"] "Brown"])
  <> "annualReport"
  /\ DirectorCalls.matching party compare_parties
       (renamed ["nameChanged"] "Brown") [(1, "Smith"); (2, "Jones")] = []
  /\ run [renamed ["nameChanged"] "Brown"]
     = (Raise (GenericException
                 "Director does not exist in COLIN: {'prevLastName': 'Brown', 'lastName': 'Smythe'}"
                 404),
        (board, []))
  /\ DirectorCalls.matching party compare_parties
       (renamed ["nameChanged"] "Smith") [(1, "Smith"); (2, "Jones")]
     = [(1, "Smith")]
  /\ run [renamed ["nameChanged"] "Smith"]
     = (Ok "Director change.",
        ([(1, "Smith", Some 7); (2, "Jones", None); (3, "Smythe", None)],
         [end_director_by_name (with_prev_id (renamed ["nameChanged"] "Smith") 1)
            (Some 7) "1234567";
          end_director_by_name (with_prev_id (renamed ["nameChanged"] "Smith") 1)
            (Some 7) "1234567";
          create_new_corp_party (Some 7)
            (with_prev_id (renamed ["nameChanged"] "Smith") 1)])).
Proof.
  assert (Hft : forall ds, filing_type (change_of_directors ds) <> "annualReport")
    by (intros ds; discriminate).
  split; [apply Hft|]. split; [reflexivity|]. split; [|split; [reflexivity|]].
  - apply (proj1 (DirectorFacts.director_change_matching
                    store party unit fst get_current compare_parties
                    create_party end_party officer_repr
                    (change_of_directors [renamed ["nameChanged"] "Brown"]) tt "1234567"
                    [] [] (renamed ["nameChanged"] "Brown")
                    (board, []) (board, []) (board, []) (board, [])
                    [] [(1, "Smith"); (2, "Jones")]
                    (Hft _) eq_refl eq_refl eq_refl eq_refl eq_refl)).
    reflexivity.
  - destruct (proj2 (DirectorFacts.director_change_matching
                       store party unit fst get_current compare_parties
                       create_party end_party officer_repr
                       (change_of_directors [renamed ["nameChanged"] "Smith"]) tt
                       "1234567"
                       [] [] (renamed ["nameChanged"] "Smith")
                       (board, []) (board, []) (board, []) (board, [])
                       [] [(1, "Smith"); (2, "Jones")]
                       (Hft _) eq_refl eq_refl eq_refl eq_refl eq_refl)
                ltac:(discriminate) ltac:(intros d0 s; reflexivity))
      as (st4 & Hd & _ & _ & _ & Hrun).
    vm_compute in Hd. injection Hd as <-.
    destruct (Hrun [] _ _ eq_refl eq_refl) as (after & _ & Hr & _).
    exact Hr.
Defined.

(** An entry that carries appointed beside nameChanged: the director is
    created by the appointed branch before the matching party is ended and
    before the entry after it is processed, and once more after the loop. *)
Lemma appointed_change_created_before_loop_ends :
  run [renamed ["appointed"; "nameChanged"] "Smith"; renamed ["ceased"] "Jones"]
  = (Ok "Director change.",
     ([(1, "Smith", Some 7); (2, "Jones", Some 7); (3, "Smythe", None);
       (4, "Smythe", None)],
      [create_new_corp_party (Some 7) (renamed ["appointed"; "nameChanged"] "Smith");
       end_director_by_name
         (with_prev_id (renamed ["appointed"; "nameChanged"] "Smith") 1)
         (Some 7) "1234567";
       end_director_by_name
         (with_prev_id (renamed ["appointed"; "nameChanged"] "Smith") 1)
         (Some 7) "1234567";
       end_director_by_name (renamed ["ceased"] "Jones") (Some 7) "1234567";
       create_new_corp_party (Some 7)
         (with_prev_id (renamed ["appointed"; "nameChanged"] "Smith") 1)])).
Proof. reflexivity. Qed.

Lemma duplicate_end_and_double_create_witness :
  filing_type (change_of_directors [renamed ["appointed"; "nameChanged"] "Smith"])
  <> "annualReport"
  /\ exists ps,
       DirectorCalls.matching party compare_parties
         (renamed ["appointed"; "nameChanged"] "Smith") ps <> []
       /\ length (DirectorCalls.ends_of party fst (Some 7) "1234567"
                    (renamed ["appointed"; "nameChanged"] "Smith")
                    (DirectorCalls.matching party compare_parties
                       (renamed ["appointed"; "nameChanged"] "Smith") ps))
          = (2 * length (DirectorCalls.matching party compare_parties
                           (renamed ["appointed"; "nameChanged"] "Smith") ps))%nat.
Proof.
  assert (Hft : filing_type
                  (change_of_directors [renamed ["appointed"; "nameChanged"] "Smith"])
                <> "annualReport") by discriminate.
  split; [exact Hft|].
  destruct (DirectorFacts.duplicate_end_and_double_create
              store party unit fst get_current compare_parties
              create_party end_party officer_repr
              (change_of_directors [renamed ["appointed"; "nameChanged"] "Smith"])
              tt "1234567" [] [] (renamed ["appointed"; "nameChanged"] "Smith")
              (board, []) _ _ Hft eq_refl eq_refl appointed_and_renamed_calls)
    as (ps & _ & _ & _ & _ & _ & _ & _ & Hne & _ & Hlen & _).
  exists ps. split; [exact Hne | exact Hlen].
Defined.

End DirectorExample.

(** ** The name-translation diff *)

Module NameFacts.
Import Names TranslationDiff.

Lemma create_translations_run (corp : string) (event_id : option Z)
    (nts : list translation) (olds : list corp_name_row) (s : names) :
  create_translations corp event_id nts olds s
  = (Ok tt,
     (s ++ map (new_translation corp event_id)
             (filter (fun x => negb (name_in_rows (t_name x) olds)) nts))%list).
Proof.
  revert s. induction nts as [|x rest IH]; intros s; simpl.
  - rewrite app_nil_r. reflexivity.
  - unfold bind. destruct (name_in_rows (t_name x) olds); simpl.
    + apply IH.
    + rewrite IH, <- app_assoc. reflexivity.
Qed.

Lemma end_absent_run (event_id : option Z) (corp : string)
    (nts : list translation) (olds : list corp_name_row) (t : names) :
  end_absent event_id corp nts olds t
  = (Ok tt, map (fun r => fold_left (end_step event_id corp nts) olds r) t).
Proof.
  revert t. induction olds as [|o olds IH]; intros t; simpl.
  - rewrite map_id. reflexivity.
  - unfold bind, end_step at 2.
    destruct (negb (name_in_translations (cn_corp_name o) nts)); simpl.
    + rewrite IH, map_map. reflexivity.
    + rewrite IH. reflexivity.
Qed.

Lemma end_row_not_current (event_id : option Z) (corp n : string) (r : corp_name_row) :
  is_current corp TRANSLATION r = false ->
  end_row event_id corp n TRANSLATION r = r.
Proof. unfold end_row. intros ->. reflexivity. Qed.

Lemma steps_not_current (event_id : option Z) (corp : string)
    (nts : list translation) (olds : list corp_name_row) (r : corp_name_row) :
  is_current corp TRANSLATION r = false ->
  fold_left (end_step event_id corp nts) olds r = r.
Proof.
  intros H. induction olds as [|o olds IH]; simpl; [reflexivity|].
  unfold end_step at 2.
  destruct (negb (name_in_translations (cn_corp_name o) nts));
    [rewrite end_row_not_current by exact H|]; exact IH.
Qed.

Lemma steps_name_kept (event_id : option Z) (corp : string)
    (nts : list translation) (olds : list corp_name_row) (r : corp_name_row) :
  name_in_translations (cn_corp_name r) nts = true ->
  fold_left (end_step event_id corp nts) olds r = r.
Proof.
  intros H. induction olds as [|o olds IH]; simpl; [reflexivity|].
  assert (E : end_step event_id corp nts r o = r); [|rewrite E; exact IH].
  unfold end_step, end_row.
  destruct (name_in_translations (cn_corp_name o) nts) eqn:Ho; [reflexivity|].
  simpl. destruct (String.eqb (cn_corp_name r) (cn_corp_name o)) eqn:En.
  - apply String.eqb_eq in En. rewrite En, Ho in H. discriminate H.
  - rewrite andb_false_r. reflexivity.
Qed.

Lemma with_end_not_current (corp : string) (r : corp_name_row) (e : Z) :
  is_current corp TRANSLATION (with_end r (Some e)) = false.
Proof. unfold is_current, with_end. simpl. apply andb_false_r. Qed.

Lemma steps_ended (e : Z) (corp : string) (nts : list translation)
    (olds : list corp_name_row) (r o : corp_name_row) :
  is_current corp TRANSLATION r = true ->
  name_in_translations (cn_corp_name r) nts = false ->
  In o olds -> cn_corp_name o = cn_corp_name r ->
  fold_left (end_step (Some e) corp nts) olds r = with_end r (Some e).
Proof.
  intros Hcur Habs. induction olds as [|o' olds IH]; intros Hin Hname; [destruct Hin|].
  simpl. unfold end_step at 2, end_row. rewrite Hcur. simpl.
  destruct (negb (name_in_translations (cn_corp_name o') nts)
            && String.eqb (cn_corp_name r) (cn_corp_name o')) eqn:C.
  - apply andb_true_iff in C as [C1 C2]. rewrite C1, C2.
    apply steps_not_current, with_end_not_current.
  - assert (E : (if negb (name_in_translations (cn_corp_name o') nts)
                 then if String.eqb (cn_corp_name r) (cn_corp_name o')
                      then with_end r (Some e) else r
                 else r) = r).
    { destruct (negb (name_in_translations (cn_corp_name o') nts)); [|reflexivity].
      simpl in C. rewrite C. reflexivity. }
    rewrite E. apply IH; [|exact Hname].
    destruct Hin as [<- | Hin]; [|exact Hin].
    rewrite Hname, Habs, String.eqb_refl in C. discriminate C.
Qed.

Lemma own_name_in_translations (x : translation) (nts : list translation) :
  In x nts -> name_in_translations (t_name x) nts = true.
Proof.
  intros H. unfold name_in_translations. apply existsb_exists.
  exists x. split; [exact H | apply String.eqb_refl].
Qed.

(** C4, as the code has it: for a filing with an event id and a non-empty
    incoming list, the table after [_process_name_translations] is the table
    before with every current translation whose name is not in the incoming
    list ended at the event and every other row left as it was, followed by
    one new current row, starting at the event, for each incoming
    translation that no prior current translation carries.  With an empty
    incoming list the table is left as it was. *)
Theorem name_translation_diff (f : Filing) (corp : string) (s : names) (e : Z) :
  event_id f = Some e ->
  (nameTranslations (body f) <> [] ->
   _process_name_translations f corp s
   = (Ok tt,
      (map (diffed (Some e) corp (nameTranslations (body f))) s
       ++ map (new_translation corp (Some e))
            (fresh corp (nameTranslations (body f)) s))%list))
  /\ (nameTranslations (body f) = [] ->
      _process_name_translations f corp s = (Ok tt, s)).
Proof.
  intros He. split;
    [|intros Hnil; unfold _process_name_translations, get_current_by_type, bind;
      rewrite Hnil; reflexivity].
  intros Hne. unfold _process_name_translations, get_current_by_type, bind.
  destruct (nameTranslations (body f)) as [|x rest] eqn:En; [contradiction|].
  rewrite <- En in *. clear Hne.
  set (nts := nameTranslations (body f)) in *.
  set (olds := filter (is_current corp TRANSLATION) s).
  assert (Hrun : (create_translations corp (event_id f) nts olds ;;;
                  end_absent (event_id f) corp nts olds)%monad s
                 = (Ok tt,
                    (map (diffed (Some e) corp nts) s
                     ++ map (new_translation corp (Some e)) (fresh corp nts s))%list)).
  { unfold bind. rewrite create_translations_run, end_absent_run, He, map_app.
    f_equal. f_equal.
    - apply map_ext_in. intros r Hr. unfold diffed.
      destruct (is_current corp TRANSLATION r) eqn:Hcur; simpl.
      + destruct (name_in_translations (cn_corp_name r) nts) eqn:Hn; simpl.
        * apply steps_name_kept, Hn.
        * apply (steps_ended e corp nts olds r r Hcur Hn); [|reflexivity].
          apply filter_In. split; assumption.
      + apply steps_not_current, Hcur.
    - rewrite map_map. apply map_ext_in. intros y Hy.
      apply filter_In in Hy as [Hy _]. apply steps_name_kept.
      apply own_name_in_translations, Hy. }
  destruct nts as [|y nts']; [discriminate En | exact Hrun].
Qed.

End NameFacts.

Module NameExample.
Import Names SampleNames.

(** The scenario of the spec: incoming Alpha and Gamma over current Alpha
    and Beta ends Beta, creates Gamma and leaves Alpha as it was. *)
Lemma name_translation_diff_witness :
  event_id (alteration_with ["Alpha"; "Gamma"]) = Some 7
  /\ _process_name_translations (alteration_with ["Alpha"; "Gamma"]) "1234567"
       alpha_beta
     = (Ok tt,
        [translation_row "Alpha" 3;
         with_end (translation_row "Beta" 3) (Some 7);
         translation_row "Gamma" 7]).
Proof.
  split; [reflexivity|].
  rewrite (proj1 (NameFacts.name_translation_diff
                    (alteration_with ["Alpha"; "Gamma"]) "1234567" alpha_beta 7
                    eq_refl)
             ltac:(discriminate)).
  reflexivity.
Defined.

(** C4 as stated fails for the empty incoming set: Beta (and Alpha) is a
    prior current translation absent from it, and is not ended. *)
Lemma empty_incoming_ends_nothing :
  nameTranslations (body (alteration_with [])) = []
  /\ In (translation_row "Beta" 3) alpha_beta
  /\ _process_name_translations (alteration_with []) "1234567" alpha_beta
     = (Ok tt, alpha_beta)
  /\ cn_end_event_id (translation_row "Beta" 3) = None.
Proof. repeat split. simpl. auto. Qed.

End NameExample.

(** * Further properties of the code *)

(** ** The registry and the dispatch of the header insert *)

Module CoverageFacts.
Import Business Registry Ledger Writer HeaderColumns RegistryCoverage.

Lemma resolved_registered (f : Filing) (arg : option string) (t : TypeCodes)
    (c : string) :
  corp_type (f_business f) = TypeCode t ->
  get_filing_type_code f arg = Ok (Some (VStr c)) ->
  In (filing_type f, t, c) registered_triples.
Proof.
  intros Ht H. unfold get_filing_type_code in H. rewrite Ht in H.
  unfold filing_type_entry in H.
  destruct (dict_get String.eqb FILING_TYPES (filing_type f)) as [d|] eqn:Ed.
  - apply dict_get_In in Ed; [|intros a b; apply String.eqb_eq].
    unfold registered_triples. apply in_flat_map.
    exists (filing_type f, d). split; [exact Ed|]. cbn [fst snd].
    destruct (truthy_str (py_or arg (filing_sub_type f))).
    + destruct (filing_sub_type f) as [s|]; [|discriminate H].
      destruct (dict_get pykey_eqb d (Lit s)) as [[x|l|m]|] eqn:Es;
        try discriminate H.
      apply dict_get_In in Es; [|apply pykey_eqb_eq].
      destruct (dict_get pykey_eqb m (TypeCode t)) as [c'|] eqn:Ec;
        [|discriminate H].
      injection H as ->.
      apply dict_get_In in Ec; [|apply pykey_eqb_eq].
      apply in_flat_map. exists (Lit s, VDict m). split; [exact Es|].
      cbn [fst snd]. apply in_flat_map. exists (TypeCode t, c).
      split; [exact Ec | left; reflexivity].
    + injection H as H. apply dict_get_In in H; [|apply pykey_eqb_eq].
      apply in_flat_map. exists (TypeCode t, VStr c).
      split; [exact H | left; reflexivity].
  - destruct (truthy_str (py_or arg (filing_sub_type f))).
    + destruct (filing_sub_type f); discriminate H.
    + discriminate H.
Qed.

(** X1: a code resolved for a filing of one of the nine entity types is
    listed in the code list of the filing's type, and the reverse lookup of
    the code gives the filing type back; the one exception is OTVDS resolved
    for a dissolution, which reads back as voluntaryDissolution. *)
Theorem code_round_trip (f : Filing) (arg : option string) (t : TypeCodes)
    (c : string) :
  corp_type (f_business f) = TypeCode t ->
  get_filing_type_code f arg = Ok (Some (VStr c)) ->
  In c (codes_of (filing_type f))
  /\ (_get_filing_type c = Ok (Some (filing_type f))
      \/ (c = "OTVDS" /\ filing_type f = "dissolution"
          /\ _get_filing_type c = Ok (Some "voluntaryDissolution"))).
Proof.
  intros Ht H. pose proof (resolved_registered f arg t c Ht H) as Hin.
  assert (Hall : forallb round_trip_check registered_triples = true)
    by (vm_compute; reflexivity).
  rewrite forallb_forall in Hall. specialize (Hall _ Hin).
  unfold round_trip_check in Hall.
  apply andb_true_iff in Hall as [H1 H2]. apply str_in_In in H1.
  split; [exact H1|].
  destruct (_get_filing_type c) as [[ft'|]|e]; try discriminate H2.
  apply orb_true_iff in H2 as [H2|H2].
  - left. apply String.eqb_eq in H2. subst ft'. reflexivity.
  - right. apply andb_true_iff in H2 as [H2 H3]. apply andb_true_iff in H2 as [H2 H4].
    apply String.eqb_eq in H2, H3, H4. subst. rewrite H4. repeat split.
Qed.

Lemma code_round_trip_witness :
  get_filing_type_code
    (SampleLedger.new_filing "changeOfAddress" None "1234567" (TypeCode BC_COMP)
       SampleLedger.empty_body) None
  = Ok (Some (VStr "NOCAD"))
  /\ In "NOCAD" (codes_of "changeOfAddress").
Proof.
  split; [reflexivity|].
  apply (code_round_trip
           (SampleLedger.new_filing "changeOfAddress" None "1234567"
              (TypeCode BC_COMP) SampleLedger.empty_body)
           None BC_COMP "NOCAD" eq_refl eq_refl).
Defined.

(** X2: for a filing of a submittable type and one of the nine entity
    types, a resolved code other than OTAMA is one [_insert_filing] inserts a
    header for; OTAMA is resolved for the amalgamation of a cooperative only,
    and [_insert_filing] rejects it with InvalidFilingTypeException. *)
Theorem submittable_codes_dispatched (f : Filing) (t : TypeCodes) (c : string) :
  str_in (filing_type f) submittable_types = true ->
  corp_type (f_business f) = TypeCode t ->
  get_filing_type_code f None = Ok (Some (VStr c)) ->
  (c <> "OTAMA" ->
   forall ar_date agm_date d,
   exists st,
     _insert_filing f ar_date agm_date d = execute st d /\ into st = "filing")
  /\ (c = "OTAMA" ->
      filing_type f = "amalgamationApplication" /\ t = COOP
      /\ forall ar_date agm_date d,
           _insert_filing f ar_date agm_date d
           = (Raise (InvalidFilingTypeException (Some (VStr "OTAMA"))), d)).
Proof.
  intros Hsub Ht H. pose proof (resolved_registered f None t c Ht H) as Hin.
  assert (Hall : forallb dispatch_check registered_triples = true)
    by (vm_compute; reflexivity).
  rewrite forallb_forall in Hall. specialize (Hall _ Hin).
  unfold dispatch_check in Hall. rewrite Hsub in Hall. cbn [negb orb] in Hall.
  split.
  - intros Hne ar_date agm_date d.
    destruct (String.eqb c "OTAMA") eqn:E; [apply String.eqb_eq in E; contradiction|].
    pose proof (HeaderInsert.filing_statement_columns f (Some (VStr c)) ar_date agm_date)
      as Hst.
    destruct (header_columns (Some (VStr c))) as [cols|]; [|discriminate Hall].
    destruct Hst as [st [Est [Hinto _]]].
    exists st. unfold _insert_filing. rewrite H, Est. split; [reflexivity|exact Hinto].
  - intros ->. rewrite String.eqb_refl in Hall.
    apply andb_true_iff in Hall as [H1 H2]. apply String.eqb_eq in H1.
    split; [exact H1|]. split; [destruct t; try discriminate H2; reflexivity|].
    intros ar_date agm_date d. unfold _insert_filing. rewrite H. reflexivity.
Qed.

Lemma submittable_codes_dispatched_witness :
  get_filing_type_code
    (SampleLedger.new_filing "amalgamationApplication" (Some "vertical") "CP0001"
       (TypeCode COOP) SampleLedger.empty_body) None
  = Ok (Some (VStr "OTAMA"))
  /\ _insert_filing
       (SampleLedger.new_filing "amalgamationApplication" (Some "vertical") "CP0001"
          (TypeCode COOP) SampleLedger.empty_body) None None SampleLedger.sample_db
     = (Raise (InvalidFilingTypeException (Some (VStr "OTAMA"))),
        SampleLedger.sample_db).
Proof.
  split; [reflexivity|].
  apply (proj2 (submittable_codes_dispatched
                   (SampleLedger.new_filing "amalgamationApplication"
                      (Some "vertical") "CP0001" (TypeCode COOP)
                      SampleLedger.empty_body)
                   COOP "OTAMA" eq_refl eq_refl eq_refl) eq_refl).
Defined.

End CoverageFacts.

(** ** Event allocation and the header inserts *)

Module AllocationFacts.
Import Business Registry Ledger Statements.

Lemma get_event_id_inv (corp ty : string) (d d' : db) (eid : Z) :
  _get_event_id corp ty d = (Ok eid, d') ->
  event d' = (event d ++ [new_event eid corp ty d])%list
  /\ filing d' = filing d /\ filing_user d' = filing_user d
  /\ executed d' = executed d /\ sysdate d' = sysdate d
  /\ (if is_cp corp
      then eid = noncorp_event_seq d O
           /\ (forall k, noncorp_event_seq d' k = noncorp_event_seq d (S k))
           /\ system_id_EV d' = system_id_EV d
      else system_id_EV d = Some eid
           /\ noncorp_event_seq d' = noncorp_event_seq d
           /\ system_id_EV d' = Some (if eid =? 0 then eid else eid + 1)).
Proof.
  unfold _get_event_id, is_cp, new_event.
  destruct (String.eqb (substring 0 2 corp) "CP").
  - intros [= <- <-]. repeat split.
  - destruct (system_id_EV d) as [id_num|] eqn:E; [|discriminate].
    intros [= <- <-]. destruct (id_num =? 0) eqn:Z0; simpl; rewrite ?E; repeat split.
Qed.



(** X4: the counter of the numbered entities at its edges.  With no row of
    type EV the allocation raises TypeError and writes nothing; with the
    counter at 0 the id 0 is handed out and the counter is not advanced, so
    the next allocation hands out 0 again. *)
Theorem event_id_counter_edges (corp ty : string) (d : db) :
  is_cp corp = false ->
  (system_id_EV d = None -> _get_event_id corp ty d = (Raise TypeError, d))
  /\ (system_id_EV d = Some 0 ->
      exists d1,
        _get_event_id corp ty d = (Ok 0, d1)
        /\ system_id_EV d1 = Some 0
        /\ forall corp2 ty2,
             is_cp corp2 = false -> fst (_get_event_id corp2 ty2 d1) = Ok 0).
Proof.
  unfold is_cp. intros Hcp. split.
  - intros Hn. unfold _get_event_id. rewrite Hcp, Hn. reflexivity.
  - intros Hz. unfold _get_event_id. rewrite Hcp, Hz. simpl.
    eexists. split; [reflexivity|]. split; [exact Hz|].
    intros corp2 ty2 Hcp2. rewrite Hcp2. simpl. rewrite Hz. reflexivity.
Qed.

Lemma event_id_counter_edges_witness :
  is_cp "1234567" = false
  /\ _get_event_id "1234567" "FILE"
       {| noncorp_event_seq := SampleLedger.counting 1; system_id_EV := None;
  sysdate := 1;
          event := []; filing := []; filing_user := []; executed := [] |}
     = (Raise TypeError,
        {| noncorp_event_seq := SampleLedger.counting 1; system_id_EV := None;
  sysdate := 1;
           event := []; filing := []; filing_user := []; executed := [] |}).
Proof.
  split; [reflexivity|].
  apply (proj1 (event_id_counter_edges "1234567" "FILE"
                  {| noncorp_event_seq := SampleLedger.counting 1; system_id_EV := None;
  sysdate := 1;
                     event := []; filing := []; filing_user := [];
                     executed := [] |} eq_refl) eq_refl).
Defined.

Lemma execute_inv (st : statement) (d d' : db) (r : result unit) :
  execute st d = (r, d') ->
  r = Ok tt /\ executed d' = (executed d ++ [st])%list /\ event d' = event d
  /\ filing d' = filing d /\ filing_user d' = filing_user d
  /\ sysdate d' = sysdate d /\ noncorp_event_seq d' = noncorp_event_seq d
  /\ system_id_EV d' = system_id_EV d.
Proof. unfold execute. intros [= <- <-]. repeat split. Qed.

Lemma filing_statement_well_formed (f : Filing) (code : option pyval)
    (ar_date agm_date : option string) (st : statement) :
  filing_statement f code ar_date agm_date = Some st ->
  well_formed st
  /\ into st = "filing"
  /\ dict_get String.eqb (binds st) "event_id" = Some (arg_of_int (event_id f))
  /\ dict_get String.eqb (binds st) "filing_type_code" = Some (arg_of_code code)
  /\ dict_get String.eqb (binds st) "effective_dt" = Some (AStr (effective_date f)).
Proof.
  unfold filing_statement, well_formed.
  destruct (code_in code ["OTANN"]); [intros [= <-]; repeat split|].
  destruct (code_in code ["OTADD"; "OTCDR"; "OTINC"]); [intros [= <-]; repeat split|].
  destruct (code_in code ["ANNBC"]); [intros [= <-]; repeat split|].
  destruct (code_in code ["NOCDR"]); [intros [= <-]; repeat split|].
  destruct (code_in code court_order_group).
  - destruct (code_in code ["REGSN"; "REGSO"; "COURT"]).
    + intros [= <-]; repeat split.
    + destruct (courtOrder (body f)); intros [= <-]; repeat split.
  - destruct (code_in code ["OTVDS"; "ADVD2"; "OTSPE"]); [|discriminate].
    intros [= <-]; repeat split.
Qed.

(** X5: every INSERT that [_insert_filing_user] and [_insert_filing] hand to
    the cursor gives a value to each of its columns, and binds exactly the
    names its VALUES list uses; each of the two executes one statement and
    touches nothing else. *)
Theorem inserts_well_formed (f : Filing) :
  (forall d d',
     _insert_filing_user f d = (Ok tt, d') ->
     exists u,
       executed d' = (executed d ++ [u])%list /\ event d' = event d
       /\ into u = "filing_user" /\ well_formed u)
  /\ (forall ar_date agm_date d d',
        _insert_filing f ar_date agm_date d = (Ok tt, d') ->
        exists st,
          executed d' = (executed d ++ [st])%list /\ event d' = event d
          /\ into st = "filing" /\ well_formed st).
Proof.
  split.
  - intros d d' H. unfold _insert_filing_user in H.
    destruct (get_email f) as [email|e]; [|discriminate H].
    apply execute_inv in H as (_ & Hx & He & _).
    eexists. split; [exact Hx|]. split; [exact He|]. repeat split.
  - intros ar_date agm_date d d' H. unfold _insert_filing in H.
    destruct (get_filing_type_code f None) as [code|e]; [|discriminate H].
    destruct (filing_statement f code ar_date agm_date) as [st|] eqn:Est;
      [|discriminate H].
    apply execute_inv in H as (_ & Hx & He & _).
    destruct (filing_statement_well_formed _ _ _ _ _ Est) as (Hw & Hi & _).
    exists st. repeat split; try assumption; apply Hw.
Qed.

Lemma inserts_well_formed_witness :
  exists st,
    executed
      (snd (_insert_filing
              (SampleLedger.new_filing "annualReport" None "1234567"
                 (TypeCode Business.BC_COMP) SampleLedger.empty_body)
              (Some "2024-04-19") None SampleLedger.sample_db))
    = [st]
    /\ into st = "filing" /\ well_formed st.
Proof.
  destruct (proj2 (inserts_well_formed
                     (SampleLedger.new_filing "annualReport" None "1234567"
                        (TypeCode Business.BC_COMP) SampleLedger.empty_body))
              (Some "2024-04-19") None SampleLedger.sample_db
              (snd (_insert_filing
                      (SampleLedger.new_filing "annualReport" None "1234567"
                         (TypeCode Business.BC_COMP) SampleLedger.empty_body)
                      (Some "2024-04-19") None SampleLedger.sample_db))
              eq_refl)
    as (st & Hx & _ & Hi & Hw).
  exists st. split; [exact Hx|]. split; [exact Hi | exact Hw].
Defined.

End AllocationFacts.

(** ** What a submission has written when it returns or fails *)

Module SubmissionFacts.
Import Business Registry Ledger Writer HeaderColumns Preconditions Statements.

Section Steps.

Variable type_specific_steps : Filing -> M db unit.

Lemma add_filing_after_checks (f : Filing) (d : db) (user : string) :
  str_in (filing_type f) submittable_types = true ->
  sub_type_ok f = true ->
  dict_get pykey_eqb USERS (corp_type (f_business f)) = Some user ->
  add_filing type_specific_steps f d
  = bind (_get_event_id (corp_num (f_business f)) "FILE")
      (fun new_event_id =>
         let filing := with_event_id (with_user_id f user) new_event_id in
         (_insert_filing_user filing ;;;
          _insert_filing filing (annualReportDate (body f))
            (annualGeneralMeetingDate (body f)) ;;;
          type_specific_steps filing ;;;
          ret new_event_id)%monad)
      d.
Proof.
  intros Hin Hsub Hu. unfold add_filing, sub_type_ok in *.
  rewrite Hin. cbn [negb].
  apply orb_true_iff in Hsub.
  assert (E : truthy_str (filing_sub_type f)
              && negb (match filing_sub_type f with
                       | Some s => is_supported_filing_sub_type (filing_type f) s
                       | None => false
                       end) = false).
  { destruct Hsub as [H|H].
    - apply negb_true_iff in H. rewrite H. reflexivity.
    - rewrite H. apply andb_false_r. }
  rewrite E, Hu. reflexivity.
Qed.

Lemma add_filing_ok_checks (f : Filing) (d d' : db) (eid : Z) :
  add_filing type_specific_steps f d = (Ok eid, d') ->
  str_in (filing_type f) submittable_types = true
  /\ sub_type_ok f = true
  /\ exists user, dict_get pykey_eqb USERS (corp_type (f_business f)) = Some user.
Proof.
  unfold add_filing, sub_type_ok. intros H.
  destruct (str_in (filing_type f) submittable_types); [|discriminate H].
  cbn [negb] in H. split; [reflexivity|].
  destruct (truthy_str (filing_sub_type f)); cbn [negb andb orb] in *.
  - destruct (match filing_sub_type f with
              | Some s => is_supported_filing_sub_type (filing_type f) s
              | None => false
              end); [|discriminate H].
    split; [reflexivity|]. cbn [negb] in H.
    destruct (dict_get pykey_eqb USERS (corp_type (f_business f))) as [user|];
      [exists user; reflexivity | discriminate H].
  - split; [reflexivity|].
    destruct (dict_get pykey_eqb USERS (corp_type (f_business f))) as [user|];
      [exists user; reflexivity | discriminate H].
Qed.

(** X6: when [add_filing] returns an event id, the database the
    type-specific steps started from holds one new FILE event of the entity
    with that id, and two more executed statements, a [filing_user] row and a
    [filing] header, both bound to that id, the first with the user that
    USERS gives for the entity type; the id returned is the one allocated. *)
Theorem add_filing_writes (f : Filing) (d d' : db) (eid : Z) :
  add_filing type_specific_steps f d = (Ok eid, d') ->
  exists user u st d1,
    dict_get pykey_eqb USERS (corp_type (f_business f)) = Some user
    /\ event d1 = (event d ++ [new_event eid (corp_num (f_business f)) "FILE" d])%list
    /\ executed d1 = (executed d ++ [u; st])%list
    /\ into u = "filing_user" /\ into st = "filing"
    /\ dict_get String.eqb (binds u) "event_id" = Some (AInt eid)
    /\ dict_get String.eqb (binds u) "user_id" = Some (AStr user)
    /\ dict_get String.eqb (binds st) "event_id" = Some (AInt eid)
    /\ type_specific_steps (with_event_id (with_user_id f user) eid) d1 = (Ok tt, d').
Proof.
  intros H. destruct (add_filing_ok_checks _ _ _ _ H) as (Hin & Hsub & user & Hu).
  rewrite (add_filing_after_checks f d user Hin Hsub Hu) in H.
  apply bind_inv_ok in H as (e & dA & Halloc & H).
  cbv zeta in H.
  apply bind_inv_ok in H as ([] & dB & Huser & H).
  apply bind_inv_ok in H as ([] & dC & Hhead & H).
  apply bind_inv_ok in H as ([] & dD & Hsteps & H).
  injection H as <- <-.
  apply AllocationFacts.get_event_id_inv in Halloc as (Ev & _ & _ & Ex & _).
  unfold _insert_filing_user in Huser.
  destruct (get_email (with_event_id (with_user_id f user) e)) as [email|x];
    [|discriminate Huser].
  apply AllocationFacts.execute_inv in Huser as (_ & ExB & EvB & _).
  unfold _insert_filing in Hhead.
  destruct (get_filing_type_code (with_event_id (with_user_id f user) e) None)
    as [code|x]; [|discriminate Hhead].
  destruct (filing_statement (with_event_id (with_user_id f user) e) code
              (annualReportDate (body f)) (annualGeneralMeetingDate (body f)))
    as [st|] eqn:Est; [|discriminate Hhead].
  apply AllocationFacts.execute_inv in Hhead as (_ & ExC & EvC & _).
  destruct (AllocationFacts.filing_statement_well_formed _ _ _ _ _ Est)
    as (_ & Hinto & Hbind & _).
  match type of ExB with
  | _ = (_ ++ [?u])%list => exists user, u, st, dC
  end.
  split; [exact Hu|].
  split; [rewrite EvC, EvB; exact Ev|].
  split; [rewrite ExC, ExB, Ex, <- app_assoc; reflexivity|].
  split; [reflexivity|].
  split; [exact Hinto|].
  split; [reflexivity|].
  split; [reflexivity|].
  split; [exact Hbind | exact Hsteps].
Qed.

(** X7: [add_filing] does not undo what it wrote when the header insert
    rejects the code.  For a filing that passes the checks, whose event is
    allocated and whose user row is inserted, a resolved code that the
    dispatch does not take raises InvalidFilingTypeException, and the state
    handed back with the exception holds the new event and the [filing_user]
    statement; the type-specific steps have not run. *)
Theorem add_filing_fails_after_writes (f : Filing) (d dA : db) (user : string)
    (eid : Z) (email : option string) (code : option pyval) :
  str_in (filing_type f) submittable_types = true ->
  sub_type_ok f = true ->
  dict_get pykey_eqb USERS (corp_type (f_business f)) = Some user ->
  _get_event_id (corp_num (f_business f)) "FILE" d = (Ok eid, dA) ->
  get_email f = Ok email ->
  get_filing_type_code f None = Ok code ->
  header_columns code = None ->
  exists u d1,
    add_filing type_specific_steps f d
    = (Raise (InvalidFilingTypeException code), d1)
    /\ event d1 = (event d ++ [new_event eid (corp_num (f_business f)) "FILE" d])%list
    /\ executed d1 = (executed d ++ [u])%list
    /\ into u = "filing_user"
    /\ dict_get String.eqb (binds u) "event_id" = Some (AInt eid).
Proof.
  intros Hin Hsub Hu Halloc Hemail Hcode Hcols.
  rewrite (add_filing_after_checks f d user Hin Hsub Hu).
  rewrite (bind_ok _ _ _ _ _ Halloc). cbv zeta.
  apply AllocationFacts.get_event_id_inv in Halloc as (Ev & _ & _ & Ex & _).
  set (g := with_event_id (with_user_id f user) eid).
  assert (Hu' : exists u,
             _insert_filing_user g dA = execute u dA
             /\ into u = "filing_user"
             /\ dict_get String.eqb (binds u) "event_id" = Some (AInt eid)).
  { unfold _insert_filing_user.
    change (get_email g) with (get_email f). rewrite Hemail.
    eexists. split; [reflexivity|]. split; reflexivity. }
  destruct Hu' as (u & Eu & Hinto & Hbind).
  destruct (execute u dA) as [r dB] eqn:Eexec.
  destruct (AllocationFacts.execute_inv _ _ _ _ Eexec) as (-> & ExB & EvB & _).
  exists u, dB. split.
  - rewrite (bind_ok _ _ _ _ _ Eu).
    apply bind_raise. unfold _insert_filing.
    change (get_filing_type_code g None) with (get_filing_type_code f None).
    rewrite Hcode.
    pose proof (HeaderInsert.filing_statement_columns g code
                  (annualReportDate (body f)) (annualGeneralMeetingDate (body f)))
      as Hst.
    rewrite Hcols in Hst. rewrite Hst. reflexivity.
  - repeat split.
    + rewrite EvB. exact Ev.
    + rewrite ExB, Ex. reflexivity.
    + exact Hinto.
    + exact Hbind.
Qed.

End Steps.

Lemma add_filing_writes_witness :
  add_filing (fun _ => ret tt)
    (SampleLedger.new_filing "annualReport" None "1234567" (TypeCode BC_COMP)
       SampleLedger.empty_body) SampleLedger.sample_db
  = (Ok 100,
     snd (add_filing (fun _ => ret tt)
            (SampleLedger.new_filing "annualReport" None "1234567" (TypeCode BC_COMP)
               SampleLedger.empty_body) SampleLedger.sample_db))
  /\ exists user,
       dict_get pykey_eqb USERS (TypeCode BC_COMP) = Some user.
Proof.
  assert (H : add_filing (fun _ => ret tt)
                (SampleLedger.new_filing "annualReport" None "1234567"
                   (TypeCode BC_COMP) SampleLedger.empty_body)
                SampleLedger.sample_db
              = (Ok 100,
                 snd (add_filing (fun _ => ret tt)
                        (SampleLedger.new_filing "annualReport" None "1234567"
                           (TypeCode BC_COMP) SampleLedger.empty_body)
                        SampleLedger.sample_db))) by reflexivity.
  split; [exact H|].
  destruct (add_filing_writes _ _ _ _ _ H) as (user & _ & _ & _ & Hu & _).
  exists user. exact Hu.
Defined.

Lemma add_filing_fails_after_writes_witness :
  header_columns (Some (VStr "OTAMA")) = None
  /\ exists u d1,
       add_filing (fun _ => ret tt)
         (SampleLedger.new_filing "amalgamationApplication" (Some "regular")
            "CP0001" (TypeCode COOP) SampleLedger.empty_body)
         SampleLedger.sample_db
       = (Raise (InvalidFilingTypeException (Some (VStr "OTAMA"))), d1)
       /\ event d1
          = (event SampleLedger.sample_db
             ++ [new_event 1 "CP0001" "FILE" SampleLedger.sample_db])%list
       /\ executed d1 = (executed SampleLedger.sample_db ++ [u])%list
       /\ into u = "filing_user"
       /\ dict_get String.eqb (binds u) "event_id" = Some (AInt 1).
Proof.
  split; [reflexivity|].
  apply (add_filing_fails_after_writes (fun _ => ret tt)
           (SampleLedger.new_filing "amalgamationApplication" (Some "regular")
              "CP0001" (TypeCode COOP) SampleLedger.empty_body)
           SampleLedger.sample_db _ "COOPER" 1 (Some "") (Some (VStr "OTAMA"))
           eq_refl eq_refl eq_refl eq_refl eq_refl eq_refl eq_refl).
Defined.

End SubmissionFacts.

(** ** Components of filings other than annual reports *)

Module OwnEventFacts.
Import Business Registry Ledger Reconstruct.

Section OtherFilings.

Variables office party : Type.
Variable Office_get_by_event : Z -> result (list office).
Variable Office_get_current : string -> result (list office).
Variable Party_get_by_event : string -> Z -> result (list party).
Variable Party_get_current : string -> result (list party).

(** X8: for a filing that is not an annual report, offices and directors
    are the rows of the filing's own event and nothing else: the rows handed
    back are never empty and the paper-only mark is left as it was, and an
    event without rows raises OfficeNotFoundException, or
    PartiesNotFoundException for the directors, whatever the current state
    holds. *)
Theorem other_filings_read_own_event (d : db) (f : Filing) (info : event_info)
    (paper_only : bool) :
  filing_type f <> "annualReport" ->
  (forall po rows,
     get_filing_offices office Office_get_by_event Office_get_current
       d f info paper_only = Ok (po, rows) ->
     po = paper_only /\ rows <> []
     /\ Office_get_by_event (i_event_id info) = Ok rows)
  /\ (Office_get_by_event (i_event_id info) = Ok [] ->
      get_filing_offices office Office_get_by_event Office_get_current
        d f info paper_only
      = Raise (OfficeNotFoundException (corp_num (f_business f))))
  /\ (forall po rows,
        get_filing_directors party Party_get_by_event Party_get_current
          d f info paper_only = Ok (po, rows) ->
        po = paper_only /\ rows <> []
        /\ Party_get_by_event (corp_num (f_business f)) (i_event_id info) = Ok rows)
  /\ (Party_get_by_event (corp_num (f_business f)) (i_event_id info) = Ok [] ->
      get_filing_directors party Party_get_by_event Party_get_current
        d f info paper_only
      = Raise (PartiesNotFoundException (corp_num (f_business f)))).
Proof.
  intros Hft. apply String.eqb_neq in Hft.
  unfold get_filing_offices, get_filing_directors. rewrite Hft. cbn [negb].
  split; [|split; [|split]].
  - intros po rows H.
    destruct (Office_get_by_event (i_event_id info)) as [l|e]; [|discriminate H].
    destruct l as [|x l]; [discriminate H|]. injection H as <- <-.
    repeat split. discriminate.
  - intros ->. reflexivity.
  - intros po rows H.
    destruct (Party_get_by_event (corp_num (f_business f)) (i_event_id info))
      as [l|e]; [|discriminate H].
    destruct l as [|x l]; [discriminate H|]. injection H as <- <-.
    repeat split. discriminate.
  - intros ->. reflexivity.
Qed.

End OtherFilings.

Lemma other_filings_read_own_event_witness :
  filing_type (SampleParties.change_of_directors []) <> "annualReport"
  /\ get_filing_directors string SampleLedger.no_parties_by_event
       SampleLedger.parties_current SampleLedger.between_db
       (SampleParties.change_of_directors []) SampleLedger.report_info false
     = Raise (PartiesNotFoundException "1234567").
Proof.
  assert (Hft : filing_type (SampleParties.change_of_directors []) <> "annualReport")
    by discriminate.
  split; [exact Hft|].
  apply (other_filings_read_own_event string string
           SampleLedger.offices_by_event SampleLedger.offices_current
           SampleLedger.no_parties_by_event SampleLedger.parties_current
           SampleLedger.between_db (SampleParties.change_of_directors [])
           SampleLedger.report_info false Hft).
  reflexivity.
Defined.

End OwnEventFacts.

(** ** Director entries without a change of name or address *)

Module PlainEntryFacts.
Import Directors PlainEntries.

Section Plain.

Variables store party business_dict : Type.
Variable corp_party_id : party -> Z.
Variable Party_get_current : string -> M store (list party).
Variable Party_compare_parties : party -> officer_json -> bool.
Variable Party_create_new_corp_party :
  option Z -> director -> business_dict -> M store unit.
Variable Party_end_director_by_name :
  director -> option Z -> string -> M store unit.
Variable officer_repr : officer_json -> string.

Local Abbreviation state := (Directors.state store).
Local Abbreviation process_director :=
  (Directors.process_director store party business_dict corp_party_id
     Party_get_current Party_compare_parties Party_create_new_corp_party
     Party_end_director_by_name officer_repr).
Local Abbreviation _process_directors :=
  (Directors._process_directors store party business_dict corp_party_id
     Party_get_current Party_compare_parties Party_create_new_corp_party
     Party_end_director_by_name officer_repr).

Lemma process_plain (event_id : option Z) (b : business_dict) (corp : string)
    (d : director) (st st' : state) (changed : list director) :
  is_plain d = true ->
  process_director event_id b corp d st = (Ok changed, st') ->
  changed = [] /\ snd st' = (snd st ++ plain_calls event_id corp d)%list.
Proof.
  unfold is_plain, plain_calls. intros Hp H. apply negb_true_iff in Hp.
  unfold Directors.process_director in H.
  apply bind_inv_ok in H as [[] [st1 [H1 H]]].
  rewrite DirectorFacts.change_action_any, Hp in H.
  cbn [negb] in H. rewrite andb_true_r in H.
  assert (L1 : snd st1
               = (snd st ++ (if has_action "appointed" d
                             then [create_new_corp_party event_id d] else []))%list).
  { destruct (has_action "appointed" d).
    - apply (DirectorFacts.call_log store _ _ _ _ _ H1).
    - injection H1 as <-. rewrite app_nil_r. reflexivity. }
  destruct (has_action "ceased" d).
  - apply bind_inv_ok in H as [[] [st2 [H2 H]]]. injection H as <- <-.
    apply DirectorFacts.call_log in H2.
    split; [reflexivity|]. rewrite H2, L1, <- app_assoc. reflexivity.
  - injection H as <- <-. split; [reflexivity|].
    rewrite L1, app_nil_r. reflexivity.
Qed.

Lemma for_each_plain (event_id : option Z) (b : business_dict) (corp : string)
    (ds : list director) (st st' : state) (changed : list director) :
  forallb is_plain ds = true ->
  for_each (process_director event_id b corp) ds st = (Ok changed, st') ->
  changed = []
  /\ snd st' = (snd st ++ flat_map (plain_calls event_id corp) ds)%list.
Proof.
  revert st changed. induction ds as [|d ds IH]; intros st changed Hall H.
  - injection H as <- <-. split; [reflexivity|]. simpl. rewrite app_nil_r. reflexivity.
  - simpl in Hall. apply andb_true_iff in Hall as [Hd Hds].
    apply DirectorFacts.for_each_cons_ok in H as (a & st1 & c & H1 & Hrest & ->).
    apply (process_plain _ _ _ _ _ _ _ Hd) in H1 as [-> L1].
    destruct (IH _ _ Hds Hrest) as [-> L2].
    split; [reflexivity|]. rewrite L2, L1. simpl. rewrite <- app_assoc. reflexivity.
Qed.

(** X9: a filing other than an annual report whose director entries carry
    neither nameChanged nor addressChanged.  In a run that returns, the party
    store has received, entry by entry and in this order, one creation for
    each appointed entry and one end by name for each ceased one, at the
    event of the filing, and nothing is created after the loop; the ledger
    text is Director change. as soon as the list is not empty, even when no
    entry carries an action at all. *)
Theorem plain_directors_calls (f : Filing) (b : business_dict) (corp : string)
    (st st' : state) (text : string) :
  filing_type f <> "annualReport" ->
  directors (body f) <> [] ->
  forallb is_plain (directors (body f)) = true ->
  _process_directors f b corp st = (Ok text, st') ->
  text = "Director change."
  /\ snd st'
     = (snd st ++ flat_map (plain_calls (event_id f) corp) (directors (body f)))%list
  /\ (forallb (fun d => match d_actions d with [] => true | _ => false end)
        (directors (body f)) = true ->
      snd st' = snd st).
Proof.
  intros Hft Hne Hall H. unfold Directors._process_directors in H.
  apply String.eqb_neq in Hft. rewrite Hft in H.
  destruct (directors (body f)) as [|d0 ds] eqn:Eds; [contradiction|].
  cbn [negb andb] in H.
  apply bind_inv_ok in H as [changed [st1 [Hloop H]]].
  apply bind_inv_ok in H as [[] [st2 [Hc H]]]. injection H as <- <-.
  destruct (for_each_plain _ _ _ _ _ _ _ Hall Hloop) as [-> L].
  injection Hc as <-.
  split; [reflexivity|]. split; [exact L|].
  intros Hnone. rewrite L.
  assert (E : forall l,
             forallb (fun d => match d_actions d with [] => true | _ => false end) l
             = true ->
             flat_map (plain_calls (event_id f) corp) l = []).
  { induction l as [|x l IH]; intros Hl; [reflexivity|].
    simpl in Hl. apply andb_true_iff in Hl as [Hx Hl].
    simpl. rewrite (IH Hl), app_nil_r.
    unfold plain_calls, has_action. destruct (d_actions x); [reflexivity|discriminate]. }
  rewrite (E _ Hnone), app_nil_r. reflexivity.
Qed.

End Plain.

Lemma plain_directors_calls_witness :
  filing_type
    (SampleParties.change_of_directors
       [SampleParties.renamed ["ceased"] "Smith"]) <> "annualReport"
  /\ snd (snd (SampleParties.run [SampleParties.renamed ["ceased"] "Smith"]))
     = [end_director_by_name (SampleParties.renamed ["ceased"] "Smith")
          (Some 7) "1234567"].
Proof.
  assert (Hft : filing_type
                  (SampleParties.change_of_directors
                     [SampleParties.renamed ["ceased"] "Smith"])
                <> "annualReport") by discriminate.
  split; [exact Hft|].
  destruct (SampleParties.run [SampleParties.renamed ["ceased"] "Smith"])
    as [r st'] eqn:E.
  assert (Hr : r = Ok "Director change.")
    by (vm_compute in E; injection E as <- _; reflexivity).
  subst r.
  destruct (plain_directors_calls
              SampleParties.store SampleParties.party unit fst
              SampleParties.get_current SampleParties.compare_parties
              SampleParties.create_party SampleParties.end_party
              SampleParties.officer_repr
              (SampleParties.change_of_directors
                 [SampleParties.renamed ["ceased"] "Smith"])
              tt "1234567" (SampleParties.board, []) st' "Director change."
              Hft ltac:(discriminate) eq_refl E) as (_ & L & _).
  exact L.
Defined.

End PlainEntryFacts.

(** ** The type-specific steps *)

Module StepFacts.
Import Business Registry Ledger Steps StepTables.

Lemma append_assoc (a b c : string) : ((a ++ b) ++ c = a ++ (b ++ c))%string.
Proof. induction a as [|x a IH]; simpl; [reflexivity | rewrite IH; reflexivity]. Qed.

Lemma append_nonempty (a b : string) :
  String.eqb a "" = false -> String.eqb (a ++ b) "" = false.
Proof. destruct a; [discriminate | reflexivity]. Qed.

Lemma concat_glued (a b : string) (rest : list string) :
  String.concat " " ((a ++ " " ++ b) :: rest)
  = (a ++ " " ++ String.concat " " (b :: rest))%string.
Proof.
  destruct rest as [|y l]; simpl; [reflexivity|].
  rewrite append_assoc. f_equal.
Qed.

Section Collaborators.

Variables store addresses share_class : Type.
Variable Business_update_corp_state :
  option Z -> option string -> CorpStateTypes -> M store unit.
Variable CorpInvolved_create_corp_involved : corp_involved -> M store unit.
Variable Jurisdiction_create_jurisdiction : jurisdiction -> M store unit.
Variable Office_create_new_office :
  option addresses -> option Z -> string -> string -> M store unit.
Variable Business_create_resolution : string -> option Z -> string -> M store unit.
Variable ShareObject_end_share_structure : option Z -> string -> M store unit.
Variable ShareObject_create_share_structure :
  string -> option Z -> list share_class -> M store unit.
Variable upper : string -> string.
Variable title : string -> string.

Local Abbreviation state := (Steps.state store addresses share_class).
Local Abbreviation call_t := (step_call addresses share_class).
Local Abbreviation process_amalgamating_business :=
  (Steps.process_amalgamating_business store addresses share_class
     Business_update_corp_state CorpInvolved_create_corp_involved upper).
Local Abbreviation enumerate_from :=
  (Steps.enumerate_from store addresses share_class
     Business_update_corp_state CorpInvolved_create_corp_involved upper).
Local Abbreviation _process_amalgamating_businesses :=
  (Steps._process_amalgamating_businesses store addresses share_class
     Business_update_corp_state CorpInvolved_create_corp_involved upper).
Local Abbreviation _process_continuation_in :=
  (Steps._process_continuation_in store addresses share_class
     Business_update_corp_state Jurisdiction_create_jurisdiction upper).
Local Abbreviation offices_loop :=
  (Steps.offices_loop store addresses share_class Office_create_new_office title).
Local Abbreviation _process_office :=
  (Steps._process_office store addresses share_class Office_create_new_office title).
Local Abbreviation _process_share_structure :=
  (Steps._process_share_structure store addresses share_class
     Business_create_resolution ShareObject_end_share_structure
     ShareObject_create_share_structure).

Lemma logged_log (c : call_t) (op : M store unit) (st st' : state)
    (r : result unit) :
  Steps.logged store addresses share_class c op st = (r, st') ->
  snd st' = (snd st ++ [c])%list.
Proof.
  unfold Steps.logged. destruct (op (fst st)) as [r0 s0].
  intros [= <- <-]. reflexivity.
Qed.

Lemma amalgamating_business_row (event_id : option Z) (index : Z)
    (ab : amalgamating_business) (st st' : state) :
  process_amalgamating_business event_id index ab st = (Ok tt, st') ->
  exists row,
    snd st' = (snd st ++ row_calls row)%list
    /\ ci_corp_involve_id row = index
    /\ ci_event_id row = event_id
    /\ involved_as ab row.
Proof.
  unfold Steps.process_amalgamating_business, involved_as, is_domestic.
  intros H. cbv zeta in H.
  assert (Hdom :
    forall identifier,
      ab_identifier ab = Some identifier ->
      match ab_role ab with
      | None => raise (KeyError (Lit "role"))
      | Some role =>
          (Steps.set_corp_state store addresses share_class
             Business_update_corp_state event_id
             (Some (if String.prefix "BC" identifier
                    then last7 identifier else identifier)) AMALGAMATED ;;;
           Steps.logged store addresses share_class
             (create_corp_involved
                {| ci_event_id := event_id; ci_corp_involve_id := index;
                   ci_home_juri_num := None; ci_foreign_nme := None;
                   ci_can_jur_typ_cd := None; ci_othr_juri_desc := None;
                   ci_corp_num := Some (if String.prefix "BC" identifier
                                        then last7 identifier else identifier);
                   ci_adopted_corp_ind :=
                     if str_in role ["holding"; "primary"] then Some "Y" else None |})
             (CorpInvolved_create_corp_involved
                {| ci_event_id := event_id; ci_corp_involve_id := index;
                   ci_home_juri_num := None; ci_foreign_nme := None;
                   ci_can_jur_typ_cd := None; ci_othr_juri_desc := None;
                   ci_corp_num := Some (if String.prefix "BC" identifier
                                        then last7 identifier else identifier);
                   ci_adopted_corp_ind :=
                     if str_in role ["holding"; "primary"] then Some "Y" else None |}))%monad
      end st = (Ok tt, st') ->
      exists row,
        snd st' = (snd st ++ row_calls row)%list
        /\ ci_corp_involve_id row = index
        /\ ci_event_id row = event_id
        /\ ci_home_juri_num row = None /\ ci_foreign_nme row = None
        /\ ci_can_jur_typ_cd row = None /\ ci_othr_juri_desc row = None
        /\ (exists identifier0,
              Some identifier = Some identifier0
              /\ ci_corp_num row
                 = Some (if String.prefix "BC" identifier0
                         then last7 identifier0 else identifier0))
        /\ (exists role,
              ab_role ab = Some role
              /\ ci_adopted_corp_ind row
                 = if str_in role ["holding"; "primary"] then Some "Y" else None)).
  { intros identifier Eid H0.
    destruct (ab_role ab) as [role|]; [|discriminate H0].
    apply bind_inv_ok in H0 as ([] & s1 & H1 & H2).
    apply logged_log in H1. apply logged_log in H2.
    match type of H2 with
    | _ = (_ ++ [create_corp_involved ?r])%list => exists r
    end.
    split.
    - rewrite H2, H1, <- app_assoc. reflexivity.
    - split; [reflexivity|]. split; [reflexivity|].
      split; [reflexivity|]. split; [reflexivity|].
      split; [reflexivity|]. split; [reflexivity|].
      split; [exists identifier; split; reflexivity|].
      exists role. split; reflexivity. }
  destruct (ab_foreignJurisdiction ab) as [fj|].
  - destruct (ab_identifier ab) as [identifier|] eqn:Eid; [|discriminate H].
    destruct (String.prefix "A" identifier && opt_is (country fj) "CA"
              && opt_is (region fj) "BC").
    + cbn [negb] in H. apply (Hdom identifier eq_refl H).
    + cbn [negb] in H.
      destruct (country fj) as [c|]; [|discriminate H].
      apply logged_log in H.
      destruct (String.eqb (upper c) "CA").
      * match type of H with
        | _ = (_ ++ [create_corp_involved ?r])%list => exists r
        end.
        split; [rewrite H; reflexivity|].
        split; [reflexivity|]. split; [reflexivity|].
        cbn. split; [reflexivity|]. split; [reflexivity|].
        split; [reflexivity|]. split; [discriminate|].
        split; [reflexivity|]. split; [discriminate|].
        intros Hf. exfalso. apply Hf. reflexivity.
      * match type of H with
        | _ = (_ ++ [create_corp_involved ?r])%list => exists r
        end.
        split; [rewrite H; reflexivity|].
        split; [reflexivity|]. split; [reflexivity|].
        cbn. split; [reflexivity|]. split; [reflexivity|].
        split; [reflexivity|]. split; [discriminate|].
        split; [reflexivity|]. split; [discriminate|].
        intros _. reflexivity.
  - destruct (ab_identifier ab) as [identifier|] eqn:Eid; [|discriminate H].
    apply (Hdom identifier eq_refl H).
Qed.

Lemma enumerate_rows (event_id : option Z) (abs : list amalgamating_business)
    (index : Z) (st st' : state) :
  enumerate_from event_id index abs st = (Ok tt, st') ->
  exists rows,
    snd st' = (snd st ++ flat_map row_calls rows)%list
    /\ map ci_corp_involve_id rows
       = map (fun k => index + Z.of_nat k) (seq 0 (length abs))
    /\ Forall (fun row => ci_event_id row = event_id) rows
    /\ Forall2 involved_as abs rows.
Proof.
  revert index st. induction abs as [|ab abs IH]; intros index st H.
  - injection H as <-. exists []. simpl. rewrite app_nil_r. repeat split; constructor.
  - simpl in H. apply bind_inv_ok in H as ([] & s1 & H1 & H2).
    apply amalgamating_business_row in H1 as (row & L1 & Hi & He & Ha).
    apply IH in H2 as (rows & L2 & Hids & Hev & Hall).
    exists (row :: rows). repeat split.
    + rewrite L2, L1. simpl. rewrite <- app_assoc. reflexivity.
    + simpl. rewrite Hi, Z.add_0_r. f_equal. rewrite Hids.
      rewrite <- seq_shift, map_map. apply map_ext. intros k. lia.
    + constructor; assumption.
    + constructor; assumption.
Qed.

(** X10: in a run of [_process_amalgamating_businesses] that returns, one
    [corp_involved] row is created for each amalgamating business, in the
    order of the list, numbered from 0 and carrying the event of the filing.
    A row of a business of the registry (no foreign jurisdiction, or an
    identifier starting with A in CA, BC) names the company, with a leading BC
    cut down to the last seven characters, and is preceded by the change of
    that company's state to amalgamated; a row of a foreign business names no
    company, changes no state and keeps the identifier as home jurisdiction
    number.  No other call is made. *)
Theorem amalgamating_rows (f : Filing) (p : payload addresses share_class)
    (st st' : state) :
  _process_amalgamating_businesses f p st = (Ok tt, st') ->
  exists rows,
    snd st' = (snd st ++ flat_map row_calls rows)%list
    /\ length rows = length (amalgamatingBusinesses p)
    /\ map ci_corp_involve_id rows
       = map Z.of_nat (seq 0 (length (amalgamatingBusinesses p)))
    /\ Forall (fun row => ci_event_id row = event_id f) rows
    /\ Forall2 involved_as (amalgamatingBusinesses p) rows.
Proof.
  unfold Steps._process_amalgamating_businesses. intros H.
  apply enumerate_rows in H as (rows & L & Hids & Hev & Hall).
  exists rows. split; [exact L|].
  split; [symmetry; apply (Forall2_length Hall)|].
  split; [rewrite Hids; apply map_ext; intros k; lia|].
  split; assumption.
Qed.

(** X11: the jurisdiction written by a continuation in and the one written
    for a foreign amalgamating business are the same function of country and
    region: for the same ['foreignJurisdiction'] the two rows carry the same
    Canadian jurisdiction code and the same description of another
    jurisdiction.  The continuation creates one jurisdiction row, after the
    change of the extra-provincial company's state when the body names one;
    the description is set exactly when the upper-cased country is not CA,
    and the code is then OT. *)
Theorem jurisdiction_codes_agree (f : Filing) (p : payload addresses share_class)
    (fj : foreign_jurisdiction) (ab : amalgamating_business)
    (eid : option Z) (index : Z) (c : string) (st1 st1' st2 st2' : state) :
  foreignJurisdiction p = Some fj ->
  ab_foreignJurisdiction ab = Some fj ->
  is_domestic ab = false ->
  country fj = Some c ->
  _process_continuation_in f p st1 = (Ok tt, st1') ->
  process_amalgamating_business eid index ab st2 = (Ok tt, st2') ->
  exists j row,
    snd st1'
    = (snd st1
       ++ match expro_business p with
          | Some identifier =>
              [update_corp_state (event_id f) identifier CONTINUE_IN_STATE]
          | None => []
          end
       ++ [create_jurisdiction j])%list
    /\ snd st2' = (snd st2 ++ [create_corp_involved row])%list
    /\ j_corp_num j = corp_num (f_business f)
    /\ j_start_event_id j = event_id f
    /\ ci_can_jur_typ_cd row = Some (j_can_jur_typ_cd j)
    /\ ci_othr_juri_desc row = j_othr_juris_desc j
    /\ (j_othr_juris_desc j = None <-> upper c = "CA")
    /\ (upper c <> "CA" -> j_can_jur_typ_cd j = "OT").
Proof.
  intros Hp Hab Hdom Hc Hcont Ham.
  unfold Steps._process_continuation_in in Hcont. rewrite Hp, Hc in Hcont.
  cbv zeta in Hcont.
  unfold Steps.process_amalgamating_business in Ham. rewrite Hab in Ham.
  unfold is_domestic in Hdom. rewrite Hab in Hdom.
  destruct (ab_identifier ab) as [identifier|]; [|discriminate Ham].
  rewrite Hdom in Ham. cbn [negb] in Ham. rewrite Hc in Ham. cbv zeta in Ham.
  apply logged_log in Ham.
  assert (Hlog : exists j,
             snd st1'
             = (snd st1
                ++ match expro_business p with
                   | Some identifier0 =>
                       [update_corp_state (event_id f) identifier0
                          CONTINUE_IN_STATE]
                   | None => []
                   end
                ++ [create_jurisdiction j])%list
             /\ j_corp_num j = corp_num (f_business f)
             /\ j_start_event_id j = event_id f
             /\ j_can_jur_typ_cd j
                = (if String.eqb (upper c) "CA"
                   then if String.eqb
                             (upper (if truthy_str (region fj)
                                     then match region fj with
                                          | Some r => r
                                          | None => ""
                                          end
                                     else "")) "FEDERAL"
                        then "FD"
                        else upper (if truthy_str (region fj)
                                    then match region fj with
                                         | Some r => r
                                         | None => ""
                                         end
                                    else "")
                   else "OT")
             /\ j_othr_juris_desc j
                = (if String.eqb (upper c) "CA" then None
                   else Some (if String.eqb
                                   (upper (if truthy_str (region fj)
                                           then match region fj with
                                                | Some r => r
                                                | None => ""
                                                end
                                           else "")) ""
                              then upper c
                              else upper c ++ ", "
                                   ++ upper (if truthy_str (region fj)
                                             then match region fj with
                                                  | Some r => r
                                                  | None => ""
                                                  end
                                             else "")))).
  { destruct (expro_business p) as [identifier0|].
    - apply bind_inv_ok in Hcont as ([] & s1 & H1 & H2).
      apply logged_log in H1. apply logged_log in H2.
      eexists. split; [rewrite H2, H1, <- app_assoc; reflexivity|].
      repeat split.
    - apply logged_log in Hcont.
      eexists. split; [rewrite Hcont; reflexivity|]. repeat split. }
  destruct Hlog as (j & L & Hcorp & Hev & Hcan & Hdesc).
  exists j. eexists. split; [exact L|]. split; [exact Ham|].
  split; [exact Hcorp|]. split; [exact Hev|].
  rewrite Hcan, Hdesc.
  destruct (String.eqb (upper c) "CA") eqn:E.
  - apply String.eqb_eq in E. cbn.
    split; [reflexivity|]. split; [reflexivity|].
    split; [split; [intros _; exact E | reflexivity]|].
    intros Hne. contradiction.
  - apply String.eqb_neq in E. cbn.
    split; [reflexivity|]. split; [reflexivity|].
    split; [split; [discriminate | intros Hca; contradiction]|].
    reflexivity.
Qed.

Lemma offices_loop_run (f : Filing) (corp : string)
    (entries : list (string * addresses)) (text0 text : string) (st st' : state) :
  offices_loop f corp entries text0 st = (Ok text, st') ->
  snd st'
  = (snd st ++ map (fun e => create_new_office (Some (snd e)) (event_id f) corp (fst e))
                 entries)%list
  /\ text
     = (if keeps_office_text f
        then String.concat " "
               (if String.eqb text0 ""
                then map (fun e => Steps.office_sentence title (fst e)) entries
                else text0 :: map (fun e => Steps.office_sentence title (fst e)) entries)
        else text0).
Proof.
  unfold keeps_office_text.
  destruct (negb (str_in (filing_type f)
                    ["amalgamationApplication"; "continuationIn";
                     "incorporationApplication"])) eqn:K.
  - revert text0 st. induction entries as [|[office_type a] rest IH]; intros text0 st H.
    + injection H as <- <-. rewrite app_nil_r. split; [reflexivity|].
      destruct (String.eqb text0 "") eqn:E; [|reflexivity].
      apply String.eqb_eq in E. subst. reflexivity.
    + cbn [Steps.offices_loop] in H.
      apply bind_inv_ok in H as ([] & s1 & H1 & H2).
      apply logged_log in H1. rewrite K in H2. apply IH in H2 as [L2 T2].
      split; [rewrite L2, H1; cbn [map fst snd]; rewrite <- app_assoc; reflexivity|].
      rewrite T2. cbn [map fst].
      set (s := Steps.office_sentence title office_type).
      assert (Hs : String.eqb s "" = false) by reflexivity.
      destruct (String.eqb text0 "") eqn:E.
      * rewrite Hs. reflexivity.
      * rewrite (append_nonempty text0 (" " ++ s) E).
        apply concat_glued.
  - revert text0 st. induction entries as [|[office_type a] rest IH]; intros text0 st H.
    + injection H as <- <-. rewrite app_nil_r. split; reflexivity.
    + cbn [Steps.offices_loop] in H.
      apply bind_inv_ok in H as ([] & s1 & H1 & H2).
      apply logged_log in H1. rewrite K in H2. apply IH in H2 as [L2 T2].
      split; [rewrite L2, H1; cbn [map fst snd]; rewrite <- app_assoc; reflexivity|].
      exact T2.
Qed.

(** X12: what [_process_office] does in a run that returns.  For an annual
    report nothing is created and the text is empty.  For a voluntary
    dissolution one office is created, of type custodialOffice, from the
    body's custodialOffice, whatever the body's offices hold.  Otherwise one
    office is created for each office type of the body, in order, at the
    event and for the entity of the filing, and the text is one sentence for
    each, joined by single spaces, but empty for an amalgamation, a
    continuation in or an incorporation. *)
Theorem process_office_calls (f : Filing) (p : payload addresses share_class)
    (st st' : state) (text : string) :
  _process_office f p st = (Ok text, st') ->
  (filing_type f = "annualReport" -> snd st' = snd st /\ text = "")
  /\ (filing_type f <> "annualReport" ->
      is_filing_type_match f "dissolution" "voluntary" = true ->
      snd st'
      = (snd st ++ [create_new_office (custodialOffice p) (event_id f)
                      (corp_num (f_business f)) "custodialOffice"])%list
      /\ text = Steps.office_sentence title "custodialOffice")
  /\ (filing_type f <> "annualReport" ->
      is_filing_type_match f "dissolution" "voluntary" = false ->
      snd st' = (snd st ++ office_calls f (offices p))%list
      /\ text
         = if keeps_office_text f
           then String.concat " "
                  (map (fun e => Steps.office_sentence title (fst e)) (offices p))
           else "").
Proof.
  unfold Steps._process_office. intros H. split; [|split].
  - intros Hft. rewrite Hft in H. injection H as <- <-. split; reflexivity.
  - intros Hft Hm. apply String.eqb_neq in Hft. rewrite Hft, Hm in H.
    apply bind_inv_ok in H as ([] & s1 & H1 & H2). injection H2 as <- <-.
    apply logged_log in H1. split; [exact H1 | reflexivity].
  - intros Hft Hm. apply String.eqb_neq in Hft. rewrite Hft, Hm in H.
    apply offices_loop_run in H as [L T]. split; [exact L|]. exact T.
Qed.

Lemma resolutions_run (corp : string) (event_id : option Z) (dates : list string)
    (st st' : state) :
  Steps.resolutions_loop store addresses share_class Business_create_resolution
    corp event_id dates st = (Ok tt, st') ->
  snd st' = (snd st ++ map (create_resolution corp event_id) dates)%list.
Proof.
  revert st. induction dates as [|x rest IH]; intros st H.
  - injection H as <-. rewrite app_nil_r. reflexivity.
  - simpl in H. apply bind_inv_ok in H as ([] & s1 & H1 & H2).
    apply logged_log in H1. rewrite (IH _ H2), H1. simpl.
    rewrite <- app_assoc. reflexivity.
Qed.

(** X13: what [_process_share_structure] does in a run that returns.  The
    resolution dates of the body are recorded first, one call each, for any
    entity.  A share structure is then created only for an entity that is
    not a cooperative and a list of share classes that is not empty; the
    structure in place is ended only by an alteration, just before the new
    one is created. *)
Theorem share_structure_calls (f : Filing) (p : payload addresses share_class)
    (corp : string) (ss : share_structure share_class) (st st' : state) :
  shareStructure p = Some ss ->
  _process_share_structure f p corp st = (Ok tt, st') ->
  exists shares,
    snd st'
    = (snd st ++ map (create_resolution corp (event_id f)) (resolutionDates ss)
         ++ shares)%list
    /\ (corp_type (f_business f) = TypeCode COOP -> shares = [])
    /\ (shareClasses ss = [] -> shares = [])
    /\ (corp_type (f_business f) <> TypeCode COOP -> shareClasses ss <> [] ->
        shares
        = ((if String.eqb (filing_type f) "alteration"
            then [end_share_structure (event_id f) corp] else [])
           ++ [create_share_structure corp (event_id f) (shareClasses ss)])%list).
Proof.
  unfold Steps._process_share_structure. intros Hss H. rewrite Hss in H.
  apply bind_inv_ok in H as ([] & s1 & H1 & H2).
  apply resolutions_run in H1.
  destruct (pykey_eqb (corp_type (f_business f)) (TypeCode COOP)) eqn:Ec.
  - apply pykey_eqb_eq in Ec. cbn [negb andb] in H2. injection H2 as <-.
    exists []. rewrite app_nil_r. repeat split; try reflexivity; try assumption.
    intros Hne. contradiction.
  - assert (Hne : corp_type (f_business f) <> TypeCode COOP).
    { intros E. apply pykey_eqb_eq in E. rewrite E in Ec. discriminate Ec. }
    cbn [negb andb] in H2.
    destruct (shareClasses ss) as [|x l] eqn:El.
    + injection H2 as <-. exists []. rewrite app_nil_r.
      repeat split; try reflexivity; try assumption.
      intros _ Hl. contradiction.
    + cbn [negb] in H2.
      apply bind_inv_ok in H2 as ([] & s2 & H3 & H4).
      apply logged_log in H4.
      assert (L3 : snd s2
                   = (snd s1 ++ (if String.eqb (filing_type f) "alteration"
                                 then [end_share_structure (event_id f) corp]
                                 else []))%list).
      { destruct (String.eqb (filing_type f) "alteration").
        - apply (logged_log _ _ _ _ _ H3).
        - injection H3 as <-. rewrite app_nil_r. reflexivity. }
      eexists. split; [rewrite H4, L3, H1, <- !app_assoc; reflexivity|].
      repeat split.
      * intros E. contradiction.
      * discriminate.
Qed.

End Collaborators.

Section DissolutionEvents.

Variable Business_update_corp_state : Z -> string -> CorpStateTypes -> M db unit.

(** X14: the dissolution events.  An involuntary dissolution whose metadata
    is absent, or flags neither overdue annual reports nor an overdue
    transition, returns None and leaves the database as it was, and these are
    the only calls that return None.  Otherwise
    the id returned is that of one new event of the entity, of type SYSDF
    when annual reports are overdue and SYSDT when only the transition is,
    and the state set on it is the matching involuntary dissolution; an
    administrative dissolution allocates an event of type SYSDA.  None of
    them is a FILE event. *)
Theorem dissolution_events (corp : string) (md : option meta_data) (d d' : db) :
  (forall r,
     add_involuntary_dissolution_event Business_update_corp_state corp md d
     = (Ok r, d') ->
     match r with
     | None =>
         d' = d
         /\ (md = None
             \/ exists m, md = Some m /\ overdueARs m = false
                          /\ overdueTransition m = false)
     | Some e =>
         exists m d1,
           md = Some m
           /\ (overdueARs m || overdueTransition m = true)
           /\ _get_event_id corp (if overdueARs m then "SYSDF" else "SYSDT") d
              = (Ok e, d1)
           /\ event d1
              = (event d
                 ++ [Statements.new_event e corp
                       (if overdueARs m then "SYSDF" else "SYSDT") d])%list
           /\ Business_update_corp_state e corp
                (if overdueARs m then INVOLUNTARY_DISSOLUTION_NO_AR
                 else INVOLUNTARY_DISSOLUTION_NO_TR) d1
              = (Ok tt, d')
     end)
  /\ (forall e,
        add_administrative_dissolution_event Business_update_corp_state corp d
        = (Ok e, d') ->
        exists d1,
          _get_event_id corp "SYSDA" d = (Ok e, d1)
          /\ event d1 = (event d ++ [Statements.new_event e corp "SYSDA" d])%list
          /\ Business_update_corp_state e corp ADMINISTRATIVE_DISSOLUTION d1
             = (Ok tt, d'))
  /\ (md = None
      \/ (exists m, md = Some m /\ overdueARs m = false
                    /\ overdueTransition m = false) ->
      add_involuntary_dissolution_event Business_update_corp_state corp md d
      = (Ok None, d)).
Proof.
  split; [|split].
  - intros r H. unfold add_involuntary_dissolution_event in H.
    destruct md as [m|].
    + destruct (overdueARs m) eqn:Ea.
      * apply bind_inv_ok in H as (e & d1 & H1 & H2).
        apply bind_inv_ok in H2 as ([] & d2 & H3 & H4). injection H4 as <- <-.
        exists m, d1. rewrite Ea. repeat split; try assumption.
        apply (AllocationFacts.get_event_id_inv _ _ _ _ _ H1).
      * destruct (overdueTransition m) eqn:Et.
        -- apply bind_inv_ok in H as (e & d1 & H1 & H2).
           apply bind_inv_ok in H2 as ([] & d2 & H3 & H4). injection H4 as <- <-.
           exists m, d1. rewrite Ea, Et. repeat split; try assumption.
           apply (AllocationFacts.get_event_id_inv _ _ _ _ _ H1).
        -- injection H as <- <-. split; [reflexivity|].
           right. exists m. repeat split; assumption.
    + injection H as <- <-. split; [reflexivity | left; reflexivity].
  - intros e H. unfold add_administrative_dissolution_event in H.
    apply bind_inv_ok in H as (e0 & d1 & H1 & H2).
    apply bind_inv_ok in H2 as ([] & d2 & H3 & H4). injection H4 as <- <-.
    exists d1. repeat split; try assumption.
    apply (AllocationFacts.get_event_id_inv _ _ _ _ _ H1).
  - intros [-> | (m & -> & Ha & Ht)]; unfold add_involuntary_dissolution_event;
      [reflexivity | rewrite Ha, Ht; reflexivity].
Qed.

End DissolutionEvents.

End StepFacts.

Module StepExamples.
Import Business Registry Ledger Steps StepTables SampleSteps.

Example three_businesses_calls :
  run_amalgamation
  = (Ok tt,
     (tt,
      [update_corp_state (Some 7) (Some "1234567") AMALGAMATED;
       create_corp_involved
         {| ci_event_id := Some 7; ci_corp_involve_id := 0;
            ci_home_juri_num := None; ci_foreign_nme := None;
            ci_can_jur_typ_cd := None; ci_othr_juri_desc := None;
            ci_corp_num := Some "1234567"; ci_adopted_corp_ind := Some "Y" |};
       update_corp_state (Some 7) (Some "A0001234") AMALGAMATED;
       create_corp_involved
         {| ci_event_id := Some 7; ci_corp_involve_id := 1;
            ci_home_juri_num := None; ci_foreign_nme := None;
            ci_can_jur_typ_cd := None; ci_othr_juri_desc := None;
            ci_corp_num := Some "A0001234"; ci_adopted_corp_ind := None |};
       create_corp_involved
         {| ci_event_id := Some 7; ci_corp_involve_id := 2;
            ci_home_juri_num := Some "X99"; ci_foreign_nme := Some "Foreign Co";
            ci_can_jur_typ_cd := Some "OT"; ci_othr_juri_desc := Some "US, WA";
            ci_corp_num := None; ci_adopted_corp_ind := None |}])).
Proof. reflexivity. Qed.

Lemma amalgamating_rows_witness :
  exists rows,
    snd (snd run_amalgamation) = flat_map row_calls rows
    /\ length rows = 3%nat
    /\ map ci_corp_involve_id rows = [0; 1; 2].
Proof.
  destruct (StepFacts.amalgamating_rows unit string string
              (fun e c s => accept s) accept ascii_upper
              (filed "amalgamationApplication" (TypeCode BC_COMP))
              amalgamation_payload (tt, []) _ three_businesses_calls)
    as (rows & L & Hlen & Hids & _).
  exists rows. split; [exact L|]. split; [exact Hlen | exact Hids].
Defined.

Example offices_text :
  run_offices
  = (Ok "Change to the Registered Office. Change to the Records Office.",
     (tt,
      [create_new_office (Some "1 Main St") (Some 7) "1234567" "registeredOffice";
       create_new_office (Some "2 Side St") (Some 7) "1234567" "recordsOffice"])).
Proof. reflexivity. Qed.

Lemma process_office_calls_witness :
  filing_type (filed "changeOfAddress" (TypeCode BC_COMP)) <> "annualReport"
  /\ snd (snd run_offices)
     = office_calls (filed "changeOfAddress" (TypeCode BC_COMP)) (offices offices_payload).
Proof.
  assert (Hft : filing_type (filed "changeOfAddress" (TypeCode BC_COMP))
                <> "annualReport") by discriminate.
  split; [exact Hft|].
  destruct (StepFacts.process_office_calls unit string string
              (fun a e c t => accept t) ascii_title
              (filed "changeOfAddress" (TypeCode BC_COMP)) offices_payload
              (tt, []) _ _ offices_text) as (_ & _ & H).
  apply (H Hft eq_refl).
Defined.

Lemma jurisdiction_codes_agree_witness :
  StepTables.is_domestic
    {| ab_identifier := Some "X99"; ab_foreignJurisdiction := Some washington;
       ab_legalName := Some "Foreign Co"; ab_role := Some "amalgamating" |} = false
  /\ exists j row,
       snd (snd run_continuation)
       = [update_corp_state (Some 7) (Some "A0001234") CONTINUE_IN_STATE;
          create_jurisdiction j]
       /\ ci_can_jur_typ_cd row = Some (j_can_jur_typ_cd j)
       /\ ci_othr_juri_desc row = j_othr_juris_desc j
       /\ j_can_jur_typ_cd j = "OT".
Proof.
  split; [reflexivity|].
  destruct (StepFacts.jurisdiction_codes_agree unit string string
              (fun e c s => accept s) accept accept ascii_upper
              (filed "continuationIn" (TypeCode CONTINUE_IN)) continuation_payload
              washington
              {| ab_identifier := Some "X99"; ab_foreignJurisdiction := Some washington;
                 ab_legalName := Some "Foreign Co"; ab_role := Some "amalgamating" |}
              (Some 7) 2 "us" (tt, []) (snd run_continuation) (tt, [])
              (snd (Steps.process_amalgamating_business unit string string
                      (fun e c s => accept s) accept ascii_upper (Some 7) 2
                      {| ab_identifier := Some "X99";
                         ab_foreignJurisdiction := Some washington;
                         ab_legalName := Some "Foreign Co";
                         ab_role := Some "amalgamating" |} (tt, [])))
              eq_refl eq_refl eq_refl eq_refl eq_refl eq_refl)
    as (j & row & L & _ & _ & _ & Hcan & Hdesc & _ & Hot).
  exists j, row. split; [exact L|]. split; [exact Hcan|]. split; [exact Hdesc|].
  apply Hot. discriminate.
Defined.

Lemma share_structure_calls_witness :
  shareStructure shares_payload
  = Some {| resolutionDates := ["2024-01-02"]; shareClasses := ["Class A"] |}
  /\ snd (snd (run_shares "alteration" (TypeCode BC_COMP)))
     = [create_resolution "1234567" (Some 7) "2024-01-02";
        end_share_structure (Some 7) "1234567";
        create_share_structure "1234567" (Some 7) ["Class A"]]
  /\ snd (snd (run_shares "alteration" (TypeCode COOP)))
     = [create_resolution "1234567" (Some 7) "2024-01-02"].
Proof.
  split; [reflexivity|].
  destruct (StepFacts.share_structure_calls unit string string
              (fun c e r => accept r) (fun e c => accept c) (fun c e l => accept l)
              (filed "alteration" (TypeCode BC_COMP)) shares_payload "1234567"
              {| resolutionDates := ["2024-01-02"]; shareClasses := ["Class A"] |}
              (tt, []) (snd (run_shares "alteration" (TypeCode BC_COMP)))
              eq_refl eq_refl) as (shares & L & _ & _ & H).
  split; [|reflexivity].
  etransitivity; [exact L|].
  rewrite (H ltac:(discriminate) ltac:(discriminate)). reflexivity.
Defined.

Lemma dissolution_events_witness :
  exists d1,
    _get_event_id "1234567" "SYSDT" SampleLedger.sample_db = (Ok 100, d1)
    /\ event d1
       = [Statements.new_event 100 "1234567" "SYSDT" SampleLedger.sample_db].
Proof.
  destruct (proj1 (StepFacts.dissolution_events (fun _ _ _ => ret tt) "1234567"
                     (Some {| overdueARs := false; overdueTransition := true |})
                     SampleLedger.sample_db
                     (snd (add_involuntary_dissolution_event (fun _ _ _ => ret tt)
                             "1234567"
                             (Some {| overdueARs := false;
                                      overdueTransition := true |})
                             SampleLedger.sample_db)))
              (Some 100) eq_refl)
    as (m & d1 & Hm & _ & Hid & Hev & _).
  injection Hm as <-. exists d1. split; [exact Hid | exact Hev].
Defined.

End StepExamples.

(** ** Name translations, written and read back *)

Module NameComponentFacts.
Import Names TranslationDiff Reconstruct NameComponent.

Lemma classify_app (e : Z) (l1 l2 : list corp_name_row) :
  classify e (l1 ++ l2) = (classify e l1 ++ classify e l2)%list.
Proof.
  induction l1 as [|r l1 IH]; simpl; [reflexivity|].
  destruct (at_event (cn_start_event_id r) e); [rewrite IH; reflexivity|].
  destruct (at_event (cn_end_event_id r) e); rewrite IH; reflexivity.
Qed.

Lemma classify_touching (e : Z) (l : list corp_name_row) :
  classify e l = classify e (filter (touches e) l).
Proof.
  induction l as [|r l IH]; simpl; [reflexivity|]. unfold touches at 1.
  destruct (at_event (cn_start_event_id r) e) eqn:Es; simpl.
  - rewrite Es, IH. reflexivity.
  - destruct (at_event (cn_end_event_id r) e) eqn:Ee; simpl.
    + rewrite Es, Ee, IH. reflexivity.
    + exact IH.
Qed.

Lemma process_translations_table (f : Filing) (corp : string) (s : names) (e : Z) :
  event_id f = Some e ->
  nameTranslations (body f) <> [] ->
  _process_name_translations f corp s
  = (Ok tt,
     (map (diffed (Some e) corp (nameTranslations (body f))) s
      ++ map (new_translation corp (Some e))
           (fresh corp (nameTranslations (body f)) s))%list).
Proof.
  intros He Hne. unfold _process_name_translations, get_current_by_type, bind.
  destruct (nameTranslations (body f)) as [|x rest] eqn:En; [contradiction|].
  rewrite <- En. clear Hne.
  set (nts := nameTranslations (body f)).
  set (olds := filter (is_current corp TRANSLATION) s).
  rewrite NameFacts.create_translations_run, NameFacts.end_absent_run, He, map_app.
  f_equal. f_equal.
  - apply map_ext_in. intros r Hr. unfold diffed.
    destruct (is_current corp TRANSLATION r) eqn:Hcur; simpl.
    + destruct (name_in_translations (cn_corp_name r) nts) eqn:Hn; simpl.
      * apply NameFacts.steps_name_kept, Hn.
      * apply (NameFacts.steps_ended e corp nts olds r r Hcur Hn); [|reflexivity].
        apply filter_In. split; assumption.
    + apply NameFacts.steps_not_current, Hcur.
  - rewrite map_map. apply map_ext_in. intros y Hy.
    apply filter_In in Hy as [Hy _]. apply NameFacts.steps_name_kept.
    apply NameFacts.own_name_in_translations, Hy.
Qed.

Lemma classify_diffed (e : Z) (corp : string) (nts : list translation) (s : names) :
  (forall r, In r s -> touches e r = false) ->
  classify e (map (diffed (Some e) corp nts) s)
  = map ceased_name (dropped corp nts s).
Proof.
  unfold dropped. induction s as [|r s IH]; intros Hs; [reflexivity|].
  assert (Hr : touches e r = false) by (apply Hs; left; reflexivity).
  assert (Hs' : forall x, In x s -> touches e x = false)
    by (intros x Hx; apply Hs; right; exact Hx).
  unfold touches in Hr. apply orb_false_iff in Hr as [Hr1 Hr2].
  cbn [map filter]. unfold diffed at 1.
  destruct (is_current corp TRANSLATION r
            && negb (name_in_translations (cn_corp_name r) nts)).
  - cbn [classify map].
    change (cn_start_event_id (with_end r (Some e))) with (cn_start_event_id r).
    change (cn_end_event_id (with_end r (Some e))) with (Some e).
    change (cn_corp_name (with_end r (Some e))) with (cn_corp_name r).
    rewrite Hr1. cbn [at_event]. rewrite Z.eqb_refl, (IH Hs'). reflexivity.
  - cbn [classify]. rewrite Hr1, Hr2. apply (IH Hs').
Qed.

Lemma classify_created (e : Z) (corp : string) (l : list translation) :
  classify e (map (new_translation corp (Some e)) l)
  = map new_name (map t_name l).
Proof.
  induction l as [|x l IH]; [reflexivity|].
  cbn [map classify].
  change (cn_start_event_id (new_translation corp (Some e) x)) with (Some e).
  cbn [at_event]. rewrite Z.eqb_refl, IH. reflexivity.
Qed.

Section RoundTrip.

Variable CorpName_get_by_event : string -> Z -> string -> result (list corp_name_row).

(** X15: name translations written by a filing read back as the filing's
    changes.  Take a table in which no row starts or ends at the event of
    the filing, run [_process_name_translations] with a non-empty incoming
    list, and let [CorpName.get_by_event] hand back, in table order, rows
    among which those that start or end at the event are the ones of the
    table after the run.  The component [get_filing] then builds lists the
    prior current translations missing from the incoming list as ceased,
    followed by the incoming translations that were not current as new, and
    the key is absent when there is neither. *)
Theorem translations_read_back (f : Filing) (corp : string) (s : names) (e : Z)
    (info : event_info) (rows : list corp_name_row) :
  event_id f = Some e ->
  i_event_id info = e ->
  nameTranslations (body f) <> [] ->
  (forall r, In r s -> touches e r = false) ->
  CorpName_get_by_event corp e "TR" = Ok rows ->
  filter (touches e) rows
  = filter (touches e) (snd (_process_name_translations f corp s)) ->
  get_filing_nameTranslations CorpName_get_by_event corp info
  = Ok (match (map ceased_name (dropped corp (nameTranslations (body f)) s)
               ++ map new_name
                    (map t_name (fresh corp (nameTranslations (body f)) s)))%list
        with
        | [] => None
        | entries => Some entries
        end).
Proof.
  intros He Hi Hne Hs Hget Hrows.
  unfold get_filing_nameTranslations. rewrite Hi, Hget.
  rewrite (process_translations_table f corp s e He Hne) in Hrows.
  cbn [snd] in Hrows.
  rewrite (classify_touching e rows), Hrows, <- classify_touching.
  rewrite classify_app, (classify_diffed e corp _ s Hs), classify_created.
  destruct (map ceased_name _ ++ _)%list; reflexivity.
Qed.

End RoundTrip.

Lemma translations_read_back_witness :
  event_id (SampleNames.alteration_with ["Alpha"; "Gamma"]) = Some 7
  /\ get_filing_nameTranslations
       (fun corp e type_code =>
          Ok (snd (_process_name_translations
                     (SampleNames.alteration_with ["Alpha"; "Gamma"]) "1234567"
                     SampleNames.alpha_beta)))
       "1234567"
       (derive (header_row (SampleLedger.file_event 7 20)
                  (SampleLedger.header_of 7 "NOALA" 20) None))
     = Ok (Some [ceased_name "Beta"; new_name "Gamma"]).
Proof.
  split; [reflexivity|].
  rewrite (translations_read_back
             (fun corp e type_code =>
                Ok (snd (_process_name_translations
                           (SampleNames.alteration_with ["Alpha"; "Gamma"]) "1234567"
                           SampleNames.alpha_beta)))
             (SampleNames.alteration_with ["Alpha"; "Gamma"]) "1234567"
             SampleNames.alpha_beta 7
             (derive (header_row (SampleLedger.file_event 7 20)
                        (SampleLedger.header_of 7 "NOALA" 20) None))
             (snd (_process_name_translations
                     (SampleNames.alteration_with ["Alpha"; "Gamma"]) "1234567"
                     SampleNames.alpha_beta))
             eq_refl eq_refl ltac:(discriminate)).
  - reflexivity.
  - intros r [<- | [<- | []]]; reflexivity.
  - reflexivity.
  - reflexivity.
Defined.

End NameComponentFacts.

(** ** The reverse lookup on any code, and the header that is loaded *)

Module ReverseLookupFacts.
Import Business Registry RegistryTables ReverseLookup.

Lemma get_filing_type_in_spec (table : list (string * list (pykey * pyval)))
    (c : string) :
  Forall lists_codes table ->
  exists r,
    _get_filing_type_in table c = Ok r
    /\ (r = None -> forall t, ~ In (t, c) (pairs_of table))
    /\ (forall t, r = Some t -> In (t, c) (pairs_of table)).
Proof.
  induction table as [|[ft d] table IH]; intros Hall.
  - exists None. split; [reflexivity|]. split; [intros _ t []|discriminate].
  - inversion Hall as [|x xs [l Hl] Hrest]; subst.
    cbn [snd] in Hl. cbn [_get_filing_type_in]. unfold type_code_list. rewrite Hl.
    cbn [py_contains]. unfold pairs_of. cbn [flat_map fst snd]. rewrite Hl.
    fold (pairs_of table).
    destruct (str_in c l) eqn:E.
    + exists (Some ft). split; [reflexivity|]. split; [discriminate|].
      intros t [= <-]. apply in_or_app. left. apply in_map.
      apply str_in_In, E.
    + destruct (IH Hrest) as (r & Hr & Hnone & Hsome). exists r.
      split; [exact Hr|]. split.
      * intros -> t Hin. apply in_app_or in Hin as [Hin|Hin].
        -- apply in_map_iff in Hin as (x & [= <- <-] & Hx).
           apply str_in_In in Hx. rewrite Hx in E. discriminate E.
        -- apply (Hnone eq_refl t Hin).
      * intros t Ht. apply in_or_app. right. apply Hsome, Ht.
Qed.

Lemma filing_types_list_codes : Forall lists_codes FILING_TYPES.
Proof. unfold FILING_TYPES. repeat constructor; eexists; reflexivity. Qed.

(** X16: the reverse lookup never raises, whatever the code: it gives a
    filing type that lists the code, and None exactly when no filing type of
    the table lists it. *)
Theorem reverse_lookup_total (c : string) :
  exists r,
    _get_filing_type c = Ok r
    /\ (r = None <-> forall t, ~ In (t, c) code_pairs)
    /\ (forall t, r = Some t -> In (t, c) code_pairs /\ In c (codes_of t)).
Proof.
  destruct (get_filing_type_in_spec FILING_TYPES c filing_types_list_codes)
    as (r & Hr & Hnone & Hsome).
  exists r. split; [exact Hr|]. split; [split|].
  - exact Hnone.
  - intros Hno. destruct r as [t|]; [|reflexivity].
    exfalso. apply (Hno t). apply Hsome. reflexivity.
  - intros t Ht. pose proof (Hsome t Ht) as Hin. split; [exact Hin|].
    assert (Hall : forallb (fun p => str_in (snd p) (codes_of (fst p))) code_pairs = true)
      by (vm_compute; reflexivity).
    rewrite forallb_forall in Hall. apply str_in_In. apply (Hall (t, c) Hin).
Qed.

End ReverseLookupFacts.

Module LoadedHeaderFacts.
Import Business Registry Ledger Reconstruct.

Lemma header_rows_origin (d : db) (r : event_info) :
  In r (header_rows d) ->
  exists e fr,
    In e (event d) /\ In fr (filing d)
    /\ fl_event_id fr = ev_event_id e
    /\ i_event_id r = ev_event_id e
    /\ i_corp_num r = ev_corp_num e
    /\ i_filing_typ_cd r = fl_filing_typ_cd fr
    /\ i_event_timestmp r = ev_event_timestmp e.
Proof.
  unfold header_rows. intros H.
  apply in_flat_map in H as (e & He & H).
  apply in_flat_map in H as (fr & Hfr & H).
  destruct (fl_event_id fr =? ev_event_id e) eqn:E; [|destruct H].
  apply Z.eqb_eq in E. exists e, fr.
  destruct (filter (fun u => fu_event_id u =? ev_event_id e) (filing_user d))
    as [|u us].
  - destruct H as [<- | []]. repeat split; assumption.
  - apply in_map_iff in H as (u' & <- & _). repeat split; assumption.
Qed.

(** X17: a header that [_get_filing_event_info] loads answers the query.
    It joins an event and a filing row of the tables with the same event id;
    it belongs to the entity of the filing when that has a number; its period
    ends in the year asked for, when a year other than 0 is given; it is the
    header of the filing's event when the filing has an event id other than
    0; and when the filing has no event id, or the event id 0, its code is
    the code resolved for the filing's type. *)
Theorem loaded_header_matches (d : db) (f : Filing) (yr : option Z)
    (info : event_info) :
  _get_filing_event_info d f yr = Ok info ->
  (corp_num (f_business f) <> "" -> i_corp_num info = corp_num (f_business f))
  /\ (forall y, yr = Some y -> y <> 0 ->
        exists dt, i_period_end_dt info = Some dt /\ year dt = y)
  /\ (forall eid, event_id f = Some eid -> eid <> 0 -> i_event_id info = eid)
  /\ (truthy_int (event_id f) = false ->
      get_filing_type_code f None = Ok (Some (VStr (i_filing_type_code info))))
  /\ (exists e fr,
        In e (event d) /\ In fr (filing d)
        /\ fl_event_id fr = ev_event_id e
        /\ i_event_id info = ev_event_id e
        /\ i_corp_num info = ev_corp_num e
        /\ i_filing_typ_cd info = fl_filing_typ_cd fr
        /\ i_event_timestmp info = ev_event_timestmp e).
Proof.
  unfold _get_filing_event_info. intros H.
  destruct (header_selector f) as [sel|x] eqn:Hsel; [|discriminate H].
  destruct (newest (filter (matches sel (corp_num (f_business f)) yr) (header_rows d)))
    as [r|] eqn:Hn; [|discriminate H].
  injection H as <-.
  apply HeaderLookup.newest_greatest in Hn as [Hin _].
  apply filter_In in Hin as [Hrow Hm].
  unfold matches in Hm.
  apply andb_true_iff in Hm as [Hm Hyear]. apply andb_true_iff in Hm as [Hm Hcorp].
  split; [|split; [|split; [|split]]].
  - intros Hne. change (i_corp_num (derive r)) with (i_corp_num r).
    destruct (String.eqb (corp_num (f_business f)) "") eqn:E.
    + apply String.eqb_eq in E. contradiction.
    + apply String.eqb_eq, Hcorp.
  - intros y -> Hy. change (i_period_end_dt (derive r)) with (i_period_end_dt r).
    assert (T : truthy_int (Some y) = true).
    { simpl. destruct (y =? 0) eqn:E; [apply Z.eqb_eq in E; contradiction|reflexivity]. }
    rewrite T in Hyear.
    destruct (i_period_end_dt r) as [dt|]; [|discriminate Hyear].
    exists dt. split; [reflexivity | apply Z.eqb_eq, Hyear].
  - intros eid He Hne. change (i_event_id (derive r)) with (i_event_id r).
    unfold header_selector in Hsel. rewrite He in Hsel.
    assert (T : truthy_int (Some eid) = true).
    { simpl. destruct (eid =? 0) eqn:E; [apply Z.eqb_eq in E; contradiction|reflexivity]. }
    rewrite T in Hsel. injection Hsel as <-. apply Z.eqb_eq, Hm.
  - intros Hf. change (i_filing_type_code (derive r)) with (i_filing_typ_cd r).
    unfold header_selector in Hsel. rewrite Hf in Hsel.
    destruct (get_filing_type_code f None) as [code|x]; [|discriminate Hsel].
    injection Hsel as <-.
    destruct code as [[c|l|m]|]; try discriminate Hm.
    apply String.eqb_eq in Hm. rewrite Hm. reflexivity.
  - destruct (header_rows_origin d r Hrow) as (e & fr & H).
    exists e, fr. exact H.
Qed.

Lemma loaded_header_matches_witness :
  match _get_filing_event_info SampleLedger.coop_db SampleLedger.coop_report
          (Some 2017) with
  | Ok info => i_event_id info = 1 /\ i_corp_num info = "CP0001"
  | Raise _ => False
  end.
Proof.
  destruct (_get_filing_event_info SampleLedger.coop_db SampleLedger.coop_report
              (Some 2017)) as [info|x] eqn:E.
  - destruct (loaded_header_matches _ _ _ _ E) as (Hc & _).
    split; [|apply Hc; discriminate].
    vm_compute in E. injection E as <-. reflexivity.
  - vm_compute in E. discriminate E.
Defined.

End LoadedHeaderFacts.
